(** * CalibreSplitter Pro: chapter detection, normalisation and extraction

    A shallow embedding of the core of the splitter
    ([src/utils/file_utils.py], [src/core/data_models.py],
    [src/processors/pdf_processor.py], [src/processors/epub_processor.py])
    and the properties of its specification, each settled against the code.

    Conventions of the embedding:
    - a Python [str] is a list of Unicode code points ([pystr]);
    - a Python [int] is a [Z];
    - in-place updates of a list of dataclass instances become a function
      returning the updated list (the detectors allocate one fresh [Chapter]
      per entry, so no two entries of a chapter list alias);
    - a call that may raise returns its exception explicitly, and the
      [try]/[except] blocks of the source are written out as matches on it;
    - what the file system, the clock and the PDF/EPUB libraries answer is an
      explicit input of the model. *)

From Stdlib Require Import ZArith NArith List Bool Lia String Ascii QArith.
From Stdlib Require Import DecimalString.
From stdpp Require Import base option list gmap strings.
Import ListNotations.

Open Scope Z_scope.

(** ** Python strings *)

Definition codepoint := N.
Definition pystr := list codepoint.

(** A string literal of the source, as code points (ASCII literals only). *)
Definition py (s : string) : pystr :=
  map N_of_ascii (list_ascii_of_string s).

Definition cp_eqb (a b : codepoint) : bool := N.eqb a b.

Fixpoint pystr_eqb (a b : pystr) : bool :=
  match a, b with
  | [], [] => true
  | x :: a', y :: b' => cp_eqb x y && pystr_eqb a' b'
  | _, _ => false
  end.

(** [len(s)] as a Python int. *)
Definition len (s : pystr) : Z := Z.of_nat (length s).

(** Truthiness of a string: [if s:]. *)
Definition truthy (s : pystr) : bool :=
  match s with [] => false | _ => true end.

Definition SPACE : codepoint := 32%N.
Definition DOT : codepoint := 46%N.
Definition UNDERSCORE : codepoint := 95%N.
Definition SLASH : codepoint := 47%N.

(** Unicode white space, as [str.isspace] and the [\s] of [re] on [str]
    patterns see it: U+0009..000D, U+001C..0020, U+0085, U+00A0, U+1680,
    U+2000..200A, U+2028, U+2029, U+202F, U+205F, U+3000. *)
Definition is_space (c : codepoint) : bool :=
  (((9 <=? c) && (c <=? 13)) || ((28 <=? c) && (c <=? 32))
   || (c =? 133) || (c =? 160) || (c =? 5760)
   || ((8192 <=? c) && (c <=? 8202))
   || (c =? 8232) || (c =? 8233) || (c =? 8239) || (c =? 8287)
   || (c =? 12288))%N.

(** The class [[\n\r\t\f\v]]. *)
Definition is_ctl_space (c : codepoint) : bool :=
  ((c =? 10) || (c =? 13) || (c =? 9) || (c =? 12) || (c =? 11))%N.

(** [INVALID_FILENAME_CHARS]: the class of [<], [>], [:], the double quote,
    [/], the backslash, [|], [?], [*], line feed, carriage return and tab. *)
Definition is_invalid_filename_char (c : codepoint) : bool :=
  ((c =? 60) || (c =? 62) || (c =? 58) || (c =? 34) || (c =? 47)
   || (c =? 92) || (c =? 124) || (c =? 63) || (c =? 42)
   || (c =? 10) || (c =? 13) || (c =? 9))%N.

(** [re.sub('[cls]', r, s)] for a one-character class. *)
Definition re_sub_class (cls : codepoint -> bool) (r : pystr) (s : pystr) : pystr :=
  flat_map (fun c => if cls c then r else [c]) s.

(** [re.sub('[cls]+', r, s)]: every maximal run of the class becomes one
    [r]. The replacement is written when the last character of a run is
    read. *)
Fixpoint re_sub_runs (cls : codepoint -> bool) (r : pystr) (s : pystr) : pystr :=
  match s with
  | [] => []
  | c :: t =>
      if cls c then
        match t with
        | c' :: _ => if cls c' then re_sub_runs cls r t else r ++ re_sub_runs cls r t
        | [] => r
        end
      else c :: re_sub_runs cls r t
  end.

(** [s.lstrip(chars)], [s.rstrip(chars)], [s.strip(chars)] for the set of
    characters [chars]. *)
Fixpoint lstrip (chars : codepoint -> bool) (s : pystr) : pystr :=
  match s with
  | [] => []
  | c :: t => if chars c then lstrip chars t else s
  end.

Fixpoint rstrip (chars : codepoint -> bool) (s : pystr) : pystr :=
  match s with
  | [] => []
  | c :: t =>
      match rstrip chars t with
      | [] => if chars c then [] else [c]
      | r => c :: r
      end
  end.

Definition strip (chars : codepoint -> bool) (s : pystr) : pystr :=
  rstrip chars (lstrip chars s).

Definition char_in (chars : pystr) (c : codepoint) : bool :=
  existsb (cp_eqb c) chars.

(** [s.upper()] and [s.lower()] on the ASCII letters. The case mappings of
    the other code points are not tabulated; the model leaves them
    unchanged. The source only compares the results with ASCII constants
    (the reserved device names, [".pdf"], [".epub"]), and no code point
    outside ASCII maps to a letter of those constants once the text is in
    NFKC form. *)
Definition upper_cp (c : codepoint) : codepoint :=
  (if (97 <=? c) && (c <=? 122) then c - 32 else c)%N.
Definition lower_cp (c : codepoint) : codepoint :=
  (if (65 <=? c) && (c <=? 90) then c + 32 else c)%N.
Definition upper (s : pystr) : pystr := map upper_cp s.
Definition lower (s : pystr) : pystr := map lower_cp s.

(** [a.endswith(b)], [a in b]. *)
Fixpoint startswith (a b : pystr) : bool :=
  match b, a with
  | [], _ => true
  | y :: b', x :: a' => cp_eqb x y && startswith a' b'
  | _ :: _, [] => false
  end.

Definition endswith (a b : pystr) : bool :=
  startswith (rev a) (rev b).

Fixpoint contains (needle hay : pystr) : bool :=
  startswith hay needle ||
  match hay with
  | [] => false
  | _ :: t => contains needle t
  end.

(** ** pathlib, on POSIX: [Path(s).name], [.stem], [.suffix]

    The name is the last component that is neither empty nor ["."]; stem
    and suffix split it at its last dot when that dot is neither its first
    nor its last character (pathlib up to Python 3.13). *)

Fixpoint split_on (sep : codepoint) (s : pystr) : list pystr :=
  match s with
  | [] => [[]]
  | c :: t =>
      if cp_eqb c sep then [] :: split_on sep t
      else match split_on sep t with
           | [] => [[c]]
           | w :: ws => (c :: w) :: ws
           end
  end.

Definition path_parts (s : pystr) : list pystr :=
  List.filter (fun w => truthy w && negb (pystr_eqb w [DOT])) (split_on SLASH s).

Definition path_name (s : pystr) : pystr := List.last (path_parts s) [].

(** [s.rfind('.')], [None] for [-1]. *)
Fixpoint rfind (c : codepoint) (s : pystr) : option nat :=
  match s with
  | [] => None
  | x :: t =>
      match rfind c t with
      | Some i => Some (S i)
      | None => if cp_eqb x c then Some 0%nat else None
      end
  end.

(** The [i] of [0 < i < len(name) - 1], when there is one. *)
Definition suffix_index (name : pystr) : option nat :=
  match rfind DOT name with
  | Some i => if (0 <? i)%nat && (S i <? length name)%nat then Some i else None
  | None => None
  end.

Definition name_stem (name : pystr) : pystr :=
  match suffix_index name with
  | Some i => firstn i name
  | None => name
  end.

Definition name_suffix (name : pystr) : pystr :=
  match suffix_index name with
  | Some i => skipn i name
  | None => []
  end.

Definition path_stem (s : pystr) : pystr := name_stem (path_name s).
Definition path_suffix (s : pystr) : pystr := name_suffix (path_name s).

(** ** [file_utils.sanitize_filename] *)

(** [RESERVED_NAMES] *)
Definition RESERVED_NAMES : list pystr :=
  map py ["CON"; "PRN"; "AUX"; "NUL";
          "COM1"; "COM2"; "COM3"; "COM4"; "COM5"; "COM6"; "COM7"; "COM8"; "COM9";
          "LPT1"; "LPT2"; "LPT3"; "LPT4"; "LPT5"; "LPT6"; "LPT7"; "LPT8"; "LPT9"]%string.

Definition in_reserved (s : pystr) : bool := existsb (pystr_eqb s) RESERVED_NAMES.

Section Sanitize.

(** [unicodedata.normalize('NFKC', _)]: the Unicode tables are not part of
    the repository; the normaliser is an input of the model. *)
Variable nfkc : pystr -> pystr.

(** [sanitize_filename(filename, replacement="_", max_length)], with the
    default replacement token. On a [str] argument no step of the body
    raises, so the ["error_filename"] handler is not reached. *)
Definition sanitize_filename (max_length : Z) (filename : pystr) : pystr :=
  if negb (truthy filename) then py "untitled" else
  let filename := nfkc filename in
  let filename := re_sub_class is_ctl_space [SPACE] filename in
  let filename := re_sub_runs is_space [SPACE] filename in
  let filename := strip (char_in [SPACE; DOT]) filename in
  let filename := re_sub_class is_invalid_filename_char [UNDERSCORE] filename in
  let filename := re_sub_runs (cp_eqb UNDERSCORE) [UNDERSCORE] filename in
  let filename := strip (char_in [UNDERSCORE; SPACE]) filename in
  let filename :=
    if in_reserved (upper (path_stem filename)) then UNDERSCORE :: filename
    else filename in
  let filename :=
    if len filename >? max_length then
      let name := path_stem filename in
      let ext := path_suffix filename in
      let max_name_length := max_length - len ext - 10 in
      if max_name_length >? 0 then
        firstn (Z.to_nat max_name_length) name ++ py "..." ++ ext
      else py "truncated" ++ ext
    else filename in
  if negb (truthy filename) || pystr_eqb filename [UNDERSCORE]
  then py "untitled" else filename.

End Sanitize.

(** The default [max_length]. *)
Definition MAX_LENGTH : Z := 255.

(** NFKC normalisation on ASCII text, where it changes nothing: the
    normaliser used to run the model on ASCII inputs. *)
Definition nfkc_ascii (s : pystr) : pystr := s.

Definition is_ascii (c : codepoint) : bool := (c <? 128)%N.

(** What is known of the real normaliser without its tables: it leaves
    ASCII text unchanged. *)
Definition fixes_ascii_text (nfkc : pystr -> pystr) : Prop :=
  forall s, forallb is_ascii s = true -> nfkc s = s.

(** A statement about the code that holds whatever the normaliser does
    outside ASCII. *)
Definition for_every_normaliser (P : (pystr -> pystr) -> Prop) : Prop :=
  forall nfkc, fixes_ascii_text nfkc -> P nfkc.

(** ** Decimal formatting of integers *)

(** [str(n)], [f"{n}"] *)
Definition str_of_int (n : Z) : pystr :=
  py (NilZero.string_of_int (Z.to_int n)).

(** [f"{n:02d}"]: at least two characters, padded with zeros after the
    sign. *)
Definition format_02d (n : Z) : pystr :=
  if (0 <=? n) && (n <? 10) then py "0" ++ str_of_int n else str_of_int n.

(** ** pathlib paths *)

Record Path := mkPath {
  is_absolute : bool;
  parts : list pystr
}.

(** [Path(s)] *)
Definition Path_of (s : pystr) : Path :=
  {| is_absolute := startswith s [SLASH]; parts := path_parts s |}.

(** [p / s] *)
Definition joinpath (p : Path) (s : pystr) : Path :=
  if startswith s [SLASH] then Path_of s
  else {| is_absolute := is_absolute p; parts := parts p ++ path_parts s |}.

Definition Path_name (p : Path) : pystr := List.last (parts p) [].
Definition Path_stem (p : Path) : pystr := name_stem (Path_name p).
Definition Path_suffix (p : Path) : pystr := name_suffix (Path_name p).
Definition Path_parent (p : Path) : Path :=
  {| is_absolute := is_absolute p; parts := removelast (parts p) |}.

Fixpoint join_with (sep : pystr) (ws : list pystr) : pystr :=
  match ws with
  | [] => []
  | [w] => w
  | w :: ws' => w ++ sep ++ join_with sep ws'
  end.

(** [str(p)] *)
Definition Path_str (p : Path) : pystr :=
  match is_absolute p, parts p with
  | false, [] => [DOT]
  | false, ws => join_with [SLASH] ws
  | true, ws => SLASH :: join_with [SLASH] ws
  end.

Definition Path_eqb (p q : Path) : bool :=
  Bool.eqb (is_absolute p) (is_absolute q) &&
  (fix go (a b : list pystr) : bool :=
     match a, b with
     | [], [] => true
     | x :: a', y :: b' => pystr_eqb x y && go a' b'
     | _, _ => false
     end) (parts p) (parts q).

(** ** [file_utils.safe_join_path] *)

Definition TILDE : codepoint := 126%N.

(** [s.replace('..', '')]: the occurrences are taken from the left and do
    not overlap. *)
Fixpoint remove_dotdot (s : pystr) : pystr :=
  match s with
  | [] => []
  | c :: t =>
      match t with
      | c' :: t' =>
          if cp_eqb c DOT && cp_eqb c' DOT then remove_dotdot t'
          else c :: remove_dotdot t
      | [] => [c]
      end
  end.

(** The class of [<], [>], [:], the double quote, [|], [?] and [*]. *)
Definition is_unsafe_path_char (c : codepoint) : bool :=
  ((c =? 60) || (c =? 62) || (c =? 58) || (c =? 34)
   || (c =? 124) || (c =? 63) || (c =? 42))%N.

(** The body of the loop for one part: the part appended to [safe_parts],
    if any. *)
Definition safe_part (part : pystr) : option pystr :=
  if negb (truthy part) then None
  else
    let part := List.filter (fun c => negb (cp_eqb c TILDE)) (remove_dotdot part) in
    let part := re_sub_class is_unsafe_path_char [UNDERSCORE] part in
    if truthy part && negb (pystr_eqb part (py ".") || pystr_eqb part (py ".."))
    then Some part else None.

(** [safe_join_path] on [str] parts, where no step of the body raises;
    [Path] of several parts joins them from the left. *)
Definition safe_join_path (parts : list pystr) : Path :=
  match omap safe_part parts with
  | [] => Path_of (py ".")
  | first :: rest => fold_left joinpath rest (Path_of first)
  end.

(** ** [core/data_models.py] *)

Module FileType.
Inductive t := PDF | EPUB | UNKNOWN.
Definition eqb (a b : t) : bool :=
  match a, b with
  | PDF, PDF | EPUB, EPUB | UNKNOWN, UNKNOWN => true
  | _, _ => false
  end.
End FileType.

Module ChapterDetectionMethod.
Inductive t := AUTO | MANUAL | XPATH.
End ChapterDetectionMethod.

Module ProcessingStatus.
Inductive t := PENDING | RUNNING | SUCCESS | ERROR | CANCELLED.
Definition eqb (a b : t) : bool :=
  match a, b with
  | PENDING, PENDING | RUNNING, RUNNING | SUCCESS, SUCCESS
  | ERROR, ERROR | CANCELLED, CANCELLED => true
  | _, _ => false
  end.
End ProcessingStatus.

Module OutputFormat.
Inductive t := SAME_AS_INPUT | PDF | EPUB.
Definition eqb (a b : t) : bool :=
  match a, b with
  | SAME_AS_INPUT, SAME_AS_INPUT | PDF, PDF | EPUB, EPUB => true
  | _, _ => false
  end.
End OutputFormat.

Module Chapter.

Record t := mk {
  id : option Z;
  document_id : option Z;
  chapter_number : Z;
  title : pystr;
  (* PDF *)
  start_page : option Z;
  end_page : option Z;
  (* EPUB *)
  xpath : pystr;
  html_tag : pystr;
  html_content : pystr;
  (* detection *)
  detected_method : ChapterDetectionMethod.t;
  confidence_score : Q;
  (* split result *)
  output_file_path : pystr;
  split_status : ProcessingStatus.t
}.

(** The dataclass defaults, with the fields the detectors pass. *)
Definition make (document_id : option Z) (chapter_number : Z) (title : pystr)
    (start_page end_page : option Z) (xpath : pystr)
    (confidence_score : Q) : t :=
  {| id := None; document_id := document_id; chapter_number := chapter_number;
     title := title; start_page := start_page; end_page := end_page;
     xpath := xpath; html_tag := []; html_content := [];
     detected_method := ChapterDetectionMethod.AUTO;
     confidence_score := confidence_score;
     output_file_path := []; split_status := ProcessingStatus.PENDING |}.

(** [chapter.end_page = v] *)
Definition set_end_page (v : option Z) (c : t) : t :=
  {| id := id c; document_id := document_id c; chapter_number := chapter_number c;
     title := title c; start_page := start_page c; end_page := v;
     xpath := xpath c; html_tag := html_tag c; html_content := html_content c;
     detected_method := detected_method c; confidence_score := confidence_score c;
     output_file_path := output_file_path c; split_status := split_status c |}.

(** [chapter.chapter_number = v] *)
Definition set_chapter_number (v : Z) (c : t) : t :=
  {| id := id c; document_id := document_id c; chapter_number := v;
     title := title c; start_page := start_page c; end_page := end_page c;
     xpath := xpath c; html_tag := html_tag c; html_content := html_content c;
     detected_method := detected_method c; confidence_score := confidence_score c;
     output_file_path := output_file_path c; split_status := split_status c |}.

(** [chapter.split_status = v] *)
Definition set_split_status (v : ProcessingStatus.t) (c : t) : t :=
  {| id := id c; document_id := document_id c; chapter_number := chapter_number c;
     title := title c; start_page := start_page c; end_page := end_page c;
     xpath := xpath c; html_tag := html_tag c; html_content := html_content c;
     detected_method := detected_method c; confidence_score := confidence_score c;
     output_file_path := output_file_path c; split_status := v |}.

(** [chapter.output_file_path = v] *)
Definition set_output_file_path (v : pystr) (c : t) : t :=
  {| id := id c; document_id := document_id c; chapter_number := chapter_number c;
     title := title c; start_page := start_page c; end_page := end_page c;
     xpath := xpath c; html_tag := html_tag c; html_content := html_content c;
     detected_method := detected_method c; confidence_score := confidence_score c;
     output_file_path := v; split_status := split_status c |}.

(** The property [is_valid_pdf_chapter]. *)
Definition is_valid_pdf_chapter (c : t) : bool :=
  match start_page c, end_page c with
  | Some s, Some e => (s <=? e) && (s >? 0)
  | _, _ => false
  end.


(** [chapter.document_id = v] *)
Definition set_document_id (v : option Z) (c : t) : t :=
  {| id := id c; document_id := v; chapter_number := chapter_number c;
     title := title c; start_page := start_page c; end_page := end_page c;
     xpath := xpath c; html_tag := html_tag c; html_content := html_content c;
     detected_method := detected_method c; confidence_score := confidence_score c;
     output_file_path := output_file_path c; split_status := split_status c |}.

(** The property [page_count]. *)
Definition page_count (c : t) : Z :=
  match start_page c, end_page c with
  | Some s, Some e => e - s + 1
  | _, _ => 0
  end.

End Chapter.

(** A value of the free-form metadata map. *)
Inductive pyval :=
| VStr (s : pystr)
| VInt (n : Z).

Module Document.

Record t := mk {
  id : option Z;
  project_id : option Z;
  file_path : pystr;
  file_name : pystr;
  file_type : FileType.t;
  file_size : Z;
  title : pystr;
  author : pystr;
  metadata : gmap string pyval;
  chapters : list Chapter.t;
  processing_status : ProcessingStatus.t;
  processing_message : pystr
}.

(** [Document(file_path=.., file_name=.., file_size=.., title=.., author=..,
    metadata=..)] followed by [__post_init__]: the file name defaults to the
    name of the path, and the file type is read off the extension. *)
Definition make (file_path file_name : pystr) (file_size : Z)
    (title author : pystr) (metadata : gmap string pyval) : t :=
  let file_name :=
    if truthy file_path && negb (truthy file_name) then path_name file_path
    else file_name in
  let ext := lower (path_suffix file_path) in
  let file_type :=
    if truthy file_path then
      if pystr_eqb ext (py ".pdf") then FileType.PDF
      else if pystr_eqb ext (py ".epub") then FileType.EPUB
      else FileType.UNKNOWN
    else FileType.UNKNOWN in
  {| id := None; project_id := None; file_path := file_path;
     file_name := file_name; file_type := file_type; file_size := file_size;
     title := title; author := author; metadata := metadata; chapters := [];
     processing_status := ProcessingStatus.PENDING; processing_message := [] |}.

(** The property [chapter_count]. *)
Definition chapter_count (d : t) : Z := Z.of_nat (length (chapters d)).

(** [document.add_chapter(chapter)]: the chapter object gets the id of the
    document and is appended. *)
Definition add_chapter (chapter : Chapter.t) (d : t) : t :=
  {| id := id d; project_id := project_id d; file_path := file_path d;
     file_name := file_name d; file_type := file_type d; file_size := file_size d;
     title := title d; author := author d; metadata := metadata d;
     chapters := chapters d ++ [Chapter.set_document_id (id d) chapter];
     processing_status := processing_status d;
     processing_message := processing_message d |}.

(** [document.chapters = v] *)
Definition set_chapters (v : list Chapter.t) (d : t) : t :=
  {| id := id d; project_id := project_id d; file_path := file_path d;
     file_name := file_name d; file_type := file_type d; file_size := file_size d;
     title := title d; author := author d; metadata := metadata d;
     chapters := v;
     processing_status := processing_status d;
     processing_message := processing_message d |}.

(** [document.get_chapter_by_number(chapter_number)]: [next] over the
    generator of the chapters with that number, [None] by default. *)
Definition get_chapter_by_number (d : t) (chapter_number : Z) : option Chapter.t :=
  List.find (fun ch => Chapter.chapter_number ch =? chapter_number) (chapters d).

End Document.

Module SplitSettings.

Record t := mk {
  detection_method : ChapterDetectionMethod.t;
  custom_xpath : pystr;
  output_directory : pystr;
  output_format : OutputFormat.t;
  naming_pattern : pystr;
  preserve_metadata : bool;
  auto_number_chapters : bool;
  overwrite_existing : bool;
  create_subdirectories : bool
}.

Definition set_output_format (v : OutputFormat.t) (s : t) : t :=
  {| detection_method := detection_method s; custom_xpath := custom_xpath s;
     output_directory := output_directory s; output_format := v;
     naming_pattern := naming_pattern s; preserve_metadata := preserve_metadata s;
     auto_number_chapters := auto_number_chapters s;
     overwrite_existing := overwrite_existing s;
     create_subdirectories := create_subdirectories s |}.

Definition get_output_extension (s : t) (input_file_type : FileType.t) : pystr :=
  match output_format s with
  | OutputFormat.SAME_AS_INPUT =>
      if FileType.eqb input_file_type FileType.PDF then py ".pdf" else py ".epub"
  | OutputFormat.PDF => py ".pdf"
  | OutputFormat.EPUB => py ".epub"
  end.

Definition requires_format_conversion (s : t) (input_file_type : FileType.t) : bool :=
  match output_format s with
  | OutputFormat.SAME_AS_INPUT => false
  | OutputFormat.PDF => negb (FileType.eqb input_file_type FileType.PDF)
  | OutputFormat.EPUB => negb (FileType.eqb input_file_type FileType.EPUB)
  end.

End SplitSettings.

Module ProcessingResult.

(** The dataclass, without its two time stamps, which the operations below
    do not read. *)
Record t := mk {
  document_id : option Z;
  status : ProcessingStatus.t;
  message : pystr;
  total_chapters : Z;
  processed_chapters : Z;
  failed_chapters : Z;
  output_files : list pystr;
  error_details : list pystr
}.

(** [ProcessingResult()] *)
Definition default : t :=
  {| document_id := None; status := ProcessingStatus.PENDING; message := [];
     total_chapters := 0; processed_chapters := 0; failed_chapters := 0;
     output_files := []; error_details := [] |}.

(** The property [is_successful]. *)
Definition is_successful (r : t) : bool :=
  ProcessingStatus.eqb (status r) ProcessingStatus.SUCCESS && (failed_chapters r =? 0).

(** [result.add_output_file(file_path)] *)
Definition add_output_file (file_path : pystr) (r : t) : t :=
  {| document_id := document_id r; status := status r; message := message r;
     total_chapters := total_chapters r;
     processed_chapters := processed_chapters r + 1;
     failed_chapters := failed_chapters r;
     output_files := output_files r ++ [file_path];
     error_details := error_details r |}.

(** [result.add_error(error_message)] *)
Definition add_error (error_message : pystr) (r : t) : t :=
  {| document_id := document_id r; status := status r; message := message r;
     total_chapters := total_chapters r;
     processed_chapters := processed_chapters r;
     failed_chapters := failed_chapters r + 1;
     output_files := output_files r;
     error_details := error_details r ++ [error_message] |}.

(** [result.status = v] *)
Definition set_status (v : ProcessingStatus.t) (r : t) : t :=
  {| document_id := document_id r; status := v; message := message r;
     total_chapters := total_chapters r;
     processed_chapters := processed_chapters r;
     failed_chapters := failed_chapters r;
     output_files := output_files r;
     error_details := error_details r |}.

End ProcessingResult.

Module BatchProcessingConfig.

Record t := mk {
  files : list pystr;
  output_base_directory : pystr;
  parallel_processing : bool;
  max_threads : Z;
  continue_on_error : bool;
  common_settings : option SplitSettings.t;
  results : list ProcessingResult.t
}.

(** The properties [file_count], [completed_count], [success_count] and
    [error_count]: the lengths of the list comprehensions. *)
Definition file_count (c : t) : Z := Z.of_nat (length (files c)).

Definition completed_count (c : t) : Z :=
  Z.of_nat (length (List.filter
    (fun r => existsb (ProcessingStatus.eqb (ProcessingResult.status r))
                [ProcessingStatus.SUCCESS; ProcessingStatus.ERROR])
    (results c))).

Definition success_count (c : t) : Z :=
  Z.of_nat (length (List.filter
    (fun r => ProcessingStatus.eqb (ProcessingResult.status r) ProcessingStatus.SUCCESS)
    (results c))).

Definition error_count (c : t) : Z :=
  Z.of_nat (length (List.filter
    (fun r => ProcessingStatus.eqb (ProcessingResult.status r) ProcessingStatus.ERROR)
    (results c))).

End BatchProcessingConfig.

(** ** Exceptions and the log *)

Inductive dir_error :=
| DirNotGiven
| DirNotCreatable
| DirNotWritable
| DirDiskFull
| DirCheckError.

(** What a [FileProcessingError] of the processors reports. *)
Inductive failure :=
| FileMissing
| OutputDirectoryInvalid (why : option dir_error)
| SourceUnreadable.

Inductive exn :=
| TypeError
| OSError
| FileProcessingError (why : failure).

Inductive result (A : Type) :=
| Ok (a : A)
| Raise (e : exn).
Arguments Ok {A} a.
Arguments Raise {A} e.

Inductive level := DEBUG | INFO | WARNING | ERROR.

(** The messages of the extractors, one constructor per format string of
    the source, with the values the string interpolates. *)
Inductive message :=
| ConversionUnsupported
| InvalidChapterSkipped (title : pystr)
| ChapterPathInvalid (title : pystr)
| ChapterSplitDone (title : pystr) (name : pystr)
| ChapterSaveError (title : pystr)
| ChapterSplitFailed (title : pystr)
| ChapterProcessingError (title : pystr)
| ChapterContentNotFound (title : pystr)
| ChapterExtractError
| PageAddError (page_num : Z)
| MetadataError
| ItemAddError
| ChapterItemsError
| SpineTocError
| SplitProcessingError.

Definition log := list (level * message).

(** ** [file_utils.ensure_unique_filename] *)

(** The attempts of the loop: the counter runs from 1 to 9999. *)
Definition MAX_ATTEMPTS : nat := Z.to_nat 9999.

Section UniqueFilename.

(** [Path.exists], and [int(time.time())] at the call. *)
Variable path_exists : Path -> bool.
Variable now : Z.

(** [parent / f"{original_stem} ({counter}){suffix}"] *)
Definition numbered_path (filepath : Path) (counter : Z) : Path :=
  joinpath (Path_parent filepath)
    (Path_stem filepath ++ py " (" ++ str_of_int counter ++ py ")"
       ++ Path_suffix filepath).

(** [parent / f"{original_stem}_{timestamp}{suffix}"] *)
Definition timestamped_path (filepath : Path) : Path :=
  joinpath (Path_parent filepath)
    (Path_stem filepath ++ py "_" ++ str_of_int now ++ Path_suffix filepath).

(** The [while True] loop; [None] when [fuel] iterations do not reach a
    [return]. *)
Fixpoint unique_loop (fuel : nat) (filepath : Path) (counter : Z) : option Path :=
  match fuel with
  | O => None
  | S fuel' =>
      let new_path := numbered_path filepath counter in
      if negb (path_exists new_path) then Some new_path
      else
        let counter := counter + 1 in
        if counter >? 9999 then Some (timestamped_path filepath)
        else unique_loop fuel' filepath counter
  end.

Definition ensure_unique_filename (filepath : Path) : option Path :=
  if negb (path_exists filepath) then Some filepath
  else unique_loop MAX_ATTEMPTS filepath 1.

End UniqueFilename.

(** ** [file_utils.validate_output_directory] *)

(** What the operating system answers about a directory. *)
Record DirEnv := mkDirEnv {
  dir_check_raises : bool;       (* path.exists() or os.access raises *)
  dir_exists : bool;             (* path.exists() *)
  mkdir_ok : bool;               (* path.mkdir(parents=True, exist_ok=True) returns *)
  dir_writable : bool;           (* os.access(path, os.W_OK) *)
  dir_bavail : option Z          (* os.statvfs(path).f_bavail; None when absent or raising *)
}.

Definition validate_output_directory (env : pystr -> DirEnv) (directory : pystr)
  : bool * option dir_error :=
  if negb (truthy directory) then (false, Some DirNotGiven)
  else
    let e := env directory in
    if dir_check_raises e then (false, Some DirCheckError)
    else if negb (dir_exists e) && negb (mkdir_ok e) then (false, Some DirNotCreatable)
    else if negb (dir_writable e) then (false, Some DirNotWritable)
    else
      match dir_bavail e with
      | Some free =>
          if free <? 1024 * 1024 then (false, Some DirDiskFull) else (true, None)
      | None => (true, None)
      end.

(** ** [file_utils.get_safe_chapter_filename] *)

(** [s[:-n]] for [n = len(extension)]: empty when [n] is 0. *)
Definition drop_last (n : nat) (s : pystr) : pystr :=
  match n with
  | O => []
  | _ => firstn (length s - n) s
  end.

(** U+7B2C and U+7AE0, the two characters of the fallback label. *)
Definition DAI : codepoint := 31532%N.
Definition SHOU : codepoint := 31456%N.

Section ChapterFilename.

Variable nfkc : pystr -> pystr.

Definition get_safe_chapter_filename (document_title : pystr)
    (chapter_number : Z) (chapter_title : pystr) (extension : pystr) : pystr :=
  let filename :=
    if truthy chapter_title && truthy (strip is_space chapter_title) then
      let safe_title := sanitize_filename nfkc MAX_LENGTH chapter_title in
      format_02d chapter_number ++ py "_" ++ safe_title
    else
      let safe_doc_title := sanitize_filename nfkc MAX_LENGTH document_title in
      safe_doc_title ++ py "_" ++ [DAI] ++ format_02d chapter_number ++ [SHOU] in
  let filename :=
    if negb (endswith (lower filename) (lower extension)) then filename ++ extension
    else filename in
  if len filename >? 200 then
    let name_part := drop_last (length extension) filename in
    firstn 190 name_part ++ py "..." ++ extension
  else filename.

End ChapterFilename.

(** ** [file_utils.is_network_path] *)

Definition COLON : codepoint := 58%N.

(** [is_network_path(path)] on a [str]: no step of the body raises. The
    first literal of the source is raw, two backslashes. *)
Definition is_network_path (path : pystr) : bool :=
  let path_str := path in
  startswith path_str (py "\\")
  || startswith path_str (py "//")
  || (existsb (fun c => cp_eqb c COLON) path_str
      && negb ((len path_str >? 1)
               && match nth_error path_str 1 with
                  | Some c => cp_eqb c COLON
                  | None => false
                  end)).

(** ** What the libraries and the file system answer *)

(** An attribute of a library object: missing, raising when read, or a
    value. *)
Inductive attr (A : Type) :=
| Absent
| Raises
| Value (a : A).
Arguments Absent {A}.
Arguments Raises {A}.
Arguments Value {A} a.

(** Writing an output file: written; [open] raises (nothing is created);
    or the file is created and the write raises. *)
Inductive write_outcome := WriteOk | OpenFails | WriteFails.

(** What an output file holds: the parts put into the new document (for a
    PDF the 0-based indices of the pages copied, for an EPUB the names of
    the items added) and whether its metadata were set. *)
Inductive part :=
| PagePart (index : Z)
| ItemPart (name : option pystr).

Record FileContent := mkFileContent {
  file_parts : list part;
  metadata_set : bool
}.

(** The state a split threads through the chapters: the files that exist,
    the files written with what they hold, the paths returned so far, and
    the log. *)
Record SplitState := mkSplitState {
  fs : Path -> bool;
  written : list (Path * FileContent);
  output_files : list pystr;
  logged : log
}.

Definition add_log (l : level) (m : message) (st : SplitState) : SplitState :=
  {| fs := fs st; written := written st; output_files := output_files st;
     logged := logged st ++ [(l, m)] |}.

Definition add_logs (ms : log) (st : SplitState) : SplitState :=
  {| fs := fs st; written := written st; output_files := output_files st;
     logged := logged st ++ ms |}.

Definition create_file (p : Path) (st : SplitState) : SplitState :=
  {| fs := fun q => Path_eqb q p || fs st q; written := written st;
     output_files := output_files st; logged := logged st |}.

Definition write_file (p : Path) (c : FileContent) (st : SplitState) : SplitState :=
  {| fs := fun q => Path_eqb q p || fs st q; written := written st ++ [(p, c)];
     output_files := output_files st; logged := logged st |}.

Definition append_output (s : pystr) (st : SplitState) : SplitState :=
  {| fs := fs st; written := written st; output_files := output_files st ++ [s];
     logged := logged st |}.

(** What a split leaves behind: the value returned or the exception raised,
    the chapter objects as mutated, the files and the log. *)
Record SplitRun := mkSplitRun {
  outcome : result (list pystr);
  chapters_after : list Chapter.t;
  fs_after : Path -> bool;
  written_after : list (Path * FileContent);
  log_after : log
}.

(** Objects of a navigation structure live in a store and refer to each
    other by address, as Python lists do: a list may contain itself. *)
Definition addr := nat.

(** ** [processors/pdf_processor.py] *)

Module PDFProcessor.

(** [PyPDF2.PdfReader]: the [idnum] of each page ([None] for a page without
    one), or [None] when reading the page tree raises; the document
    information dictionary, each entry [None] when reading it raises; the
    header. *)
Record PdfReader := mkPdfReader {
  pages : option (list (option Z));
  metadata : attr (gmap string (option pystr));
  pdf_header : attr pystr
}.

Definition _safe_get_pdf_meta (metadata : gmap string (option pystr))
    (key : string) : pystr :=
  if decide (metadata = ∅) then []
  else
    match metadata !! key with
    | Some (Some value) => if truthy value then strip is_space value else []
    | Some None => []
    | None => []
    end.

(** The map of the [except] branch. *)
Definition fallback_metadata (file_path : pystr) : gmap string pyval :=
  <["title" := VStr (path_stem file_path)]>
    (<["author" := VStr (py "unknown")]>
       (<["page_count" := VInt 0]> ∅)).


(** [metadata.get(key, default)] for the text entries of the map. *)
Definition get_text (m : gmap string pyval) (key : string) (default : pystr) : pystr :=
  match m !! key with
  | Some (VStr s) => s
  | Some (VInt n) => str_of_int n
  | None => default
  end.


(** *** Outline *)

(** The destination of a bookmark. *)
Inductive PageRef :=
| IndirectRef (idnum : Z)
| IntRef (n : Z)
| PageAttr (page : option Z)
| OtherRef.

(** An entry of [pdf_reader.outline]. *)
Inductive OutlineObj :=
| OutlineList (items : list addr)
| Bookmark (title : pystr) (page : PageRef)
| OtherObj.

Fixpoint index_of_idnum (idnum : Z) (ps : list (option Z)) (page_num : Z) : option Z :=
  match ps with
  | [] => None
  | Some i :: rest =>
      if i =? idnum then Some page_num else index_of_idnum idnum rest (page_num + 1)
  | None :: rest => index_of_idnum idnum rest (page_num + 1)
  end.

Definition _safe_get_page_number (page_ref : PageRef) (pdf_reader : PdfReader) : Z :=
  match page_ref with
  | IndirectRef idnum =>
      match pages pdf_reader with
      | Some ps =>
          match index_of_idnum idnum ps 0 with
          | Some page_num => page_num + 1
          | None => 0
          end
      | None => 0
      end
  | IntRef n => n + 1
  | PageAttr (Some p) => p + 1
  | PageAttr None => 0
  | OtherRef => 0
  end.

(** [_set_chapter_end_pages(chapters, total_pages)]. The loop reads the
    start page of the next chapter, which it never writes, so the update in
    place is a pass over the list. A missing start page makes the
    arithmetic or the comparison raise [TypeError]: the list as mutated so
    far is returned with the exception. *)
Fixpoint _set_chapter_end_pages (chapters : list Chapter.t) (total_pages : Z)
  : list Chapter.t * option exn :=
  match chapters with
  | [] => ([], None)
  | chapter :: rest =>
      let new_end :=
        match rest with
        | next :: _ =>
            match Chapter.start_page next with
            | Some s => Some (s - 1)
            | None => None
            end
        | [] => Some total_pages
        end in
      match new_end with
      | None => (chapter :: rest, Some TypeError)
      | Some e =>
          let chapter := Chapter.set_end_page (Some e) chapter in
          match Chapter.start_page chapter with
          | None => (chapter :: rest, Some TypeError)
          | Some s =>
              let chapter :=
                if e <? s then Chapter.set_end_page (Some s) chapter else chapter in
              let (rest', raised) := _set_chapter_end_pages rest total_pages in
              (chapter :: rest', raised)
          end
      end
  end.

(** [_normalize_chapter_numbers(chapters)] *)
Definition _normalize_chapter_numbers (chapters : list Chapter.t) : list Chapter.t :=
  imap (fun idx chapter => Chapter.set_chapter_number (Z.of_nat idx + 1) chapter) chapters.

Section Outline.

Variable nfkc : pystr -> pystr.
Variable document_id : option Z.
Variable pdf_reader : PdfReader.
(** The objects of the outline. *)
Variable heap : addr -> OutlineObj.

(** The state of the closure: the list [chapters] and [chapter_num]. *)
Definition outline_state : Type := list Chapter.t * Z.

(** The body of [process_outline_item] for a bookmark. No step of it
    raises, so the handler of the [try] is not entered. *)
Definition process_bookmark (title : pystr) (page : PageRef) (st : outline_state)
  : outline_state :=
  let (chapters, chapter_num) := st in
  let title :=
    if truthy title then strip is_space title
    else py "Chapter " ++ str_of_int chapter_num in
  let page_num := _safe_get_page_number page pdf_reader in
  if page_num >? 0 then
    let safe_title := sanitize_filename nfkc MAX_LENGTH title in
    let chapter :=
      Chapter.make document_id chapter_num safe_title
        (Some page_num) (Some page_num) [] 0.9 in
    (chapters ++ [chapter], chapter_num + 1)
  else st.

(** [process_outline_item(item, depth)]: a recursion on the nesting of the
    lists, with nothing that remembers the objects already entered.
    [fuel] bounds the depth of the calls; [None] when it does not
    suffice. *)
Fixpoint process_outline_item (fuel : nat) (item : addr) (st : outline_state)
  : option outline_state :=
  match fuel with
  | O => None
  | S fuel' =>
      match heap item with
      | OutlineList items =>
          fold_left
            (fun acc subitem =>
               match acc with
               | Some st' => process_outline_item fuel' subitem st'
               | None => None
               end)
            items (Some st)
      | Bookmark title page => Some (process_bookmark title page st)
      | OtherObj => Some st
      end
  end.

(** [_extract_chapters_from_outline]: [outline] is [pdf_reader.outline],
    [None] when it is missing or empty. When counting the pages raises,
    the handler returns the chapters with their end pages as detected. *)
Definition _extract_chapters_from_outline (fuel : nat) (outline : option addr)
  : option (list Chapter.t) :=
  match outline with
  | None => Some []
  | Some root =>
      match process_outline_item fuel root ([], 1) with
      | None => None
      | Some (chapters, _) =>
          match pages pdf_reader with
          | Some ps => Some (fst (_set_chapter_end_pages chapters (Z.of_nat (length ps))))
          | None => Some chapters
          end
      end
  end.

End Outline.

(** *** Detection from the text *)

Section Text.

Variable nfkc : pystr -> pystr.
Variable document_id : option Z.

(** [FileConstants.CHAPTER_PATTERNS] is declared in a module that is not
    among the sources at hand, and the matching is done by [re]: the
    patterns and [re.finditer(pattern, text, re.IGNORECASE | re.MULTILINE)]
    are inputs. [finditer] gives the texts [match.group()] of the matches
    in order, [None] when the call raises. *)
Variable pattern : Type.
Variable chapter_patterns : list pattern.
Variable finditer : pattern -> pystr -> option (list pystr).

(** The state of the loops: the list [chapters] and [chapter_num]. *)
Definition text_state : Type := list Chapter.t * Z.

(** [chapters and chapters[-1].start_page == page_num + 1] *)
Definition found_on_page (chapters : list Chapter.t) (page_num : Z) : bool :=
  match List.last (map Some chapters) None with
  | Some c =>
      match Chapter.start_page c with
      | Some s => s =? page_num + 1
      | None => false
      end
  | None => false
  end.

(** The loop over the patterns on the text of one page: the first match
    of a pattern makes a chapter, and the loop stops once the page has
    one. The boolean tells that [finditer] raised. *)
Fixpoint scan_patterns (patterns : list pattern) (text : pystr) (page_num : Z)
    (st : text_state) : text_state * bool :=
  match patterns with
  | [] => (st, false)
  | pattern :: rest =>
      match finditer pattern text with
      | None => (st, true)
      | Some matches =>
          let st :=
            match matches with
            | m :: _ =>
                let (chapters, chapter_num) := st in
                let title := strip is_space m in
                let safe_title := sanitize_filename nfkc MAX_LENGTH title in
                let chapter :=
                  Chapter.make document_id chapter_num safe_title
                    (Some (page_num + 1)) (Some (page_num + 1)) [] 0.7 in
                (chapters ++ [chapter], chapter_num + 1)
            | [] => st
            end in
          if found_on_page (fst st) page_num then (st, false)
          else scan_patterns rest text page_num st
      end
  end.

(** The loop over [enumerate(pdf.pages)]; a page is what [extract_text]
    gives: [Absent] for [None], [Raises], or the text. A page whose body
    raises is passed over. *)
Fixpoint scan_pages (pages : list (attr pystr)) (page_num : Z) (st : text_state)
  : text_state :=
  match pages with
  | [] => st
  | page :: rest =>
      let st :=
        match page with
        | Value text =>
            if truthy text then fst (scan_patterns chapter_patterns text page_num st)
            else st
        | Absent => st
        | Raises => st
        end in
      scan_pages rest (page_num + 1) st
  end.

(** [_extract_chapters_from_text(document)]; [pdf] is the list of the
    pages of [pdfplumber.open(document.file_path)], [None] when opening
    raises. *)
Definition _extract_chapters_from_text (pdf : option (list (attr pystr)))
  : list Chapter.t :=
  match pdf with
  | None => []
  | Some pages =>
      let (chapters, _) := scan_pages pages 0 ([], 1) in
      fst (_set_chapter_end_pages chapters (Z.of_nat (length pages)))
  end.

(** [analyze_chapters(document)]: the chapters of the outline when there
    are some, else those of the text, renumbered. [source] is what [open]
    and [PdfReader] give in [_extract_chapters_from_outline], [None] when
    either raises. The detectors catch what they raise, so the handler
    that raises [ChapterAnalysisError] is not entered; [fuel] bounds the
    depth of the outline, [None] when it does not suffice. *)
Definition analyze_chapters (fuel : nat) (source : option PdfReader)
    (heap : addr -> OutlineObj) (outline : option addr)
    (pdf : option (list (attr pystr))) : option (list Chapter.t) :=
  let outline_chapters :=
    match source with
    | None => Some []
    | Some pdf_reader =>
        _extract_chapters_from_outline nfkc document_id pdf_reader heap fuel outline
    end in
  match outline_chapters with
  | None => None
  | Some [] => Some (_normalize_chapter_numbers (_extract_chapters_from_text pdf))
  | Some outline_chapters => Some (_normalize_chapter_numbers outline_chapters)
  end.

End Text.

(** *** Extraction *)

(** What the environment answers while one chapter is extracted:
    whether [Path.exists] raises inside [ensure_unique_filename] (a name
    the file system refuses), whether building the writer raises, for
    which pages [add_page] raises, whether [add_metadata] raises, and how
    writing the output file ends. *)
Record ChapterIO := mkChapterIO {
  exists_raises : bool;
  writer_raises : bool;
  add_page_raises : Z -> bool;
  add_metadata_raises : bool;
  write_result : write_outcome
}.

Record SplitEnv := mkSplitEnv {
  dir_env : pystr -> DirEnv;
  source : option PdfReader;       (* open(document.file_path) and PdfReader *)
  chapter_io : nat -> ChapterIO;
  clock : Z
}.

(** [range(a, b)] *)
Definition range (a b : Z) : list Z :=
  map (fun i => a + Z.of_nat i) (seq 0 (Z.to_nat (b - a))).

(** The loop over [range(chapter.start_page - 1, chapter.end_page)]: the
    pages added to the writer, and the warnings of the iterations whose
    [try] block raised (counting the pages or [add_page]). A page outside
    the document is passed over silently. *)
Fixpoint copy_pages (pdf_reader : PdfReader) (io : ChapterIO) (page_nums : list Z)
  : list Z * log :=
  match page_nums with
  | [] => ([], [])
  | page_num :: rest =>
      let (copied, warnings) := copy_pages pdf_reader io rest in
      if 0 <=? page_num then
        match pages pdf_reader with
        | None => (copied, (WARNING, PageAddError page_num) :: warnings)
        | Some ps =>
            if page_num <? Z.of_nat (length ps) then
              if add_page_raises io page_num
              then (copied, (WARNING, PageAddError page_num) :: warnings)
              else (page_num :: copied, warnings)
            else (copied, warnings)
        end
      else (copied, warnings)
  end.

Section Split.

Variable nfkc : pystr -> pystr.
Variable env : SplitEnv.
Variable document : Document.t.
Variable settings : SplitSettings.t.

(** The body of the [for] loop for one chapter. *)
Definition split_chapter (pdf_reader : PdfReader) (output_dir : Path)
    (output_extension : pystr) (io : ChapterIO) (st : SplitState) (chapter : Chapter.t)
  : SplitState * Chapter.t :=
  let on_error (st : SplitState) :=
    (add_log WARNING (ChapterProcessingError (Chapter.title chapter)) st,
     Chapter.set_split_status ProcessingStatus.ERROR chapter) in
  if negb (Chapter.is_valid_pdf_chapter chapter) then
    (add_log WARNING (InvalidChapterSkipped (Chapter.title chapter)) st, chapter)
  else
    let safe_filename :=
      get_safe_chapter_filename nfkc (Document.title document)
        (Chapter.chapter_number chapter) (Chapter.title chapter) output_extension in
    if exists_raises io then on_error st
    else
      match ensure_unique_filename (fs st) (clock env) (joinpath output_dir safe_filename) with
      | None => on_error st
      | Some output_path =>
          if writer_raises io then on_error st
          else
            let start_page := match Chapter.start_page chapter with Some s => s | None => 0 end in
            let end_page := match Chapter.end_page chapter with Some e => e | None => 0 end in
            let copied := copy_pages pdf_reader io (range (start_page - 1) end_page) in
            let st := add_logs (snd copied) st in
            let stamped :=
              SplitSettings.preserve_metadata settings && negb (add_metadata_raises io) in
            let st :=
              if SplitSettings.preserve_metadata settings && add_metadata_raises io
              then add_log WARNING MetadataError st else st in
            let content :=
              {| file_parts := map PagePart (fst copied); metadata_set := stamped |} in
            match write_result io with
            | WriteOk =>
                let chapter := Chapter.set_output_file_path (Path_str output_path) chapter in
                let chapter := Chapter.set_split_status ProcessingStatus.SUCCESS chapter in
                let st := write_file output_path content st in
                let st := append_output (Path_str output_path) st in
                (add_log INFO (ChapterSplitDone (Chapter.title chapter) (Path_name output_path)) st,
                 chapter)
            | OpenFails =>
                (add_log ERROR (ChapterSaveError (Chapter.title chapter)) st,
                 Chapter.set_split_status ProcessingStatus.ERROR chapter)
            | WriteFails =>
                (add_log ERROR (ChapterSaveError (Chapter.title chapter)) (create_file output_path st),
                 Chapter.set_split_status ProcessingStatus.ERROR chapter)
            end
      end.

(** [for chapter in chapters: ...] *)
Fixpoint split_loop (pdf_reader : PdfReader) (output_dir : Path)
    (output_extension : pystr) (idx : nat)
    (chapters : list Chapter.t) (st : SplitState) : SplitState * list Chapter.t :=
  match chapters with
  | [] => (st, [])
  | chapter :: rest =>
      let (st', chapter') :=
        split_chapter pdf_reader output_dir output_extension (chapter_io env idx) st chapter in
      let (st'', rest') :=
        split_loop pdf_reader output_dir output_extension (S idx) rest st' in
      (st'', chapter' :: rest')
  end.

(** The handler of the outer [try]: log and raise [FileProcessingError]. *)
Definition split_aborts (why : failure) (chapters : list Chapter.t) (st : SplitState)
  : SplitRun :=
  {| outcome := Raise (FileProcessingError why);
     chapters_after := chapters;
     fs_after := fs st;
     written_after := written st;
     log_after := logged st ++ [(ERROR, SplitProcessingError)] |}.

(** [split_pdf_by_chapters(document, chapters, settings)], run on the
    files [files]. *)
Definition split_pdf_by_chapters (files : Path -> bool) (chapters : list Chapter.t)
  : SplitRun :=
  let st := {| fs := files; written := []; output_files := []; logged := [] |} in
  let (is_valid, error_msg) :=
    validate_output_directory (dir_env env) (SplitSettings.output_directory settings) in
  if negb is_valid then split_aborts (OutputDirectoryInvalid error_msg) chapters st
  else
    let output_dir := Path_of (SplitSettings.output_directory settings) in
    let output_extension :=
      SplitSettings.get_output_extension settings (Document.file_type document) in
    let requires_conversion :=
      SplitSettings.requires_format_conversion settings (Document.file_type document) in
    let (output_extension, st) :=
      if requires_conversion
         && OutputFormat.eqb (SplitSettings.output_format settings) OutputFormat.EPUB
      then (py ".pdf", add_log WARNING ConversionUnsupported st)
      else (output_extension, st) in
    match source env with
    | None => split_aborts SourceUnreadable chapters st
    | Some pdf_reader =>
        let (st, chapters) :=
          split_loop pdf_reader output_dir output_extension 0 chapters st in
        {| outcome := Ok (output_files st);
           chapters_after := chapters;
           fs_after := fs st;
           written_after := written st;
           log_after := logged st |}
    end.

End Split.

End PDFProcessor.

(** ** [processors/epub_processor.py] *)

Module EPUBProcessor.

(** *** Table of contents *)

(** An entry of [book.toc]: a tuple or a list of entries, an object with an
    [href] (a [Link]; [title] is empty when it has none), a string, or
    anything else (a [Section]). *)
Inductive TocObj :=
| TocSeq (is_list : bool) (elems : list addr)
| Link (href : pystr) (title : pystr)
| Text (s : pystr)
| OtherObj.

Section Toc.

Variable nfkc : pystr -> pystr.
Variable document_id : option Z.
Variable heap : addr -> TocObj.
(** [str(x)] of an object that is not a string. *)
Variable repr : addr -> pystr.

Definition toc_state : Type := list Chapter.t * Z.

Definition str_of_obj (a : addr) : pystr :=
  match heap a with
  | Text s => s
  | _ => repr a
  end.

Definition has_href (a : addr) : bool :=
  match heap a with
  | Link _ _ => true
  | _ => false
  end.

Definition href_of (a : addr) : pystr :=
  match heap a with
  | Link href _ => href
  | _ => str_of_obj a
  end.

(** [_create_chapter_from_link(link, title, chapter_num, document)]; no
    step of its [try] raises. *)
Definition _create_chapter_from_link (link : addr) (title : pystr) (chapter_num : Z)
  : Chapter.t :=
  let href := href_of link in
  let title :=
    if truthy title then strip is_space title
    else py "Chapter " ++ str_of_int chapter_num in
  let safe_title := sanitize_filename nfkc MAX_LENGTH title in
  Chapter.make document_id chapter_num safe_title None None href 0.8.

Definition add_link_chapter (link : addr) (title : pystr) (st : toc_state) : toc_state :=
  let (chapters, chapter_num) := st in
  (chapters ++ [_create_chapter_from_link link title chapter_num], chapter_num + 1).

(** [process_toc_item(item, depth)]: as for the PDF outline, a recursion
    with no record of the objects entered; [fuel] bounds the depth of the
    calls. *)
Fixpoint process_toc_item (fuel : nat) (item : addr) (st : toc_state)
  : option toc_state :=
  match fuel with
  | O => None
  | S fuel' =>
      let each (items : list addr) (st : toc_state) :=
        fold_left
          (fun acc subitem =>
             match acc with
             | Some st' => process_toc_item fuel' subitem st'
             | None => None
             end)
          items (Some st) in
      match heap item with
      | TocSeq _ (first :: second :: _) =>
          if has_href first then
            Some (add_link_chapter first (str_of_obj second) st)
          else
            match heap second with
            | TocSeq true children => each children st
            | _ => Some st
            end
      | TocSeq true items => each items st
      | TocSeq false _ => Some st
      | Link _ title => Some (add_link_chapter item title st)
      | Text _ => Some st
      | OtherObj => Some st
      end
  end.

(** [_extract_chapters_from_toc(book, document)]; [toc] is [book.toc]. *)
Definition _extract_chapters_from_toc (fuel : nat) (toc : option addr)
  : option (list Chapter.t) :=
  match toc with
  | None => Some []
  | Some root =>
      match heap root with
      | TocSeq _ [] => Some []
      | TocSeq true items =>
          option_map fst
            (fold_left
               (fun acc item =>
                  match acc with
                  | Some st' => process_toc_item fuel item st'
                  | None => None
                  end)
               items (Some ([], 1)))
      | _ => option_map fst (process_toc_item fuel root ([], 1))
      end
  end.

End Toc.

(** *** Content heuristics *)

(** An element of the parsed document, in document order, with
    [get_text(strip=True)]. *)
Record Tag := mkTag {
  tag_name : string;
  tag_text : pystr
}.

(** A document item of the book: its [file_name] when it has one, what
    [_safe_get_item_content] returns, and what [BeautifulSoup] makes of
    the content ([None] when the parser raises). *)
Record Item := mkItem {
  file_name : option pystr;
  content : option pystr;
  soup : option (list Tag)
}.

(** [soup.find_all(tag_name)] *)
Definition find_all (soup : list Tag) (name : string) : list Tag :=
  List.filter (fun t => String.eqb (tag_name t) name) soup.

(** The first tag with a text, among [tags]. *)
Fixpoint first_text (tags : list Tag) : option pystr :=
  match tags with
  | [] => None
  | tag :: rest => if truthy (tag_text tag) then Some (tag_text tag) else first_text rest
  end.

(** The two nested loops over the tag names and the tags. *)
Fixpoint first_heading (soup : list Tag) (names : list string) : option pystr :=
  match names with
  | [] => None
  | name :: rest =>
      match first_text (find_all soup name) with
      | Some text => Some text
      | None => first_heading soup rest
      end
  end.

Definition HEADING_TAGS : list string := ["h1"; "h2"; "h3"; "title"]%string.

Definition _extract_title_from_content (soup : list Tag) (item : Item) : pystr :=
  match first_heading soup HEADING_TAGS with
  | Some text => text
  | None =>
      match file_name item with
      | Some name => path_stem name
      | None => []
      end
  end.

Section Content.

Variable nfkc : pystr -> pystr.
Variable document_id : option Z.

(** The body of the loop of [_extract_chapters_from_content] for the item
    at [idx]: the chapter appended, if any. *)
Definition chapter_of_item (idx : nat) (item : Item) : option Chapter.t :=
  match content item with
  | None => None
  | Some text =>
      if negb (truthy text) then None
      else
        match soup item with
        | None => None
        | Some parsed =>
            let title := _extract_title_from_content parsed item in
            if truthy title then
              Some (Chapter.make document_id (Z.of_nat idx + 1)
                      (sanitize_filename nfkc MAX_LENGTH title) None None
                      (match file_name item with
                       | Some name => name
                       | None => py "item_" ++ str_of_int (Z.of_nat idx)
                       end)
                      0.6)
            else None
        end
  end.

(** [_extract_chapters_from_content(book, document)]; [items] is
    [book.get_items_of_type(ITEM_DOCUMENT)], [None] when it raises. *)
Definition _extract_chapters_from_content (items : option (list Item)) : list Chapter.t :=
  match items with
  | None => []
  | Some items =>
      omap (fun p => chapter_of_item (fst p) (snd p)) (imap (fun idx item => (idx, item)) items)
  end.

End Content.

(** [_normalize_chapter_numbers(chapters)] *)
Definition _normalize_chapter_numbers (chapters : list Chapter.t) : list Chapter.t :=
  imap (fun idx chapter => Chapter.set_chapter_number (Z.of_nat idx + 1) chapter) chapters.

(** *** The book: metadata and analysis *)

(** A value of [book.get_metadata(namespace, name)]: a tuple or a list,
    with the [str()] of its elements and its own, or another object with
    its [str()]. *)
Inductive MetaValue :=
| MetaSeq (elems : list pystr) (repr : pystr)
| MetaAtom (repr : pystr).

(** What [epub.read_epub] returns: the metadata ([None] when
    [get_metadata] raises), [book.version], the document items ([None] when
    listing them raises), and [book.toc] ([None] when it is missing or
    empty) with the store of its objects. *)
Record EpubBook := mkEpubBook {
  book_metadata : string -> string -> option (list MetaValue);
  book_version : attr pystr;
  book_items : option (list Item);
  book_toc : option addr;
  book_heap : addr -> TocObj;
  book_repr : addr -> pystr
}.

(** [_safe_get_metadata(book, namespace, name)] *)
Definition _safe_get_metadata (book : EpubBook) (namespace name : string) : pystr :=
  match book_metadata book namespace name with
  | Some (value :: _) =>
      match value with
      | MetaSeq (first :: _) _ => strip is_space first
      | MetaSeq [] repr => strip is_space repr
      | MetaAtom repr => strip is_space repr
      end
  | Some [] => []
  | None => []
  end.

(** The map of the [except] branch of [_extract_epub_metadata]. *)
Definition fallback_metadata (file_path : pystr) : gmap string pyval :=
  <["title" := VStr (path_stem file_path)]>
    (<["author" := VStr (py "unknown")]>
       (<["language" := VStr (py "unknown")]> ∅)).

(** [_extract_epub_metadata(file_path)]; [source] is what [epub.read_epub]
    gives, [None] when it raises. *)
Definition _extract_epub_metadata (file_path : pystr) (source : option EpubBook)
  : gmap string pyval :=
  match source with
  | None => fallback_metadata file_path
  | Some book =>
      let version :=
        match book_version book with
        | Value v => VStr v
        | _ => VStr (py "unknown")
        end in
      let estimated_pages :=
        match book_items book with
        | Some items => VInt (Z.of_nat (length items))
        | None => VInt 0
        end in
      <["estimated_pages" := estimated_pages]>
      (<["epub_version" := version]>
      (<["identifier" := VStr (_safe_get_metadata book "DC" "identifier")]>
      (<["description" := VStr (_safe_get_metadata book "DC" "description")]>
      (<["date" := VStr (_safe_get_metadata book "DC" "date")]>
      (<["publisher" := VStr (_safe_get_metadata book "DC" "publisher")]>
      (<["language" := VStr (_safe_get_metadata book "DC" "language")]>
      (<["author" := VStr (_safe_get_metadata book "DC" "creator")]>
      (<["title" := VStr (_safe_get_metadata book "DC" "title")]> ∅))))))))
  end.

(** [metadata.get(key, default)] for the text entries of the map. *)
Definition get_text (m : gmap string pyval) (key : string) (default : pystr) : pystr :=
  match m !! key with
  | Some (VStr s) => s
  | Some (VInt n) => str_of_int n
  | None => default
  end.

(** [read_epub_document(file_path)]; [stat] is the size of the file, [None]
    when the file does not exist. *)
Definition read_epub_document (file_path : pystr) (stat : option Z)
    (source : option EpubBook) : result Document.t :=
  match stat with
  | None => Raise (FileProcessingError FileMissing)
  | Some file_size =>
      let metadata := _extract_epub_metadata file_path source in
      Ok (Document.make (Path_str (Path_of file_path)) (path_name file_path)
            file_size
            (get_text metadata "title" (path_stem file_path))
            (get_text metadata "author" [])
            metadata)
  end.

(** What [analyze_chapters] gives: the chapters, or [ChapterAnalysisError]. *)
Inductive analysis :=
| Analysed (chapters : list Chapter.t)
| ChapterAnalysisError.

(** [analyze_chapters(document)]: the chapters of the table of contents
    when there are some, else those of the content, renumbered. [source]
    is what [epub.read_epub] gives, [None] when it raises; [fuel] bounds
    the depth of the table of contents, [None] when it does not suffice. *)
Definition analyze_chapters (nfkc : pystr -> pystr) (document_id : option Z)
    (fuel : nat) (source : option EpubBook) : option analysis :=
  match source with
  | None => Some ChapterAnalysisError
  | Some book =>
      match _extract_chapters_from_toc nfkc document_id (book_heap book)
              (book_repr book) fuel (book_toc book) with
      | None => None
      | Some [] =>
          Some (Analysed (_normalize_chapter_numbers
                  (_extract_chapters_from_content nfkc document_id (book_items book))))
      | Some toc_chapters => Some (Analysed (_normalize_chapter_numbers toc_chapters))
      end
  end.

(** *** Extraction *)

(** [_get_chapter_items(book, chapter)]: the first item whose name contains
    the reference or is contained in it, else the first item. *)
Definition _get_chapter_items (all_items : option (list Item)) (chapter : Chapter.t)
  : list Item :=
  match all_items with
  | None => []
  | Some all_items =>
      let matches (item : Item) :=
        let item_name := match file_name item with Some n => n | None => [] end in
        contains (Chapter.xpath chapter) item_name
        || contains item_name (Chapter.xpath chapter) in
      match List.find matches all_items with
      | Some item => [item]
      | None =>
          match all_items with
          | first :: _ => [first]
          | [] => []
          end
      end
  end.

(** The warning of its handler, when listing the document items raises. *)
Definition _get_chapter_items_log (all_items : option (list Item)) : log :=
  match all_items with
  | None => [(WARNING, ChapterItemsError)]
  | Some _ => []
  end.

(** What the environment answers while one chapter is extracted. *)
Record ChapterIO := mkChapterIO {
  exists_raises : bool;            (* Path.exists raises in ensure_unique_filename *)
  book_raises : bool;              (* epub.EpubBook() raises *)
  copy_metadata_raises : bool;     (* a setter of _copy_metadata raises *)
  add_item_raises : bool;          (* new_book.add_item raises *)
  spine_raises : bool;             (* _create_spine_and_toc: add_item raises *)
  write_result : write_outcome     (* epub.write_epub *)
}.

Record SplitEnv := mkSplitEnv {
  dir_env : pystr -> DirEnv;
  source : option (option (list Item));   (* epub.read_epub, then its document items *)
  chapter_io : nat -> ChapterIO;
  clock : Z
}.

Section Split.

Variable nfkc : pystr -> pystr.
Variable env : SplitEnv.
Variable document : Document.t.
Variable settings : SplitSettings.t.

(** [_extract_and_save_chapter]: the state after it and the boolean it
    returns. [_copy_metadata], the loop over [add_item] and
    [_create_spine_and_toc] catch their own exceptions and only log. *)
Definition _extract_and_save_chapter (source_book : option (list Item))
    (io : ChapterIO) (chapter : Chapter.t) (output_path : Path) (st : SplitState)
  : SplitState * bool :=
  if book_raises io then (add_log ERROR ChapterExtractError st, false)
  else
    let copied_metadata :=
      SplitSettings.preserve_metadata settings && negb (copy_metadata_raises io) in
    let st :=
      if SplitSettings.preserve_metadata settings && copy_metadata_raises io
      then add_log DEBUG MetadataError st else st in
    let st := add_logs (_get_chapter_items_log source_book) st in
    match _get_chapter_items source_book chapter with
    | [] => (add_log WARNING (ChapterContentNotFound (Chapter.title chapter)) st, false)
    | chapter_items =>
        let added := if add_item_raises io then [] else chapter_items in
        let st :=
          if add_item_raises io
          then add_logs (map (fun _ => (WARNING, ItemAddError)) chapter_items) st
          else st in
        let st := if spine_raises io then add_log DEBUG SpineTocError st else st in
        let content :=
          {| file_parts := map (fun item => ItemPart (file_name item)) added;
             metadata_set := copied_metadata |} in
        match write_result io with
        | WriteOk => (write_file output_path content st, true)
        | OpenFails => (add_log ERROR ChapterExtractError st, false)
        | WriteFails => (add_log ERROR ChapterExtractError (create_file output_path st), false)
        end
    end.

Definition split_chapter (source_book : option (list Item)) (output_dir : Path)
    (output_extension : pystr) (io : ChapterIO) (st : SplitState) (chapter : Chapter.t)
  : SplitState * Chapter.t :=
  let on_error (st : SplitState) :=
    (add_log WARNING (ChapterProcessingError (Chapter.title chapter)) st,
     Chapter.set_split_status ProcessingStatus.ERROR chapter) in
  if negb (truthy (Chapter.xpath chapter)) then
    (add_log WARNING (ChapterPathInvalid (Chapter.title chapter)) st, chapter)
  else
    let safe_filename :=
      get_safe_chapter_filename nfkc (Document.title document)
        (Chapter.chapter_number chapter) (Chapter.title chapter) output_extension in
    if exists_raises io then on_error st
    else
      match ensure_unique_filename (fs st) (clock env) (joinpath output_dir safe_filename) with
      | None => on_error st
      | Some output_path =>
          let (st, success) :=
            _extract_and_save_chapter source_book io chapter output_path st in
          if success then
            let chapter := Chapter.set_output_file_path (Path_str output_path) chapter in
            let chapter := Chapter.set_split_status ProcessingStatus.SUCCESS chapter in
            let st := append_output (Path_str output_path) st in
            (add_log INFO (ChapterSplitDone (Chapter.title chapter) (Path_name output_path)) st,
             chapter)
          else
            (add_log ERROR (ChapterSplitFailed (Chapter.title chapter)) st,
             Chapter.set_split_status ProcessingStatus.ERROR chapter)
      end.

Fixpoint split_loop (source_book : option (list Item)) (output_dir : Path)
    (output_extension : pystr) (idx : nat)
    (chapters : list Chapter.t) (st : SplitState) : SplitState * list Chapter.t :=
  match chapters with
  | [] => (st, [])
  | chapter :: rest =>
      let (st', chapter') :=
        split_chapter source_book output_dir output_extension (chapter_io env idx) st chapter in
      let (st'', rest') :=
        split_loop source_book output_dir output_extension (S idx) rest st' in
      (st'', chapter' :: rest')
  end.

Definition split_aborts (why : failure) (chapters : list Chapter.t) (st : SplitState)
  : SplitRun :=
  {| outcome := Raise (FileProcessingError why);
     chapters_after := chapters;
     fs_after := fs st;
     written_after := written st;
     log_after := logged st ++ [(ERROR, SplitProcessingError)] |}.

(** [split_epub_by_chapters(document, chapters, settings)], run on the
    files [files]. *)
Definition split_epub_by_chapters (files : Path -> bool) (chapters : list Chapter.t)
  : SplitRun :=
  let st := {| fs := files; written := []; output_files := []; logged := [] |} in
  let (is_valid, error_msg) :=
    validate_output_directory (dir_env env) (SplitSettings.output_directory settings) in
  if negb is_valid then split_aborts (OutputDirectoryInvalid error_msg) chapters st
  else
    let output_dir := Path_of (SplitSettings.output_directory settings) in
    let output_extension :=
      SplitSettings.get_output_extension settings (Document.file_type document) in
    let requires_conversion :=
      SplitSettings.requires_format_conversion settings (Document.file_type document) in
    let (output_extension, st) :=
      if requires_conversion
         && OutputFormat.eqb (SplitSettings.output_format settings) OutputFormat.PDF
      then (py ".epub", add_log WARNING ConversionUnsupported st)
      else (output_extension, st) in
    match source env with
    | None => split_aborts SourceUnreadable chapters st
    | Some source_book =>
        let (st, chapters) :=
          split_loop source_book output_dir output_extension 0 chapters st in
        {| outcome := Ok (output_files st);
           chapters_after := chapters;
           fs_after := fs st;
           written_after := written st;
           log_after := logged st |}
    end.

End Split.

End EPUBProcessor.

(** * Vocabulary of the properties *)

(** A chapter as the PDF detectors build it, on [page]. *)
Definition pdf_chapter_at (page : Z) : Chapter.t :=
  Chapter.make None 0 (py "Chapter") (Some page) (Some page) [] 0.9.

(** The three properties of a resolved chapter list, as the specification
    words them: every range is well formed, each range ends one page
    before the next starts, and the last ends on the last page. *)
Definition boundaries_contiguous (total_pages : Z) (chapters : list Chapter.t) : Prop :=
  (forall i c, chapters !! i = Some c ->
     exists s e, Chapter.start_page c = Some s /\ Chapter.end_page c = Some e /\ s <= e)
  /\ (forall i c c', chapters !! i = Some c -> chapters !! S i = Some c' ->
        exists e s', Chapter.end_page c = Some e /\ Chapter.start_page c' = Some s'
                     /\ e + 1 = s')
  /\ (forall c, List.last (map Some chapters) None = Some c ->
        Chapter.end_page c = Some total_pages).

(** [s] has no occurrence of the character [x]. *)
Definition no_char (x : codepoint) (s : pystr) : bool :=
  forallb (fun c => negb (cp_eqb c x)) s.

(** A character of a decimal numeral: a digit or the minus sign. *)
Definition is_numeral_char (c : codepoint) : bool :=
  ((c =? 45) || ((48 <=? c) && (c <=? 57)))%N.





(** A content document with a paragraph and no heading, and one whose
    first heading is an [h2]. *)
Definition plain_item : EPUBProcessor.Item :=
  {| EPUBProcessor.file_name := Some (py "Text/ch1.xhtml");
     EPUBProcessor.content := Some (py "<p>text</p>");
     EPUBProcessor.soup := Some [EPUBProcessor.mkTag "p" (py "text")] |}.

Definition headed_item : EPUBProcessor.Item :=
  {| EPUBProcessor.file_name := Some (py "Text/ch2.xhtml");
     EPUBProcessor.content := Some (py "<title>Book</title><h2>Two</h2>");
     EPUBProcessor.soup :=
       Some [EPUBProcessor.mkTag "title" (py "Book");
             EPUBProcessor.mkTag "h2" (py "Two")] |}.


(** A three-page PDF whose information dictionary names only its
    producer. *)
Definition producer_only_reader : PDFProcessor.PdfReader :=
  {| PDFProcessor.pages := Some [None; None; None];
     PDFProcessor.metadata := Value {[ "/Producer"%string := Some (py "LaTeX") ]};
     PDFProcessor.pdf_header := Value (py "%PDF-1.7") |}.


(** The paths a split returns, read off the chapters before and after
    it: for each chapter that passed the pre-check [valid] and ended in
    [SUCCESS], the path it was given, in order. *)
Definition is_success (s : ProcessingStatus.t) : bool :=
  match s with ProcessingStatus.SUCCESS => true | _ => false end.

Definition extracted_paths (valid : Chapter.t -> bool)
    (before after : list Chapter.t) : list pystr :=
  omap (fun p : Chapter.t * Chapter.t =>
          if valid (fst p) && is_success (Chapter.split_status (snd p))
          then Some (Chapter.output_file_path (snd p)) else None)
       (zip before after).

(** The state [st] with the records [pre] logged before its own. *)
Definition with_log_prefix (pre : log) (st : SplitState) : SplitState :=
  {| fs := fs st; written := written st; output_files := output_files st;
     logged := pre ++ logged st |}.

Definition write_ok (w : write_outcome) : bool :=
  match w with WriteOk => true | _ => false end.

(** The set-up of a PDF split succeeds: the output directory validates and
    the source opens. *)
Definition pdf_setup_ok (env : PDFProcessor.SplitEnv) (settings : SplitSettings.t) : bool :=
  fst (validate_output_directory (PDFProcessor.dir_env env)
         (SplitSettings.output_directory settings))
  && match PDFProcessor.source env with Some _ => true | None => false end.

(** Processing a PDF chapter fails: one of its calls raises. *)
Definition pdf_chapter_fails (io : PDFProcessor.ChapterIO) : bool :=
  PDFProcessor.exists_raises io || PDFProcessor.writer_raises io
  || negb (write_ok (PDFProcessor.write_result io)).

Definition truthy_list {A : Type} (l : list A) : bool :=
  match l with [] => false | _ => true end.

(** The pre-check of the EPUB extractor: a non-empty reference. *)
Definition has_xpath (c : Chapter.t) : bool := truthy (Chapter.xpath c).

Definition epub_setup_ok (env : EPUBProcessor.SplitEnv) (settings : SplitSettings.t) : bool :=
  fst (validate_output_directory (EPUBProcessor.dir_env env)
         (SplitSettings.output_directory settings))
  && match EPUBProcessor.source env with Some _ => true | None => false end.

(** Processing an EPUB chapter fails: a call raises, or the source has no
    content item at all. *)
Definition epub_chapter_fails (source_book : option (list EPUBProcessor.Item))
    (io : EPUBProcessor.ChapterIO) (chapter : Chapter.t) : bool :=
  EPUBProcessor.exists_raises io || EPUBProcessor.book_raises io
  || negb (truthy_list (EPUBProcessor._get_chapter_items source_book chapter))
  || negb (write_ok (EPUBProcessor.write_result io)).

(** A run of the extractors: a writable output directory, a PDF and an
    EPUB that open, and an environment where the chapter at position 1
    cannot be written. *)
Definition ok_dir : DirEnv :=
  {| dir_check_raises := false; dir_exists := true; mkdir_ok := true;
     dir_writable := true; dir_bavail := None |}.

Definition sample_settings : SplitSettings.t :=
  {| SplitSettings.detection_method := ChapterDetectionMethod.AUTO;
     SplitSettings.custom_xpath := [];
     SplitSettings.output_directory := py "out";
     SplitSettings.output_format := OutputFormat.SAME_AS_INPUT;
     SplitSettings.naming_pattern := py "{title}_{chapter_num}_{chapter_title}";
     SplitSettings.preserve_metadata := true;
     SplitSettings.auto_number_chapters := true;
     SplitSettings.overwrite_existing := false;
     SplitSettings.create_subdirectories := true |}.

Definition sample_pdf : Document.t :=
  Document.make (py "book.pdf") (py "book.pdf") 1000 (py "Book") [] ∅.

Definition sample_epub : Document.t :=
  Document.make (py "book.epub") (py "book.epub") 1000 (py "Book") [] ∅.

Definition sample_pdf_env : PDFProcessor.SplitEnv :=
  {| PDFProcessor.dir_env := fun _ => ok_dir;
     PDFProcessor.source := Some producer_only_reader;
     PDFProcessor.chapter_io := fun i =>
       {| PDFProcessor.exists_raises := false;
          PDFProcessor.writer_raises := false;
          PDFProcessor.add_page_raises := fun page_num => page_num =? 0;
          PDFProcessor.add_metadata_raises := false;
          PDFProcessor.write_result := if Nat.eqb i 1 then OpenFails else WriteOk |};
     PDFProcessor.clock := 1700000000 |}.

Definition sample_epub_env : EPUBProcessor.SplitEnv :=
  {| EPUBProcessor.dir_env := fun _ => ok_dir;
     EPUBProcessor.source := Some (Some [plain_item; headed_item]);
     EPUBProcessor.chapter_io := fun i =>
       {| EPUBProcessor.exists_raises := false;
          EPUBProcessor.book_raises := false;
          EPUBProcessor.copy_metadata_raises := false;
          EPUBProcessor.add_item_raises := false;
          EPUBProcessor.spine_raises := false;
          EPUBProcessor.write_result := if Nat.eqb i 1 then OpenFails else WriteOk |};
     EPUBProcessor.clock := 1700000000 |}.

(** Three PDF chapters, the last without pages; three EPUB chapters, the
    last without a reference. *)
Definition sample_pdf_chapters : list Chapter.t :=
  [ Chapter.make None 1 (py "One") (Some 1) (Some 1) [] 0.9;
    Chapter.make None 2 (py "Two") (Some 2) (Some 3) [] 0.9;
    Chapter.make None 3 (py "Three") None None [] 0.9 ].

Definition sample_epub_chapters : list Chapter.t :=
  [ Chapter.make None 1 (py "One") None None (py "Text/ch1.xhtml") 0.8;
    Chapter.make None 2 (py "Two") None None (py "Text/ch2.xhtml") 0.8;
    Chapter.make None 3 (py "Three") None None [] 0.8 ].

Definition no_files : Path -> bool := fun _ => false.





(** An outline with a bookmark and a nested list of one bookmark. *)
Definition sample_outline : addr -> PDFProcessor.OutlineObj :=
  fun a =>
    match a with
    | 0%nat => PDFProcessor.OutlineList [1%nat; 2%nat]
    | 1%nat => PDFProcessor.Bookmark (py "Intro") (PDFProcessor.IntRef 0)
    | 2%nat => PDFProcessor.OutlineList [3%nat]
    | 3%nat => PDFProcessor.Bookmark (py "Part 1") (PDFProcessor.IntRef 1)
    | _ => PDFProcessor.OtherObj
    end.


(** No two neighbouring characters of [s] are both in the class [q]. *)
Fixpoint no_adjacent (q : codepoint -> bool) (s : pystr) : bool :=
  match s with
  | c :: t =>
      match t with
      | c' :: _ => negb (q c && q c') && no_adjacent q t
      | [] => true
      end
  | [] => true
  end.

(** The first, the last character of [s] is in the class [q]. *)
Definition first_in (q : codepoint -> bool) (s : pystr) : bool :=
  match s with
  | c :: _ => q c
  | [] => false
  end.

Definition last_in (q : codepoint -> bool) (s : pystr) : bool :=
  match s with
  | [] => false
  | _ :: _ => q (List.last s SPACE)
  end.

(** The two halves of [sanitize_filename]: from the normalised text to the
    second [strip], and from there to the result. *)
Definition sanitize_strip (filename : pystr) : pystr :=
  let filename := re_sub_class is_ctl_space [SPACE] filename in
  let filename := re_sub_runs is_space [SPACE] filename in
  let filename := strip (char_in [SPACE; DOT]) filename in
  let filename := re_sub_class is_invalid_filename_char [UNDERSCORE] filename in
  let filename := re_sub_runs (cp_eqb UNDERSCORE) [UNDERSCORE] filename in
  strip (char_in [UNDERSCORE; SPACE]) filename.

Definition sanitize_finish (max_length : Z) (filename : pystr) : pystr :=
  let filename :=
    if in_reserved (upper (path_stem filename)) then UNDERSCORE :: filename
    else filename in
  let filename :=
    if len filename >? max_length then
      let name := path_stem filename in
      let ext := path_suffix filename in
      let max_name_length := max_length - len ext - 10 in
      if max_name_length >? 0 then
        firstn (Z.to_nat max_name_length) name ++ py "..." ++ ext
      else py "truncated" ++ ext
    else filename in
  if negb (truthy filename) || pystr_eqb filename [UNDERSCORE]
  then py "untitled" else filename.

(** A white-space character of [s] is a plain space; no character of [s]
    is invalid in a file name. *)
Definition plain_space (c : codepoint) : bool := negb (is_space c) || cp_eqb c SPACE.
Definition valid_char (c : codepoint) : bool := negb (is_invalid_filename_char c).

(** The form of a text on which the substitutions of [sanitize_filename]
    change nothing. *)
Definition tidy (s : pystr) : bool :=
  forallb plain_space s && no_adjacent is_space s
  && forallb valid_char s && no_adjacent (cp_eqb UNDERSCORE) s.

(** A name of 300 letters. *)
Definition long_name : pystr := repeat 97%N 300.

(** The calls that fill a [ProcessingResult], and a run of them. *)
Inductive result_call :=
| AddOutputFile (file_path : pystr)
| AddError (error_message : pystr).

Definition run_call (r : ProcessingResult.t) (call : result_call) : ProcessingResult.t :=
  match call with
  | AddOutputFile file_path => ProcessingResult.add_output_file file_path r
  | AddError error_message => ProcessingResult.add_error error_message r
  end.

Definition run_calls (calls : list result_call) (r : ProcessingResult.t)
  : ProcessingResult.t :=
  fold_left run_call calls r.

(** The chapters are numbered [k], [k + 1], ... in list order. *)
Definition numbered_from (k : nat) (chapters : list Chapter.t) : Prop :=
  map Chapter.chapter_number chapters = map Z.of_nat (seq k (length chapters)).

(** The start pages of [chapters] increase strictly, the first above [lo]
    and the last at most [hi]. *)
Fixpoint starts_increase (lo hi : Z) (chapters : list Chapter.t) : Prop :=
  match chapters with
  | [] => True
  | c :: rest =>
      exists s, Chapter.start_page c = Some s /\ lo < s <= hi
                /\ starts_increase s hi rest
  end.

(** A chapter as a PDF detector leaves it before the boundaries are
    resolved: one page, [p], with a positive number. *)
Definition one_page_chapter (c : Chapter.t) : Prop :=
  exists p, Chapter.start_page c = Some p /\ Chapter.end_page c = Some p /\ 0 < p.

(** A chapter as a PDF detector with the confidence [conf] leaves it. *)
Definition pdf_detected (conf : Q) (c : Chapter.t) : Prop :=
  one_page_chapter c /\ Chapter.confidence_score c = conf.

(** The state of a detector, the chapters found and the next number, when
    the chapters are numbered from 1, the next number is the one after the
    last, and every chapter is [P]. *)
Definition detector_state_ok (P : Chapter.t -> Prop) (st : list Chapter.t * Z) : Prop :=
  numbered_from 1 (fst st)
  /\ snd st = Z.of_nat (length (fst st)) + 1
  /\ Forall P (fst st).





(** A chapter as the EPUB detectors leave it: no pages, no tag, a title. *)
Definition epub_detected (conf : Q) (c : Chapter.t) : Prop :=
  Chapter.confidence_score c = conf
  /\ Chapter.start_page c = None /\ Chapter.end_page c = None
  /\ Chapter.html_tag c = [] /\ Chapter.title c <> [].

(** The test of [_get_chapter_items]: the reference of the chapter is part
    of the name of the item, or the name is part of the reference. *)
Definition refers_to (c : Chapter.t) (item : EPUBProcessor.Item) : bool :=
  let item_name :=
    match EPUBProcessor.file_name item with Some n => n | None => [] end in
  contains (Chapter.xpath c) item_name || contains item_name (Chapter.xpath c).


(** A character [safe_join_path] lets through. *)
Definition safe_path_char (c : codepoint) : bool :=
  negb (cp_eqb c TILDE) && negb (is_unsafe_path_char c).

(** * Properties *)

(** ** Normalisation of the chapter numbers *)

Lemma imap_chapter_numbers (k : nat) (chapters : list Chapter.t) :
  map Chapter.chapter_number
    (imap (fun idx chapter =>
             Chapter.set_chapter_number (Z.of_nat (k + idx) + 1) chapter) chapters)
  = map Z.of_nat (seq (S k) (length chapters)).
Proof.
  revert k. induction chapters as [|c cs IH]; intros k; simpl; [reflexivity|].
  f_equal.
  - rewrite Nat.add_0_r. lia.
  - rewrite <- (IH (S k)). f_equal. apply imap_ext. intros i x _. simpl.
    do 2 f_equal. lia.
Qed.

Lemma imap_set_number_others (k : nat) (chapters : list Chapter.t) (i : nat) (c : Chapter.t) :
  chapters !! i = Some c ->
  imap (fun idx chapter =>
          Chapter.set_chapter_number (Z.of_nat (k + idx) + 1) chapter) chapters !! i
  = Some (Chapter.set_chapter_number (Z.of_nat (k + i) + 1) c).
Proof.
  intros H. rewrite list_lookup_imap, H. reflexivity.
Qed.

(** C2. After [_normalize_chapter_numbers], of the PDF or of the EPUB
    processor, the chapter numbers of a list of N chapters are 1, 2, ..., N
    in list order, whatever they were before; the list keeps its length and
    every chapter keeps its other fields. *)
Theorem normalize_chapter_numbers_contiguous (chapters : list Chapter.t) :
  (map Chapter.chapter_number (PDFProcessor._normalize_chapter_numbers chapters)
   = map Z.of_nat (seq 1 (length chapters))
   /\ map Chapter.chapter_number (EPUBProcessor._normalize_chapter_numbers chapters)
      = map Z.of_nat (seq 1 (length chapters)))
  /\ (length (PDFProcessor._normalize_chapter_numbers chapters) = length chapters
      /\ length (EPUBProcessor._normalize_chapter_numbers chapters) = length chapters)
  /\ (forall i c, chapters !! i = Some c ->
        PDFProcessor._normalize_chapter_numbers chapters !! i
        = Some (Chapter.set_chapter_number (Z.of_nat i + 1) c)
        /\ EPUBProcessor._normalize_chapter_numbers chapters !! i
           = Some (Chapter.set_chapter_number (Z.of_nat i + 1) c)).
Proof.
  unfold PDFProcessor._normalize_chapter_numbers,
    EPUBProcessor._normalize_chapter_numbers.
  pose proof (imap_chapter_numbers 0 chapters) as Hn. simpl in Hn.
  repeat split; try exact Hn; try apply length_imap.
  - apply (imap_set_number_others 0). assumption.
  - apply (imap_set_number_others 0). assumption.
Qed.

(** ** Boundary resolution of the PDF chapters *)

Lemma set_chapter_end_pages_cons (c : Chapter.t) (s : Z) (rest : list Chapter.t)
    (total_pages : Z) :
  Chapter.start_page c = Some s ->
  Forall (fun c => is_Some (Chapter.start_page c)) rest ->
  let next := match rest with
              | n :: _ => match Chapter.start_page n with Some s' => s' - 1 | None => 0 end
              | [] => total_pages
              end in
  PDFProcessor._set_chapter_end_pages (c :: rest) total_pages
  = (Chapter.set_end_page (Some (Z.max s next)) c
       :: fst (PDFProcessor._set_chapter_end_pages rest total_pages),
     snd (PDFProcessor._set_chapter_end_pages rest total_pages)).
Proof.
  intros Hs Hrest next. subst next. cbn [PDFProcessor._set_chapter_end_pages].
  destruct rest as [|n rest'].
  - cbn. rewrite Hs. destruct (Z.ltb_spec total_pages s).
    + rewrite Z.max_l by lia. reflexivity.
    + rewrite Z.max_r by lia. reflexivity.
  - inversion Hrest as [|? ? [s' Hs'] Hrest']; subst. rewrite Hs'.
    cbn [Chapter.start_page Chapter.set_end_page]. rewrite Hs.
    destruct (PDFProcessor._set_chapter_end_pages (n :: rest') total_pages) as [r ex].
    cbn [fst snd].
    destruct (Z.ltb_spec (s' - 1) s).
    + rewrite Z.max_l by lia. reflexivity.
    + rewrite Z.max_r by lia. reflexivity.
Qed.

(** C1, counterexample. Two bookmarks on page 5 of a 10-page document: the
    first chapter is clamped to the range 5..5, and 5 + 1 is not the start
    page of the second. *)
Lemma set_chapter_end_pages_not_contiguous :
  ~ boundaries_contiguous 10
      (fst (PDFProcessor._set_chapter_end_pages
              [pdf_chapter_at 5; pdf_chapter_at 5] 10)).
Proof.
  intros (_ & Hnext & _).
  destruct (Hnext 0%nat _ _ eq_refl eq_refl) as (e & s' & He & Hs' & Hsum).
  cbn in He, Hs'. injection He as <-. injection Hs' as <-. discriminate Hsum.
Qed.

(** C1, as the code has it. For chapters that all carry a start page,
    [_set_chapter_end_pages] raises nothing, keeps the length and the start
    pages, and sets the end page of chapter i to the larger of its start
    page and the page before the next start (the total page count for the
    last chapter). So every range is well formed; a range ends one page
    before the next starts exactly when the next chapter starts on a later
    page, and the last range ends on the last page exactly when the last
    chapter starts within the document. *)
Theorem set_chapter_end_pages_resolved (chapters : list Chapter.t) (total_pages : Z) :
  Forall (fun c => is_Some (Chapter.start_page c)) chapters ->
  snd (PDFProcessor._set_chapter_end_pages chapters total_pages) = None
  /\ length (fst (PDFProcessor._set_chapter_end_pages chapters total_pages))
     = length chapters
  /\ forall i c s, chapters !! i = Some c -> Chapter.start_page c = Some s ->
       exists e,
         fst (PDFProcessor._set_chapter_end_pages chapters total_pages) !! i
         = Some (Chapter.set_end_page (Some e) c)
         /\ s <= e
         /\ match chapters !! S i with
            | Some next =>
                forall s', Chapter.start_page next = Some s' ->
                  e = Z.max s (s' - 1) /\ (s < s' <-> e + 1 = s')
            | None => e = Z.max s total_pages /\ (s <= total_pages <-> e = total_pages)
            end.
Proof.
  induction chapters as [|c rest IH]; intros Hall.
  - repeat split; intros i c s H; rewrite lookup_nil in H; discriminate.
  - inversion Hall as [|? ? [s0 Hs0] Hrest]; subst.
    rewrite (set_chapter_end_pages_cons c s0 rest total_pages Hs0 Hrest).
    destruct (IH Hrest) as (IHex & IHlen & IHi). cbn [fst snd].
    split; [exact IHex|]. split; [simpl; f_equal; exact IHlen|].
    intros [|i] c' s Hc Hs.
    + cbn in Hc. injection Hc as <-. rewrite Hs0 in Hs. injection Hs as <-.
      eexists. split; [reflexivity|]. split; [lia|].
      destruct rest as [|n rest']; cbn.
      * split; lia.
      * intros s' Hs'. rewrite Hs'. split; lia.
    + cbn in Hc. destruct (IHi i c' s Hc Hs) as (e & Hlk & Hle & Hnext).
      exists e. cbn. auto.
Qed.

Lemma set_chapter_end_pages_resolved_witness :
  snd (PDFProcessor._set_chapter_end_pages
         [pdf_chapter_at 1; pdf_chapter_at 10; pdf_chapter_at 20] 25) = None.
Proof.
  apply (set_chapter_end_pages_resolved
           [pdf_chapter_at 1; pdf_chapter_at 10; pdf_chapter_at 20] 25).
  repeat constructor; eexists; reflexivity.
Defined.

(** ** Collision-free file names *)

Section UniqueFilenameFacts.

Variable path_exists : Path -> bool.
Variable now : Z.

Lemma MAX_ATTEMPTS_eq : Z.of_nat MAX_ATTEMPTS = 9999.
Proof. unfold MAX_ATTEMPTS. rewrite Z2Nat.id; lia. Qed.

(** With a counter in range and fuel for the counters left, the loop
    returns. *)
Lemma unique_loop_returns (fuel : nat) (p : Path) (counter : Z) :
  counter <= 9999 -> 10000 <= counter + Z.of_nat fuel ->
  exists q, unique_loop path_exists now fuel p counter = Some q.
Proof.
  revert counter. induction fuel as [|fuel IH]; intros counter Hc Hf; [lia|].
  cbn [unique_loop].
  destruct (path_exists (numbered_path p counter)); cbn [negb]; [|eauto].
  destruct (Z.gtb_spec (counter + 1) 9999); [eauto|].
  apply IH; lia.
Qed.



Lemma ensure_unique_filename_total (p : Path) :
  exists q, ensure_unique_filename path_exists now p = Some q.
Proof.
  unfold ensure_unique_filename. destruct (path_exists p); cbn [negb]; [|eauto].
  apply unique_loop_returns; rewrite ?MAX_ATTEMPTS_eq; lia.
Qed.

End UniqueFilenameFacts.

(** ** Strings and paths *)

Lemma cp_eqb_eq (a b : codepoint) : cp_eqb a b = true <-> a = b.
Proof. apply N.eqb_eq. Qed.

Lemma cp_eqb_neq (a b : codepoint) : cp_eqb a b = false <-> a <> b.
Proof. apply N.eqb_neq. Qed.

Lemma cp_eqb_refl (a : codepoint) : cp_eqb a a = true.
Proof. apply N.eqb_refl. Qed.

Lemma pystr_eqb_eq (a b : pystr) : pystr_eqb a b = true <-> a = b.
Proof.
  revert b. induction a as [|x a IH]; intros [|y b]; cbn; split; try congruence.
  - intros H. apply andb_true_iff in H as [H1 H2].
    apply cp_eqb_eq in H1. apply IH in H2. congruence.
  - intros H. injection H as -> ->. rewrite cp_eqb_refl. apply IH. reflexivity.
Qed.

Lemma pystr_eqb_neq (a b : pystr) : pystr_eqb a b = false <-> a <> b.
Proof.
  rewrite <- pystr_eqb_eq. destruct (pystr_eqb a b); split; congruence.
Qed.

Lemma py_cons (a : ascii) (s : string) : py (String a s) = N_of_ascii a :: py s.
Proof. reflexivity. Qed.

Lemma no_char_app (x : codepoint) (a b : pystr) :
  no_char x (a ++ b) = no_char x a && no_char x b.
Proof. unfold no_char. apply forallb_app. Qed.

Lemma no_char_firstn (x : codepoint) (n : nat) (s : pystr) :
  no_char x s = true -> no_char x (firstn n s) = true.
Proof.
  intros H. rewrite <- (firstn_skipn n s), no_char_app in H.
  apply andb_true_iff in H. tauto.
Qed.


Lemma numeral_chars_uint (d : Decimal.uint) :
  forallb is_numeral_char (py (NilEmpty.string_of_uint d)) = true.
Proof. induction d; cbn [NilEmpty.string_of_uint]; rewrite ?py_cons; cbn; auto. Qed.

Lemma str_of_int_numeral (n : Z) : forallb is_numeral_char (str_of_int n) = true.
Proof.
  unfold str_of_int, NilZero.string_of_int.
  destruct (Z.to_int n) as [d|d]; unfold NilZero.string_of_uint;
    destruct d; rewrite ?py_cons;
    try reflexivity;
    try (apply (numeral_chars_uint (_ d)));
    cbn [forallb]; rewrite ?andb_true_iff; split; try reflexivity;
    try (apply (numeral_chars_uint (_ d))).
Qed.

Lemma str_of_int_no_char (x : codepoint) (n : Z) :
  is_numeral_char x = false -> no_char x (str_of_int n) = true.
Proof.
  intros Hx. unfold no_char. pose proof (str_of_int_numeral n) as H.
  rewrite forallb_forall in *. intros c Hc. specialize (H c Hc).
  destruct (cp_eqb c x) eqn:E; [|reflexivity].
  apply cp_eqb_eq in E. congruence.
Qed.

Lemma split_on_no_sep (sep : codepoint) (s : pystr) :
  no_char sep s = true -> split_on sep s = [s].
Proof.
  induction s as [|c s IH]; cbn; [reflexivity|]. intros H.
  apply andb_true_iff in H as [H1 H2]. apply negb_true_iff in H1. rewrite H1.
  rewrite (IH H2). reflexivity.
Qed.

Lemma path_parts_single (s : pystr) :
  no_char SLASH s = true -> s <> [] -> s <> [DOT] -> path_parts s = [s].
Proof.
  intros Hs Hne Hdot. unfold path_parts. rewrite (split_on_no_sep _ _ Hs).
  apply pystr_eqb_neq in Hdot.
  destruct s; [congruence|]. cbn [List.filter truthy andb].
  rewrite Hdot. reflexivity.
Qed.

Lemma startswith_no_char (x : codepoint) (s : pystr) :
  no_char x s = true -> startswith s [x] = false.
Proof.
  destruct s as [|c s]; cbn; [reflexivity|]. intros H.
  apply andb_true_iff in H as [H _]. apply negb_true_iff in H. rewrite H. reflexivity.
Qed.

(** Joining a directory and a plain file name. *)
Lemma joinpath_plain_name (q : Path) (s : pystr) :
  no_char SLASH s = true -> s <> [] -> s <> [DOT] ->
  joinpath q s = {| is_absolute := is_absolute q; parts := parts q ++ [s] |}.
Proof.
  intros Hs Hne Hdot. unfold joinpath.
  rewrite (startswith_no_char _ _ Hs), (path_parts_single _ Hs Hne Hdot). reflexivity.
Qed.

Lemma rfind_app (c : codepoint) (a b : pystr) :
  rfind c (a ++ b)
  = match rfind c b with
    | Some i => Some (length a + i)%nat
    | None => rfind c a
    end.
Proof.
  induction a as [|x a IH]; cbn [app rfind length].
  - destruct (rfind c b); reflexivity.
  - rewrite IH. destruct (rfind c b); [reflexivity|].
    destruct (rfind c a); reflexivity.
Qed.

Lemma rfind_no_char (c : codepoint) (s : pystr) :
  no_char c s = true -> rfind c s = None.
Proof.
  induction s as [|x s IH]; cbn; [reflexivity|]. intros H.
  apply andb_true_iff in H as [H1 H2]. rewrite (IH H2).
  apply negb_true_iff in H1. rewrite H1. reflexivity.
Qed.

Lemma rfind_none_no_char (c : codepoint) (s : pystr) :
  rfind c s = None -> no_char c s = true.
Proof.
  induction s as [|x s IH]; cbn; [reflexivity|].
  destruct (rfind c s); [discriminate|].
  destruct (cp_eqb x c); [discriminate|]. intros _. cbn. apply IH. reflexivity.
Qed.

(** The last occurrence: the character is at [i] and does not occur
    after it. *)
Lemma rfind_some (c : codepoint) (s : pystr) (i : nat) :
  rfind c s = Some i ->
  (i < length s)%nat
  /\ skipn i s = c :: skipn (S i) s
  /\ no_char c (skipn (S i) s) = true.
Proof.
  revert i. induction s as [|x s IH]; cbn [rfind]; [discriminate|]. intros i.
  destruct (rfind c s) as [j|] eqn:E.
  - intros [= <-]. destruct (IH j eq_refl) as (H1 & H2 & H3).
    cbn [length skipn]. split; [lia|]. split; assumption.
  - destruct (cp_eqb x c) eqn:Ex; [|discriminate]. intros [= <-].
    apply cp_eqb_eq in Ex. subst x. cbn. split; [lia|]. split; [reflexivity|].
    apply rfind_none_no_char. assumption.
Qed.

Lemma name_stem_suffix (name : pystr) : name_stem name ++ name_suffix name = name.
Proof.
  unfold name_stem, name_suffix. destruct (suffix_index name).
  - apply firstn_skipn.
  - apply app_nil_r.
Qed.

(** A suffix is a dot followed by at least one character, none a dot. *)
Lemma name_suffix_shape (name : pystr) :
  name_suffix name = []
  \/ exists e, name_suffix name = DOT :: e /\ e <> [] /\ no_char DOT e = true
               /\ name_stem name <> [].
Proof.
  unfold name_suffix, name_stem, suffix_index.
  destruct (rfind DOT name) as [i|] eqn:E; [|left; reflexivity].
  destruct ((0 <? i)%nat && (S i <? length name)%nat) eqn:C; [|left; reflexivity].
  right. apply andb_true_iff in C as [C1 C2].
  apply Nat.ltb_lt in C1. apply Nat.ltb_lt in C2.
  destruct (rfind_some _ _ _ E) as (H1 & H2 & H3).
  exists (skipn (S i) name). repeat split; try assumption.
  - intros Hnil. apply (f_equal (@length _)) in Hnil.
    rewrite length_skipn in Hnil. cbn in Hnil. lia.
  - intros Hnil. apply (f_equal (@length _)) in Hnil.
    rewrite length_firstn in Hnil. cbn in Hnil. lia.
Qed.









(** ** Heading heuristics of the EPUB detector *)

Module ContentFacts.
Import EPUBProcessor.






Lemma content_chapters_elem (nfkc : pystr -> pystr) (document_id : option Z)
    (items : list Item) (c : Chapter.t) :
  c ∈ _extract_chapters_from_content nfkc document_id (Some items) <->
  exists idx item, items !! idx = Some item
    /\ chapter_of_item nfkc document_id idx item = Some c.
Proof.
  unfold _extract_chapters_from_content. rewrite list_elem_of_omap. split.
  - intros ([idx item] & Hin & Hc). apply list_elem_of_lookup in Hin as [i Hi].
    rewrite list_lookup_imap in Hi. destruct (items !! i) as [x|] eqn:E; [|discriminate].
    cbn in Hi. injection Hi as <- <-. eauto.
  - intros (idx & item & Hl & Hc). exists (idx, item). split; [|exact Hc].
    apply list_elem_of_lookup. exists idx. rewrite list_lookup_imap, Hl. reflexivity.
Qed.

End ContentFacts.




(** ** Metadata of a PDF *)


Lemma safe_get_pdf_meta_value (d : gmap string (option pystr)) (key : string)
    (value : pystr) :
  d !! key = Some (Some value) -> value <> [] ->
  PDFProcessor._safe_get_pdf_meta d key = strip is_space value.
Proof.
  intros H Hne. unfold PDFProcessor._safe_get_pdf_meta.
  destruct (decide (d = ∅)) as [->|]; [rewrite lookup_empty in H; discriminate|].
  rewrite H. destruct value; [congruence|reflexivity].
Qed.



(** ** Extraction: one chapter *)

Lemma extracted_paths_cons (valid : Chapter.t -> bool) (c c1 : Chapter.t)
    (rest rest1 : list Chapter.t) :
  extracted_paths valid (c :: rest) (c1 :: rest1)
  = extracted_paths valid [c] [c1] ++ extracted_paths valid rest rest1.
Proof.
  unfold extracted_paths. simpl.
  destruct (valid c && is_success (Chapter.split_status c1)); reflexivity.
Qed.

Lemma add_log_prefix (pre : log) (l : level) (m : message) (st : SplitState) :
  add_log l m (with_log_prefix pre st) = with_log_prefix pre (add_log l m st).
Proof.
  unfold add_log, with_log_prefix. cbn. rewrite app_assoc. reflexivity.
Qed.

Lemma add_logs_prefix (pre : log) (ms : log) (st : SplitState) :
  add_logs ms (with_log_prefix pre st) = with_log_prefix pre (add_logs ms st).
Proof.
  unfold add_logs, with_log_prefix. cbn. rewrite app_assoc. reflexivity.
Qed.

Lemma create_file_prefix (pre : log) (p : Path) (st : SplitState) :
  create_file p (with_log_prefix pre st) = with_log_prefix pre (create_file p st).
Proof. reflexivity. Qed.

Lemma write_file_prefix (pre : log) (p : Path) (c : FileContent) (st : SplitState) :
  write_file p c (with_log_prefix pre st) = with_log_prefix pre (write_file p c st).
Proof. reflexivity. Qed.

Lemma append_output_prefix (pre : log) (s : pystr) (st : SplitState) :
  append_output s (with_log_prefix pre st) = with_log_prefix pre (append_output s st).
Proof. reflexivity. Qed.

Lemma Path_eqb_refl (p : Path) : Path_eqb p p = true.
Proof.
  unfold Path_eqb. rewrite eqb_reflx. cbn.
  induction (parts p) as [|w ws IH]; [reflexivity|].
  rewrite (proj2 (pystr_eqb_eq w w) eq_refl). exact IH.
Qed.

Ltac rewrite_prefix :=
  repeat (rewrite add_logs_prefix || rewrite add_log_prefix
          || rewrite write_file_prefix || rewrite create_file_prefix
          || rewrite append_output_prefix).

Module PdfSplitFacts.
Import PDFProcessor.

Section Facts.

Variable nfkc : pystr -> pystr.
Variable env : SplitEnv.
Variable document : Document.t.
Variable settings : SplitSettings.t.
Variable pdf_reader : PdfReader.
Variable output_dir : Path.
Variable output_extension : pystr.

Abbreviation step :=
  (split_chapter nfkc env document settings pdf_reader output_dir output_extension).
Abbreviation loop :=
  (split_loop nfkc env document settings pdf_reader output_dir output_extension).

Lemma pdf_split_chapter_skipped (io : ChapterIO) (st : SplitState) (c : Chapter.t) :
  Chapter.is_valid_pdf_chapter c = false ->
  snd (step io st c) = c
  /\ output_files (fst (step io st c)) = output_files st
  /\ fs (fst (step io st c)) = fs st
  /\ written (fst (step io st c)) = written st.
Proof.
  intros H. unfold split_chapter. rewrite H. cbn. auto.
Qed.

Lemma pdf_split_chapter_failed (io : ChapterIO) (st : SplitState) (c : Chapter.t) :
  Chapter.is_valid_pdf_chapter c = true -> pdf_chapter_fails io = true ->
  snd (step io st c) = Chapter.set_split_status ProcessingStatus.ERROR c
  /\ output_files (fst (step io st c)) = output_files st
  /\ written (fst (step io st c)) = written st.
Proof.
  intros Hv Hf. unfold split_chapter. rewrite Hv. cbn [negb].
  unfold pdf_chapter_fails in Hf.
  destruct (exists_raises io); [cbn; auto|].
  destruct (ensure_unique_filename _ _ _); [|cbn; auto].
  destruct (writer_raises io); [cbn; auto|].
  destruct (write_result io); [discriminate Hf| |];
    destruct (SplitSettings.preserve_metadata settings && add_metadata_raises io);
    cbn; auto.
Qed.

(** A chapter none of whose calls fails is written to the path
    [ensure_unique_filename] gives it, with the pages [copy_pages] could
    add, whether or not adding a page or setting the metadata raised. *)
Lemma pdf_split_chapter_succeeded (io : ChapterIO) (st : SplitState) (c : Chapter.t) :
  Chapter.is_valid_pdf_chapter c = true -> pdf_chapter_fails io = false ->
  exists output_path content,
    ensure_unique_filename (fs st) (clock env)
      (joinpath output_dir
         (get_safe_chapter_filename nfkc (Document.title document)
            (Chapter.chapter_number c) (Chapter.title c) output_extension))
    = Some output_path
    /\ snd (step io st c)
       = Chapter.set_split_status ProcessingStatus.SUCCESS
           (Chapter.set_output_file_path (Path_str output_path) c)
    /\ output_files (fst (step io st c)) = output_files st ++ [Path_str output_path]
    /\ fs (fst (step io st c)) output_path = true
    /\ written (fst (step io st c)) = written st ++ [(output_path, content)]
    /\ metadata_set content
       = SplitSettings.preserve_metadata settings && negb (add_metadata_raises io).
Proof.
  intros Hv Hf. unfold split_chapter. rewrite Hv. cbn [negb].
  unfold pdf_chapter_fails in Hf.
  apply orb_false_iff in Hf as [Hf Hw]. apply orb_false_iff in Hf as [He Hwr].
  rewrite He, Hwr.
  destruct (ensure_unique_filename_total (fs st) (clock env)
              (joinpath output_dir
                 (get_safe_chapter_filename nfkc (Document.title document)
                    (Chapter.chapter_number c) (Chapter.title c) output_extension)))
    as [q Hq].
  rewrite Hq. exists q. eexists. split; [reflexivity|].
  destruct (write_result io); try discriminate.
  destruct (SplitSettings.preserve_metadata settings && add_metadata_raises io); cbn;
    rewrite Path_eqb_refl; repeat split.
Qed.

(** The status of a chapter after its step: unchanged when skipped,
    [ERROR] or [SUCCESS] otherwise. *)
Lemma pdf_split_chapter_status (io : ChapterIO) (st : SplitState) (c : Chapter.t) :
  Chapter.split_status (snd (step io st c))
  = if Chapter.is_valid_pdf_chapter c
    then if pdf_chapter_fails io then ProcessingStatus.ERROR else ProcessingStatus.SUCCESS
    else Chapter.split_status c.
Proof.
  destruct (Chapter.is_valid_pdf_chapter c) eqn:Hv.
  - destruct (pdf_chapter_fails io) eqn:Hf.
    + destruct (pdf_split_chapter_failed io st c Hv Hf) as [-> _]. reflexivity.
    + destruct (pdf_split_chapter_succeeded io st c Hv Hf) as (q & k & _ & -> & _).
      reflexivity.
  - destruct (pdf_split_chapter_skipped io st c Hv) as [-> _]. reflexivity.
Qed.

(** The paths returned grow by the path of the chapter when it is valid
    and succeeds, and by nothing otherwise. *)
Lemma pdf_split_chapter_outputs (io : ChapterIO) (st : SplitState) (c : Chapter.t) :
  output_files (fst (step io st c))
  = output_files st
    ++ extracted_paths Chapter.is_valid_pdf_chapter [c] [snd (step io st c)].
Proof.
  unfold extracted_paths. simpl.
  rewrite pdf_split_chapter_status.
  destruct (Chapter.is_valid_pdf_chapter c) eqn:Hv.
  - destruct (pdf_chapter_fails io) eqn:Hf; cbn.
    + destruct (pdf_split_chapter_failed io st c Hv Hf) as (_ & -> & _).
      rewrite app_nil_r. reflexivity.
    + destruct (pdf_split_chapter_succeeded io st c Hv Hf) as (q & k & _ & Hs & -> & _).
      rewrite Hs. reflexivity.
  - destruct (pdf_split_chapter_skipped io st c Hv) as (_ & -> & _). cbn.
    rewrite app_nil_r. reflexivity.
Qed.

(** The loop visits every chapter: the chapter at [i] is replaced by the
    result of its own step, run with the answers for position [idx + i],
    and the returned paths are those of the chapters extracted. *)
Lemma pdf_split_loop_each (chapters : list Chapter.t) (idx : nat) (st : SplitState) :
  length (snd (loop idx chapters st)) = length chapters
  /\ (forall i c, chapters !! i = Some c ->
        exists st_i,
          snd (loop idx chapters st) !! i
          = Some (snd (step (chapter_io env (idx + i)) st_i c)))
  /\ output_files (fst (loop idx chapters st))
     = output_files st
       ++ extracted_paths Chapter.is_valid_pdf_chapter chapters
            (snd (loop idx chapters st)).
Proof.
  revert idx st. induction chapters as [|c rest IH]; intros idx st.
  - cbn. split; [reflexivity|]. split; [intros i c H; discriminate|].
    rewrite app_nil_r. reflexivity.
  - cbn [split_loop].
    pose proof (pdf_split_chapter_outputs (chapter_io env idx) st c) as Hout.
    destruct (step (chapter_io env idx) st c) as [st1 c1] eqn:E1.
    destruct (IH (S idx) st1) as (Hlen & Hi & Hfiles).
    destruct (loop (S idx) rest st1) as [st2 rest2] eqn:E2.
    cbn [fst snd] in *. split; [cbn; f_equal; exact Hlen|]. split.
    + intros [|i] c' Hc.
      * cbn in Hc. injection Hc as <-. exists st. rewrite Nat.add_0_r, E1. reflexivity.
      * cbn in Hc. destruct (Hi i c' Hc) as [st_i Hst]. exists st_i.
        replace (idx + S i)%nat with (S idx + i)%nat by lia. exact Hst.
    + rewrite (extracted_paths_cons _ c c1 rest rest2), Hfiles, Hout, app_assoc.
      reflexivity.
Qed.

(** Records logged earlier change nothing but the log. *)
Lemma pdf_split_chapter_prefix (pre : log) (io : ChapterIO) (st : SplitState) (c : Chapter.t) :
  step io (with_log_prefix pre st) c
  = (with_log_prefix pre (fst (step io st c)), snd (step io st c)).
Proof.
  unfold split_chapter.
  change (fs (with_log_prefix pre st)) with (fs st).
  destruct (Chapter.is_valid_pdf_chapter c); cbn [negb fst snd];
    [|rewrite add_log_prefix; reflexivity].
  destruct (exists_raises io); [rewrite add_log_prefix; reflexivity|].
  destruct (ensure_unique_filename _ _ _); [|rewrite add_log_prefix; reflexivity].
  destruct (writer_raises io); [rewrite add_log_prefix; reflexivity|].
  destruct (SplitSettings.preserve_metadata settings && add_metadata_raises io);
    destruct (write_result io); cbn [fst snd]; rewrite_prefix; reflexivity.
Qed.

Lemma pdf_split_loop_prefix (pre : log) (chapters : list Chapter.t) (idx : nat)
    (st : SplitState) :
  loop idx chapters (with_log_prefix pre st)
  = (with_log_prefix pre (fst (loop idx chapters st)), snd (loop idx chapters st)).
Proof.
  revert idx st. induction chapters as [|c rest IH]; intros idx st; [reflexivity|].
  cbn [split_loop]. rewrite pdf_split_chapter_prefix.
  destruct (step (chapter_io env idx) st c) as [st1 c1]. cbn [fst snd].
  rewrite IH. destruct (loop (S idx) rest st1) as [st2 rest2]. reflexivity.
Qed.

End Facts.

(** The steps read one field of the settings, [preserve_metadata]. *)
Lemma pdf_split_loop_settings (nfkc : pystr -> pystr) (env : SplitEnv)
    (document : Document.t) (s1 s2 : SplitSettings.t) (pdf_reader : PdfReader)
    (output_dir : Path) (output_extension : pystr) (chapters : list Chapter.t)
    (idx : nat) (st : SplitState) :
  SplitSettings.preserve_metadata s1 = SplitSettings.preserve_metadata s2 ->
  split_loop nfkc env document s1 pdf_reader output_dir output_extension idx chapters st
  = split_loop nfkc env document s2 pdf_reader output_dir output_extension idx chapters st.
Proof.
  intros H. revert idx st. induction chapters as [|c rest IH]; intros idx st;
    [reflexivity|].
  cbn [split_loop].
  assert (split_chapter nfkc env document s1 pdf_reader output_dir output_extension
            (chapter_io env idx) st c
          = split_chapter nfkc env document s2 pdf_reader output_dir output_extension
              (chapter_io env idx) st c) as ->
    by (unfold split_chapter; rewrite H; reflexivity).
  destruct (split_chapter _ _ _ _ _ _ _ _ _ _) as [st1 c1]. rewrite IH. reflexivity.
Qed.

End PdfSplitFacts.

Module EpubSplitFacts.
Import EPUBProcessor.

Section Facts.

Variable nfkc : pystr -> pystr.
Variable env : SplitEnv.
Variable document : Document.t.
Variable settings : SplitSettings.t.
Variable source_book : option (list Item).
Variable output_dir : Path.
Variable output_extension : pystr.

Abbreviation step :=
  (split_chapter nfkc env document settings source_book output_dir output_extension).
Abbreviation loop :=
  (split_loop nfkc env document settings source_book output_dir output_extension).
Abbreviation save := (_extract_and_save_chapter settings source_book).

(** [_extract_and_save_chapter] returns [True] exactly when building the
    book, finding an item and writing the file all succeed, whether or
    not copying the metadata or adding the item raised; it does not touch
    the returned paths. *)
Lemma extract_and_save_result (io : ChapterIO) (c : Chapter.t) (p : Path)
    (st : SplitState) :
  snd (save io c p st)
  = negb (book_raises io || negb (truthy_list (_get_chapter_items source_book c))
          || negb (write_ok (write_result io)))
  /\ output_files (fst (save io c p st)) = output_files st.
Proof.
  unfold _extract_and_save_chapter.
  destruct (book_raises io); [cbn; auto|].
  destruct (_get_chapter_items source_book c);
    destruct (SplitSettings.preserve_metadata settings && copy_metadata_raises io);
    try (cbn; auto; fail);
    destruct (add_item_raises io); destruct (spine_raises io);
    destruct (write_result io); cbn; auto.
Qed.

Lemma extract_and_save_prefix (pre : log) (io : ChapterIO) (c : Chapter.t) (p : Path)
    (st : SplitState) :
  save io c p (with_log_prefix pre st)
  = (with_log_prefix pre (fst (save io c p st)), snd (save io c p st)).
Proof.
  unfold _extract_and_save_chapter.
  destruct (book_raises io); [rewrite add_log_prefix; reflexivity|].
  destruct (_get_chapter_items source_book c);
    destruct (SplitSettings.preserve_metadata settings && copy_metadata_raises io);
    try (cbn [fst snd]; rewrite_prefix; reflexivity);
    destruct (add_item_raises io); destruct (spine_raises io);
    destruct (write_result io); cbn [fst snd];
    rewrite_prefix; reflexivity.
Qed.

Lemma epub_split_chapter_skipped (io : ChapterIO) (st : SplitState) (c : Chapter.t) :
  has_xpath c = false ->
  snd (step io st c) = c
  /\ output_files (fst (step io st c)) = output_files st
  /\ fs (fst (step io st c)) = fs st
  /\ written (fst (step io st c)) = written st.
Proof.
  unfold has_xpath. intros H. unfold split_chapter. rewrite H. cbn. auto.
Qed.

Lemma epub_split_chapter_failed (io : ChapterIO) (st : SplitState) (c : Chapter.t) :
  has_xpath c = true -> epub_chapter_fails source_book io c = true ->
  snd (step io st c) = Chapter.set_split_status ProcessingStatus.ERROR c
  /\ output_files (fst (step io st c)) = output_files st.
Proof.
  unfold has_xpath. intros Hv Hf. unfold split_chapter. rewrite Hv. cbn [negb].
  unfold epub_chapter_fails in Hf.
  destruct (exists_raises io); [cbn; auto|].
  destruct (ensure_unique_filename _ _ _) as [q|]; [|cbn; auto].
  destruct (extract_and_save_result io c q st) as [Hr Ho].
  destruct (save io c q st) as [st1 success].
  cbn [fst snd] in *. cbn [orb] in Hf.
  rewrite Hf in Hr. subst success. cbn. auto.
Qed.

Lemma epub_split_chapter_succeeded (io : ChapterIO) (st : SplitState) (c : Chapter.t) :
  has_xpath c = true -> epub_chapter_fails source_book io c = false ->
  exists output_path,
    ensure_unique_filename (fs st) (clock env)
      (joinpath output_dir
         (get_safe_chapter_filename nfkc (Document.title document)
            (Chapter.chapter_number c) (Chapter.title c) output_extension))
    = Some output_path
    /\ snd (step io st c)
       = Chapter.set_split_status ProcessingStatus.SUCCESS
           (Chapter.set_output_file_path (Path_str output_path) c)
    /\ output_files (fst (step io st c)) = output_files st ++ [Path_str output_path].
Proof.
  unfold has_xpath. intros Hv Hf. unfold split_chapter. rewrite Hv. cbn [negb].
  unfold epub_chapter_fails in Hf.
  destruct (exists_raises io); [discriminate|]. cbn [orb] in Hf.
  destruct (ensure_unique_filename_total (fs st) (clock env)
              (joinpath output_dir
                 (get_safe_chapter_filename nfkc (Document.title document)
                    (Chapter.chapter_number c) (Chapter.title c) output_extension)))
    as [q Hq].
  rewrite Hq. exists q. split; [reflexivity|].
  destruct (extract_and_save_result io c q st) as [Hr Ho].
  destruct (save io c q st) as [st1 success].
  cbn [fst snd] in *. rewrite Hf in Hr. subst success. cbn. rewrite Ho. auto.
Qed.

Lemma epub_split_chapter_status (io : ChapterIO) (st : SplitState) (c : Chapter.t) :
  Chapter.split_status (snd (step io st c))
  = if has_xpath c
    then if epub_chapter_fails source_book io c
         then ProcessingStatus.ERROR else ProcessingStatus.SUCCESS
    else Chapter.split_status c.
Proof.
  destruct (has_xpath c) eqn:Hv.
  - destruct (epub_chapter_fails source_book io c) eqn:Hf.
    + destruct (epub_split_chapter_failed io st c Hv Hf) as [-> _]. reflexivity.
    + destruct (epub_split_chapter_succeeded io st c Hv Hf) as (q & _ & -> & _).
      reflexivity.
  - destruct (epub_split_chapter_skipped io st c Hv) as [-> _]. reflexivity.
Qed.

Lemma epub_split_chapter_outputs (io : ChapterIO) (st : SplitState) (c : Chapter.t) :
  output_files (fst (step io st c))
  = output_files st ++ extracted_paths has_xpath [c] [snd (step io st c)].
Proof.
  unfold extracted_paths. simpl.
  rewrite epub_split_chapter_status.
  destruct (has_xpath c) eqn:Hv.
  - destruct (epub_chapter_fails source_book io c) eqn:Hf; cbn.
    + destruct (epub_split_chapter_failed io st c Hv Hf) as [_ ->].
      rewrite app_nil_r. reflexivity.
    + destruct (epub_split_chapter_succeeded io st c Hv Hf) as (q & _ & Hs & ->).
      rewrite Hs. reflexivity.
  - destruct (epub_split_chapter_skipped io st c Hv) as (_ & -> & _). cbn.
    rewrite app_nil_r. reflexivity.
Qed.

Lemma epub_split_loop_each (chapters : list Chapter.t) (idx : nat) (st : SplitState) :
  length (snd (loop idx chapters st)) = length chapters
  /\ (forall i c, chapters !! i = Some c ->
        exists st_i,
          snd (loop idx chapters st) !! i
          = Some (snd (step (chapter_io env (idx + i)) st_i c)))
  /\ output_files (fst (loop idx chapters st))
     = output_files st
       ++ extracted_paths has_xpath chapters (snd (loop idx chapters st)).
Proof.
  revert idx st. induction chapters as [|c rest IH]; intros idx st.
  - cbn. split; [reflexivity|]. split; [intros i c H; discriminate|].
    rewrite app_nil_r. reflexivity.
  - cbn [split_loop].
    pose proof (epub_split_chapter_outputs (chapter_io env idx) st c) as Hout.
    destruct (step (chapter_io env idx) st c) as [st1 c1] eqn:E1.
    destruct (IH (S idx) st1) as (Hlen & Hi & Hfiles).
    destruct (loop (S idx) rest st1) as [st2 rest2] eqn:E2.
    cbn [fst snd] in *. split; [cbn; f_equal; exact Hlen|]. split.
    + intros [|i] c' Hc.
      * cbn in Hc. injection Hc as <-. exists st. rewrite Nat.add_0_r, E1. reflexivity.
      * cbn in Hc. destruct (Hi i c' Hc) as [st_i Hst]. exists st_i.
        replace (idx + S i)%nat with (S idx + i)%nat by lia. exact Hst.
    + rewrite (extracted_paths_cons _ c c1 rest rest2), Hfiles, Hout, app_assoc.
      reflexivity.
Qed.

Lemma epub_split_chapter_prefix (pre : log) (io : ChapterIO) (st : SplitState) (c : Chapter.t) :
  step io (with_log_prefix pre st) c
  = (with_log_prefix pre (fst (step io st c)), snd (step io st c)).
Proof.
  unfold split_chapter.
  change (fs (with_log_prefix pre st)) with (fs st).
  destruct (truthy (Chapter.xpath c)); cbn [negb fst snd];
    [|rewrite add_log_prefix; reflexivity].
  destruct (exists_raises io); [rewrite add_log_prefix; reflexivity|].
  destruct (ensure_unique_filename _ _ _) as [q|]; [|rewrite add_log_prefix; reflexivity].
  rewrite extract_and_save_prefix.
  destruct (save io c q st) as [st1 success].
  cbn [fst snd]. destruct success; cbn [fst snd]; rewrite_prefix; reflexivity.
Qed.

Lemma epub_split_loop_prefix (pre : log) (chapters : list Chapter.t) (idx : nat)
    (st : SplitState) :
  loop idx chapters (with_log_prefix pre st)
  = (with_log_prefix pre (fst (loop idx chapters st)), snd (loop idx chapters st)).
Proof.
  revert idx st. induction chapters as [|c rest IH]; intros idx st; [reflexivity|].
  cbn [split_loop]. rewrite epub_split_chapter_prefix.
  destruct (step (chapter_io env idx) st c) as [st1 c1]. cbn [fst snd].
  rewrite IH. destruct (loop (S idx) rest st1) as [st2 rest2]. reflexivity.
Qed.

End Facts.

(** The steps read one field of the settings, [preserve_metadata]. *)
Lemma epub_split_loop_settings (nfkc : pystr -> pystr) (env : SplitEnv)
    (document : Document.t) (s1 s2 : SplitSettings.t) (source_book : option (list Item))
    (output_dir : Path) (output_extension : pystr) (chapters : list Chapter.t)
    (idx : nat) (st : SplitState) :
  SplitSettings.preserve_metadata s1 = SplitSettings.preserve_metadata s2 ->
  split_loop nfkc env document s1 source_book output_dir output_extension idx chapters st
  = split_loop nfkc env document s2 source_book output_dir output_extension idx chapters st.
Proof.
  intros H. revert idx st. induction chapters as [|c rest IH]; intros idx st;
    [reflexivity|].
  cbn [split_loop].
  assert (split_chapter nfkc env document s1 source_book output_dir output_extension
            (chapter_io env idx) st c
          = split_chapter nfkc env document s2 source_book output_dir output_extension
              (chapter_io env idx) st c) as ->
    by (unfold split_chapter, _extract_and_save_chapter; rewrite H; reflexivity).
  destruct (split_chapter _ _ _ _ _ _ _ _ _ _) as [st1 c1]. rewrite IH. reflexivity.
Qed.

End EpubSplitFacts.

(** ** Extraction: the whole split *)


(** A PDF split whose set-up succeeds is the loop over the chapters, and
    returns. *)
Lemma pdf_split_runs_loop (nfkc : pystr -> pystr) (env : PDFProcessor.SplitEnv)
    (document : Document.t) (settings : SplitSettings.t) (files : Path -> bool)
    (chapters : list Chapter.t) :
  pdf_setup_ok env settings = true ->
  exists pdf_reader output_extension st0,
    PDFProcessor.source env = Some pdf_reader
    /\ fs st0 = files /\ output_files st0 = []
    /\ PDFProcessor.split_pdf_by_chapters nfkc env document settings files chapters
       = let r := PDFProcessor.split_loop nfkc env document settings pdf_reader
                    (Path_of (SplitSettings.output_directory settings))
                    output_extension 0 chapters st0 in
         {| outcome := Ok (output_files (fst r)); chapters_after := snd r;
            fs_after := fs (fst r); written_after := written (fst r);
            log_after := logged (fst r) |}.
Proof.
  unfold pdf_setup_ok, PDFProcessor.split_pdf_by_chapters. intros H.
  apply andb_true_iff in H as [Hv Hs].
  destruct (validate_output_directory _ _) as [is_valid error_msg].
  cbn [fst] in Hv. subst is_valid. cbn [negb].
  destruct (PDFProcessor.source env) as [pdf_reader|]; [|discriminate].
  exists pdf_reader.
  destruct (SplitSettings.requires_format_conversion settings (Document.file_type document)
            && OutputFormat.eqb (SplitSettings.output_format settings) OutputFormat.EPUB).
  - exists (py ".pdf"),
      (add_log WARNING ConversionUnsupported
         {| fs := files; written := []; output_files := []; logged := [] |}).
    split; [reflexivity|]. split; [reflexivity|]. split; [reflexivity|]. cbn zeta.
    destruct (PDFProcessor.split_loop _ _ _ _ _ _ _ _ _ _); reflexivity.
  - exists (SplitSettings.get_output_extension settings (Document.file_type document)),
      {| fs := files; written := []; output_files := []; logged := [] |}.
    split; [reflexivity|]. split; [reflexivity|]. split; [reflexivity|]. cbn zeta.
    destruct (PDFProcessor.split_loop _ _ _ _ _ _ _ _ _ _); reflexivity.
Qed.


Lemma epub_split_runs_loop (nfkc : pystr -> pystr) (env : EPUBProcessor.SplitEnv)
    (document : Document.t) (settings : SplitSettings.t) (files : Path -> bool)
    (chapters : list Chapter.t) :
  epub_setup_ok env settings = true ->
  exists source_book output_extension st0,
    EPUBProcessor.source env = Some source_book
    /\ fs st0 = files /\ output_files st0 = []
    /\ EPUBProcessor.split_epub_by_chapters nfkc env document settings files chapters
       = let r := EPUBProcessor.split_loop nfkc env document settings source_book
                    (Path_of (SplitSettings.output_directory settings))
                    output_extension 0 chapters st0 in
         {| outcome := Ok (output_files (fst r)); chapters_after := snd r;
            fs_after := fs (fst r); written_after := written (fst r);
            log_after := logged (fst r) |}.
Proof.
  unfold epub_setup_ok, EPUBProcessor.split_epub_by_chapters. intros H.
  apply andb_true_iff in H as [Hv Hs].
  destruct (validate_output_directory _ _) as [is_valid error_msg].
  cbn [fst] in Hv. subst is_valid. cbn [negb].
  destruct (EPUBProcessor.source env) as [source_book|]; [|discriminate].
  exists source_book.
  destruct (SplitSettings.requires_format_conversion settings (Document.file_type document)
            && OutputFormat.eqb (SplitSettings.output_format settings) OutputFormat.PDF).
  - exists (py ".epub"),
      (add_log WARNING ConversionUnsupported
         {| fs := files; written := []; output_files := []; logged := [] |}).
    split; [reflexivity|]. split; [reflexivity|]. split; [reflexivity|]. cbn zeta.
    destruct (EPUBProcessor.split_loop _ _ _ _ _ _ _ _ _ _); reflexivity.
  - exists (SplitSettings.get_output_extension settings (Document.file_type document)),
      {| fs := files; written := []; output_files := []; logged := [] |}.
    split; [reflexivity|]. split; [reflexivity|]. split; [reflexivity|]. cbn zeta.
    destruct (EPUBProcessor.split_loop _ _ _ _ _ _ _ _ _ _); reflexivity.
Qed.




(** C10. In a split whose set-up succeeds, a chapter that fails the
    pre-check (for a PDF: a missing start or end page, a start page after
    the end page or not positive; for an EPUB: an empty reference) is
    left exactly as it was, so its status stays [PENDING] and it gets no
    output path; the list returned holds the paths of the chapters that
    passed the pre-check and were extracted, and nothing else; and every
    chapter that passes the pre-check is processed, ending in [SUCCESS]
    or [ERROR]. *)
Theorem split_skips_chapters_failing_precheck (nfkc : pystr -> pystr)
    (document : Document.t) (settings : SplitSettings.t) (files : Path -> bool)
    (chapters : list Chapter.t) :
  (forall env : PDFProcessor.SplitEnv,
     pdf_setup_ok env settings = true ->
     outcome (PDFProcessor.split_pdf_by_chapters nfkc env document settings files chapters)
     = Ok (extracted_paths Chapter.is_valid_pdf_chapter chapters
             (chapters_after
                (PDFProcessor.split_pdf_by_chapters nfkc env document settings
                   files chapters)))
     /\ forall i c, chapters !! i = Some c ->
          (Chapter.is_valid_pdf_chapter c = false ->
           chapters_after
             (PDFProcessor.split_pdf_by_chapters nfkc env document settings
                files chapters) !! i = Some c)
          /\ (Chapter.is_valid_pdf_chapter c = true ->
              exists c',
                chapters_after
                  (PDFProcessor.split_pdf_by_chapters nfkc env document settings
                     files chapters) !! i = Some c'
                /\ (Chapter.split_status c' = ProcessingStatus.SUCCESS
                    \/ Chapter.split_status c' = ProcessingStatus.ERROR)))
  /\ (forall env : EPUBProcessor.SplitEnv,
        epub_setup_ok env settings = true ->
        outcome (EPUBProcessor.split_epub_by_chapters nfkc env document settings
                   files chapters)
        = Ok (extracted_paths has_xpath chapters
                (chapters_after
                   (EPUBProcessor.split_epub_by_chapters nfkc env document settings
                      files chapters)))
        /\ forall i c, chapters !! i = Some c ->
             (has_xpath c = false ->
              chapters_after
                (EPUBProcessor.split_epub_by_chapters nfkc env document settings
                   files chapters) !! i = Some c)
             /\ (has_xpath c = true ->
                 exists c',
                   chapters_after
                     (EPUBProcessor.split_epub_by_chapters nfkc env document settings
                        files chapters) !! i = Some c'
                   /\ (Chapter.split_status c' = ProcessingStatus.SUCCESS
                       \/ Chapter.split_status c' = ProcessingStatus.ERROR))).
Proof.
  split; intros env Hok.
  - destruct (pdf_split_runs_loop nfkc env document settings files chapters Hok)
      as (reader & ext & st0 & Hsrc & Hfs & Hout & ->). cbn zeta. cbn [outcome chapters_after].
    destruct (PdfSplitFacts.pdf_split_loop_each nfkc env document settings reader
                (Path_of (SplitSettings.output_directory settings)) ext chapters 0 st0)
      as (Hlen & Hi & Hfiles).
    split; [rewrite Hfiles, Hout; reflexivity|].
    intros i c Hc. destruct (Hi i c Hc) as [st_i Hst]. cbn [Nat.add] in Hst. split; intros Hv.
    + rewrite Hst. f_equal.
      apply (PdfSplitFacts.pdf_split_chapter_skipped nfkc env document settings reader _ ext _ st_i c Hv).
    + eexists. split; [exact Hst|].
      rewrite PdfSplitFacts.pdf_split_chapter_status, Hv.
      destruct (pdf_chapter_fails _); auto.
  - destruct (epub_split_runs_loop nfkc env document settings files chapters Hok)
      as (book & ext & st0 & Hsrc & Hfs & Hout & ->). cbn zeta.
    cbn [outcome chapters_after].
    destruct (EpubSplitFacts.epub_split_loop_each nfkc env document settings book
                (Path_of (SplitSettings.output_directory settings)) ext chapters 0 st0)
      as (Hlen & Hi & Hfiles).
    split; [rewrite Hfiles, Hout; reflexivity|].
    intros i c Hc. destruct (Hi i c Hc) as [st_i Hst]. cbn [Nat.add] in Hst. split; intros Hv.
    + rewrite Hst. f_equal.
      apply (EpubSplitFacts.epub_split_chapter_skipped nfkc env document settings book _ ext _ st_i c Hv).
    + eexists. split; [exact Hst|].
      rewrite EpubSplitFacts.epub_split_chapter_status, Hv.
      destruct (epub_chapter_fails _ _ _); auto.
Qed.

(** In the sample EPUB split the third chapter has no reference: it comes
    back unchanged, still [PENDING]. *)
Lemma split_skips_chapters_failing_precheck_witness :
  option_map Chapter.split_status
    (chapters_after
       (EPUBProcessor.split_epub_by_chapters nfkc_ascii sample_epub_env sample_epub
          sample_settings no_files sample_epub_chapters) !! 2%nat)
  = Some ProcessingStatus.PENDING.
Proof.
  destruct (split_skips_chapters_failing_precheck nfkc_ascii sample_epub sample_settings
              no_files sample_epub_chapters) as [_ Hepub].
  destruct (Hepub sample_epub_env eq_refl) as [_ Hi].
  destruct (Hi 2%nat _ eq_refl) as [Hskip _].
  rewrite (Hskip eq_refl). reflexivity.
Defined.

(** ** Conversion requests *)

Lemma pdf_conversion_degrades (nfkc : pystr -> pystr) (env : PDFProcessor.SplitEnv)
    (document : Document.t) (settings : SplitSettings.t) (files : Path -> bool)
    (chapters : list Chapter.t) :
  Document.file_type document = FileType.PDF ->
  SplitSettings.output_format settings = OutputFormat.EPUB ->
  let conv := PDFProcessor.split_pdf_by_chapters nfkc env document settings files chapters in
  let same :=
    PDFProcessor.split_pdf_by_chapters nfkc env document
      (SplitSettings.set_output_format OutputFormat.SAME_AS_INPUT settings) files chapters in
  outcome conv = outcome same
  /\ chapters_after conv = chapters_after same
  /\ fs_after conv = fs_after same
  /\ written_after conv = written_after same
  /\ log_after conv
     = (if fst (validate_output_directory (PDFProcessor.dir_env env)
                  (SplitSettings.output_directory settings))
        then [(WARNING, ConversionUnsupported)] else [])
       ++ log_after same.
Proof.
  intros Hft Hfmt conv same. subst conv same.
  unfold PDFProcessor.split_pdf_by_chapters,
    SplitSettings.requires_format_conversion, SplitSettings.get_output_extension.
  cbn [SplitSettings.output_directory SplitSettings.output_format
       SplitSettings.set_output_format].
  rewrite Hft, Hfmt.
  destruct (validate_output_directory _ _) as [is_valid error_msg].
  destruct is_valid; cbn [negb fst FileType.eqb OutputFormat.eqb andb];
    [|repeat split].
  destruct (PDFProcessor.source env) as [pdf_reader|]; [|repeat split].
  change (add_log WARNING ConversionUnsupported
            {| fs := files; written := []; output_files := []; logged := [] |})
    with (with_log_prefix [(WARNING, ConversionUnsupported)]
            {| fs := files; written := []; output_files := []; logged := [] |}).
  rewrite PdfSplitFacts.pdf_split_loop_prefix.
  rewrite (PdfSplitFacts.pdf_split_loop_settings nfkc env document settings
             (SplitSettings.set_output_format OutputFormat.SAME_AS_INPUT settings))
    by reflexivity.
  destruct (PDFProcessor.split_loop _ _ _ _ _ _ _ _ _ _) as [st1 chapters1].
  repeat split.
Qed.

Lemma epub_conversion_degrades (nfkc : pystr -> pystr) (env : EPUBProcessor.SplitEnv)
    (document : Document.t) (settings : SplitSettings.t) (files : Path -> bool)
    (chapters : list Chapter.t) :
  Document.file_type document = FileType.EPUB ->
  SplitSettings.output_format settings = OutputFormat.PDF ->
  let conv := EPUBProcessor.split_epub_by_chapters nfkc env document settings files chapters in
  let same :=
    EPUBProcessor.split_epub_by_chapters nfkc env document
      (SplitSettings.set_output_format OutputFormat.SAME_AS_INPUT settings) files chapters in
  outcome conv = outcome same
  /\ chapters_after conv = chapters_after same
  /\ fs_after conv = fs_after same
  /\ written_after conv = written_after same
  /\ log_after conv
     = (if fst (validate_output_directory (EPUBProcessor.dir_env env)
                  (SplitSettings.output_directory settings))
        then [(WARNING, ConversionUnsupported)] else [])
       ++ log_after same.
Proof.
  intros Hft Hfmt conv same. subst conv same.
  unfold EPUBProcessor.split_epub_by_chapters,
    SplitSettings.requires_format_conversion, SplitSettings.get_output_extension.
  cbn [SplitSettings.output_directory SplitSettings.output_format
       SplitSettings.set_output_format].
  rewrite Hft, Hfmt.
  destruct (validate_output_directory _ _) as [is_valid error_msg].
  destruct is_valid; cbn [negb fst FileType.eqb OutputFormat.eqb andb];
    [|repeat split].
  destruct (EPUBProcessor.source env) as [source_book|]; [|repeat split].
  change (add_log WARNING ConversionUnsupported
            {| fs := files; written := []; output_files := []; logged := [] |})
    with (with_log_prefix [(WARNING, ConversionUnsupported)]
            {| fs := files; written := []; output_files := []; logged := [] |}).
  rewrite EpubSplitFacts.epub_split_loop_prefix.
  rewrite (EpubSplitFacts.epub_split_loop_settings nfkc env document settings
             (SplitSettings.set_output_format OutputFormat.SAME_AS_INPUT settings))
    by reflexivity.
  destruct (EPUBProcessor.split_loop _ _ _ _ _ _ _ _ _ _) as [st1 chapters1].
  repeat split.
Qed.

(** C9. A split of a PDF with the output format forced to EPUB, and a
    split of an EPUB with the output format forced to PDF, attempt no
    conversion: the value returned (or the set-up exception raised), the
    chapters, the files and their contents are those of the same split
    with the same-as-input format, whose extension is the native one; the only
    difference is the warning logged once the output directory has
    validated. In particular, when the set-up succeeds the split
    returns. *)
Theorem conversion_request_degrades_to_native_format (nfkc : pystr -> pystr)
    (document : Document.t) (settings : SplitSettings.t) (files : Path -> bool)
    (chapters : list Chapter.t) :
  (forall env : PDFProcessor.SplitEnv,
     Document.file_type document = FileType.PDF ->
     SplitSettings.output_format settings = OutputFormat.EPUB ->
     let conv := PDFProcessor.split_pdf_by_chapters nfkc env document settings files chapters in
     let same :=
       PDFProcessor.split_pdf_by_chapters nfkc env document
         (SplitSettings.set_output_format OutputFormat.SAME_AS_INPUT settings)
         files chapters in
     (outcome conv = outcome same
      /\ chapters_after conv = chapters_after same
      /\ fs_after conv = fs_after same
      /\ written_after conv = written_after same
      /\ log_after conv
         = (if fst (validate_output_directory (PDFProcessor.dir_env env)
                      (SplitSettings.output_directory settings))
            then [(WARNING, ConversionUnsupported)] else [])
           ++ log_after same)
     /\ SplitSettings.get_output_extension
          (SplitSettings.set_output_format OutputFormat.SAME_AS_INPUT settings)
          (Document.file_type document) = py ".pdf"
     /\ (pdf_setup_ok env settings = true -> exists paths, outcome conv = Ok paths))
  /\ (forall env : EPUBProcessor.SplitEnv,
        Document.file_type document = FileType.EPUB ->
        SplitSettings.output_format settings = OutputFormat.PDF ->
        let conv :=
          EPUBProcessor.split_epub_by_chapters nfkc env document settings files chapters in
        let same :=
          EPUBProcessor.split_epub_by_chapters nfkc env document
            (SplitSettings.set_output_format OutputFormat.SAME_AS_INPUT settings)
            files chapters in
        (outcome conv = outcome same
         /\ chapters_after conv = chapters_after same
         /\ fs_after conv = fs_after same
         /\ written_after conv = written_after same
         /\ log_after conv
            = (if fst (validate_output_directory (EPUBProcessor.dir_env env)
                         (SplitSettings.output_directory settings))
               then [(WARNING, ConversionUnsupported)] else [])
              ++ log_after same)
        /\ SplitSettings.get_output_extension
             (SplitSettings.set_output_format OutputFormat.SAME_AS_INPUT settings)
             (Document.file_type document) = py ".epub"
        /\ (epub_setup_ok env settings = true -> exists paths, outcome conv = Ok paths)).
Proof.
  split; intros env Hft Hfmt conv same.
  - split; [apply pdf_conversion_degrades; assumption|].
    split; [rewrite Hft; reflexivity|].
    intros Hok. subst conv.
    destruct (pdf_split_runs_loop nfkc env document settings files chapters Hok)
      as (reader & ext & st0 & _ & _ & _ & ->). eexists. reflexivity.
  - split; [apply epub_conversion_degrades; assumption|].
    split; [rewrite Hft; reflexivity|].
    intros Hok. subst conv.
    destruct (epub_split_runs_loop nfkc env document settings files chapters Hok)
      as (book & ext & st0 & _ & _ & _ & ->). eexists. reflexivity.
Qed.

(** The sample PDF split with the EPUB format forced: it returns the path
    [out/01_One.pdf] of the same-format split, a PDF file. *)
Lemma conversion_request_degrades_to_native_format_witness :
  outcome (PDFProcessor.split_pdf_by_chapters nfkc_ascii sample_pdf_env sample_pdf
             (SplitSettings.set_output_format OutputFormat.EPUB sample_settings)
             no_files sample_pdf_chapters)
  = Ok [py "out/01_One.pdf"].
Proof.
  destruct (conversion_request_degrades_to_native_format nfkc_ascii sample_pdf
              (SplitSettings.set_output_format OutputFormat.EPUB sample_settings)
              no_files sample_pdf_chapters) as [Hpdf _].
  destruct (Hpdf sample_pdf_env eq_refl eq_refl) as [(Hout & _) _].
  rewrite Hout. vm_compute. reflexivity.
Defined.

(** ** Traversal of the outline and of the table of contents *)

Module TraversalFacts.

Section Outline.
Import PDFProcessor.

Variable nfkc : pystr -> pystr.
Variable document_id : option Z.
Variable pdf_reader : PdfReader.
Variable heap : addr -> OutlineObj.

Abbreviation visit := (process_outline_item nfkc document_id pdf_reader heap).



Lemma process_outline_item_S (fuel : nat) (item : addr) (st : outline_state) :
  visit (S fuel) item st
  = match heap item with
    | OutlineList items =>
        fold_left
          (fun acc subitem =>
             match acc with
             | Some st' => visit fuel subitem st'
             | None => None
             end)
          items (Some st)
    | Bookmark title page =>
        Some (process_bookmark nfkc document_id pdf_reader title page st)
    | OtherObj => Some st
    end.
Proof. reflexivity. Qed.


End Outline.

Section Toc.
Import EPUBProcessor.

Variable nfkc : pystr -> pystr.
Variable document_id : option Z.
Variable heap : addr -> TocObj.
Variable repr : addr -> pystr.

Abbreviation visit_toc := (process_toc_item nfkc document_id heap repr).





Lemma process_toc_item_S (fuel : nat) (item : addr) (st : toc_state) :
  visit_toc (S fuel) item st
  = let each (items : list addr) (st : toc_state) :=
      fold_left
        (fun acc subitem =>
           match acc with
           | Some st' => visit_toc fuel subitem st'
           | None => None
           end)
        items (Some st) in
    match heap item with
    | TocSeq _ (first :: second :: _) =>
        if has_href heap first then
          Some (add_link_chapter nfkc document_id heap repr first
                  (str_of_obj heap repr second) st)
        else
          match heap second with
          | TocSeq true children => each children st
          | _ => Some st
          end
    | TocSeq true items => each items st
    | TocSeq false _ => Some st
    | Link _ title => Some (add_link_chapter nfkc document_id heap repr item title st)
    | Text _ => Some st
    | OtherObj => Some st
    end.
Proof. reflexivity. Qed.


End Toc.



End TraversalFacts.





(** ** Sanitising a file name *)

Lemma sanitize_filename_unfold (nfkc : pystr -> pystr) (max_length : Z) (filename : pystr) :
  sanitize_filename nfkc max_length filename
  = if negb (truthy filename) then py "untitled"
    else sanitize_finish max_length (sanitize_strip (nfkc filename)).
Proof. reflexivity. Qed.

(** *** Classes and runs *)

Lemma forallb_impl {A : Type} (p q : A -> bool) (l : list A) :
  (forall x, p x = true -> q x = true) -> forallb p l = true -> forallb q l = true.
Proof.
  intros Hpq. rewrite !forallb_forall. auto.
Qed.

Lemma forallb_firstn {A : Type} (p : A -> bool) (n : nat) (l : list A) :
  forallb p l = true -> forallb p (firstn n l) = true.
Proof.
  intros H. rewrite <- (firstn_skipn n l), forallb_app in H.
  apply andb_true_iff in H. tauto.
Qed.

Lemma forallb_skipn {A : Type} (p : A -> bool) (n : nat) (l : list A) :
  forallb p l = true -> forallb p (skipn n l) = true.
Proof.
  intros H. rewrite <- (firstn_skipn n l), forallb_app in H.
  apply andb_true_iff in H. tauto.
Qed.

Lemma re_sub_class_forallb (cls q : codepoint -> bool) (r : codepoint) (s : pystr) :
  q r = true -> (forall c, cls c = false -> In c s -> q c = true) ->
  forallb q (re_sub_class cls [r] s) = true.
Proof.
  intros Hr. unfold re_sub_class. induction s as [|c s IH]; intros H; [reflexivity|].
  cbn [flat_map]. rewrite forallb_app. apply andb_true_iff. split.
  - destruct (cls c) eqn:E; cbn; rewrite ?Hr, ?(H c E (or_introl eq_refl)); reflexivity.
  - apply IH. intros c' Hc' Hin. apply H; [assumption|right; assumption].
Qed.

Lemma re_sub_class_id (cls : codepoint -> bool) (r : pystr) (s : pystr) :
  forallb (fun c => negb (cls c)) s = true -> re_sub_class cls r s = s.
Proof.
  unfold re_sub_class. induction s as [|c s IH]; cbn; [reflexivity|]. intros H.
  apply andb_true_iff in H as [H1 H2]. apply negb_true_iff in H1. rewrite H1.
  cbn. f_equal. apply IH. assumption.
Qed.

Lemma re_sub_runs_cons (cls : codepoint -> bool) (r c : codepoint) (t : pystr) :
  re_sub_runs cls [r] (c :: t)
  = if cls c then
      if first_in cls t then re_sub_runs cls [r] t else r :: re_sub_runs cls [r] t
    else c :: re_sub_runs cls [r] t.
Proof.
  cbn [re_sub_runs]. destruct (cls c); [|reflexivity].
  destruct t as [|c' t']; [reflexivity|]. cbn [first_in].
  destruct (cls c'); reflexivity.
Qed.

Lemma re_sub_runs_forallb (cls q : codepoint -> bool) (r : codepoint) (s : pystr) :
  q r = true -> (forall c, cls c = false -> In c s -> q c = true) ->
  forallb q (re_sub_runs cls [r] s) = true.
Proof.
  intros Hr. induction s as [|c s IH]; intros H; [reflexivity|].
  assert (IH' : forallb q (re_sub_runs cls [r] s) = true).
  { apply IH. intros c' Hc' Hin. apply H; [assumption|right; assumption]. }
  rewrite re_sub_runs_cons. destruct (cls c) eqn:E.
  - destruct (first_in cls s); [assumption|]. cbn. rewrite Hr. assumption.
  - cbn. rewrite (H c E (or_introl eq_refl)). assumption.
Qed.

Lemma re_sub_runs_first (cls : codepoint -> bool) (r : codepoint) (s : pystr) :
  cls r = true -> first_in cls (re_sub_runs cls [r] s) = first_in cls s.
Proof.
  intros Hr. induction s as [|c s IH]; [reflexivity|].
  rewrite re_sub_runs_cons. cbn [first_in]. destruct (cls c) eqn:E.
  - destruct (first_in cls s) eqn:F; [rewrite IH; reflexivity|]. cbn. assumption.
  - cbn. assumption.
Qed.

(** After the substitution no two characters of the class are
    neighbours. *)
Lemma re_sub_runs_no_adjacent (cls : codepoint -> bool) (r : codepoint) (s : pystr) :
  cls r = true -> no_adjacent cls (re_sub_runs cls [r] s) = true.
Proof.
  intros Hr. induction s as [|c s IH]; [reflexivity|].
  rewrite re_sub_runs_cons.
  pose proof (re_sub_runs_first cls r s Hr) as Hf.
  destruct (cls c) eqn:E.
  - destruct (first_in cls s) eqn:F; [assumption|].
    cbn [no_adjacent]. destruct (re_sub_runs cls [r] s) as [|c' t'] eqn:Et; [reflexivity|].
    cbn [first_in] in Hf. rewrite Hf, andb_false_r. cbn. assumption.
  - cbn [no_adjacent]. destruct (re_sub_runs cls [r] s) as [|c' t'] eqn:Et; [reflexivity|].
    rewrite E. cbn. assumption.
Qed.

Lemma re_sub_runs_id (cls : codepoint -> bool) (r : codepoint) (s : pystr) :
  no_adjacent cls s = true ->
  forallb (fun c => negb (cls c) || cp_eqb c r) s = true ->
  re_sub_runs cls [r] s = s.
Proof.
  induction s as [|c s IH]; [reflexivity|]. intros Hna Hall.
  cbn [forallb] in Hall. apply andb_true_iff in Hall as [Hc Hall].
  assert (Hna' : no_adjacent cls s = true).
  { cbn [no_adjacent] in Hna. destruct s; [reflexivity|].
    apply andb_true_iff in Hna. tauto. }
  rewrite re_sub_runs_cons, (IH Hna' Hall).
  destruct (cls c) eqn:E; [|reflexivity].
  cbn in Hc. apply cp_eqb_eq in Hc. subst c.
  destruct s as [|c' s']; [reflexivity|]. cbn [first_in].
  cbn [no_adjacent] in Hna. rewrite E in Hna. cbn in Hna.
  destruct (cls c'); [discriminate|reflexivity].
Qed.

Lemma last_in_cons (q : codepoint -> bool) (c : codepoint) (t : pystr) :
  last_in q (c :: t) = match t with [] => q c | _ :: _ => last_in q t end.
Proof. destruct t; reflexivity. Qed.

Lemma last_in_app (q : codepoint -> bool) (a b : pystr) :
  b <> [] -> last_in q (a ++ b) = last_in q b.
Proof.
  intros Hb. induction a as [|c a IH]; [reflexivity|].
  cbn [app]. rewrite last_in_cons, IH.
  destruct (a ++ b) eqn:E; [|reflexivity].
  apply app_eq_nil in E as [_ ->]. congruence.
Qed.

Lemma first_in_app (q : codepoint -> bool) (a b : pystr) :
  a <> [] -> first_in q (a ++ b) = first_in q a.
Proof. destruct a; [congruence|reflexivity]. Qed.

Lemma no_adjacent_cons (q : codepoint -> bool) (c : codepoint) (t : pystr) :
  no_adjacent q (c :: t) = negb (q c && first_in q t) && no_adjacent q t.
Proof.
  destruct t as [|c' t']; [|reflexivity]. cbn. rewrite andb_false_r. reflexivity.
Qed.

Lemma no_adjacent_app (q : codepoint -> bool) (a b : pystr) :
  no_adjacent q (a ++ b)
  = no_adjacent q a && no_adjacent q b && negb (last_in q a && first_in q b).
Proof.
  induction a as [|c a IH].
  - cbn. rewrite andb_true_r. reflexivity.
  - cbn [app]. rewrite !no_adjacent_cons, IH, last_in_cons.
    destruct a as [|c' a'].
    + cbn. destruct (q c), (first_in q b), (no_adjacent q b); reflexivity.
    + cbn [app first_in].
      destruct (q c), (q c'), (no_adjacent q (c' :: a')), (no_adjacent q b),
        (last_in q (c' :: a')), (first_in q b); reflexivity.
Qed.

Lemma no_adjacent_infix (q : codepoint -> bool) (a s b : pystr) :
  no_adjacent q (a ++ s ++ b) = true -> no_adjacent q s = true.
Proof.
  rewrite !no_adjacent_app, !andb_true_iff. tauto.
Qed.

Lemma no_adjacent_firstn (q : codepoint -> bool) (n : nat) (s : pystr) :
  no_adjacent q s = true -> no_adjacent q (firstn n s) = true.
Proof.
  intros H. apply (no_adjacent_infix q [] (firstn n s) (skipn n s)).
  cbn [app]. rewrite firstn_skipn. assumption.
Qed.

Lemma no_adjacent_skipn (q : codepoint -> bool) (n : nat) (s : pystr) :
  no_adjacent q s = true -> no_adjacent q (skipn n s) = true.
Proof.
  intros H. apply (no_adjacent_infix q (firstn n s) (skipn n s) []).
  rewrite app_nil_r, firstn_skipn. assumption.
Qed.

Lemma re_sub_class_map (cls : codepoint -> bool) (r : codepoint) (s : pystr) :
  re_sub_class cls [r] s = map (fun c => if cls c then r else c) s.
Proof.
  unfold re_sub_class. induction s as [|c s IH]; [reflexivity|].
  cbn. rewrite IH. destruct (cls c); reflexivity.
Qed.

(** Replacing characters by one outside the class [q] brings no two
    characters of [q] together. *)
Lemma re_sub_class_no_adjacent (cls q : codepoint -> bool) (r : codepoint) (s : pystr) :
  q r = false -> no_adjacent q s = true ->
  no_adjacent q (re_sub_class cls [r] s) = true.
Proof.
  intros Hr. rewrite re_sub_class_map.
  induction s as [|c s IH]; [reflexivity|]. cbn [map].
  rewrite !no_adjacent_cons. intros H. apply andb_true_iff in H as [H1 H2].
  rewrite (IH H2), andb_true_r.
  destruct (cls c); [rewrite Hr; reflexivity|].
  destruct s as [|c' s']; [cbn; rewrite andb_false_r; reflexivity|].
  cbn [map first_in] in *. destruct (cls c'); [rewrite Hr, andb_false_r; reflexivity|].
  assumption.
Qed.

(** Shortening the runs of a class brings no two characters of a
    disjoint class [q] together. *)
Lemma re_sub_runs_no_adjacent_other (cls q : codepoint -> bool) (r : codepoint) (s : pystr) :
  q r = false -> (forall c, q c = true -> cls c = false) ->
  no_adjacent q s = true ->
  no_adjacent q (re_sub_runs cls [r] s) = true
  /\ (first_in q (re_sub_runs cls [r] s) = true -> first_in q s = true).
Proof.
  intros Hr Hdis. induction s as [|c s IH]; [cbn; auto|].
  rewrite no_adjacent_cons. intros H. apply andb_true_iff in H as [H1 H2].
  destruct (IH H2) as [IHna IHf]. rewrite re_sub_runs_cons. cbn [first_in].
  destruct (cls c) eqn:E.
  - assert (Hqc : q c = false).
    { destruct (q c) eqn:Q; [|reflexivity]. rewrite (Hdis c Q) in E. discriminate. }
    rewrite Hqc. destruct (first_in cls s) eqn:F.
    + split; [assumption|]. intros Hf. specialize (IHf Hf).
      destruct s as [|c' s']; [discriminate|]. cbn [first_in] in *.
      rewrite (Hdis c' IHf) in F. discriminate.
    + split; [|cbn; congruence].
      rewrite no_adjacent_cons, Hr. cbn. assumption.
  - split; [|cbn; auto].
    rewrite no_adjacent_cons, IHna, andb_true_r.
    destruct (q c) eqn:Q; [|reflexivity]. cbn.
    destruct (first_in q (re_sub_runs cls [r] s)) eqn:F; [|reflexivity].
    rewrite (IHf eq_refl) in H1. discriminate.
Qed.

(** *** Stripping *)

Lemma lstrip_split (p : codepoint -> bool) (s : pystr) :
  exists a, s = a ++ lstrip p s.
Proof.
  induction s as [|c s [a IH]]; [exists []; reflexivity|].
  cbn [lstrip]. destruct (p c).
  - exists (c :: a). cbn. f_equal. assumption.
  - exists []. reflexivity.
Qed.

Lemma rstrip_split (p : codepoint -> bool) (s : pystr) :
  exists b, s = rstrip p s ++ b.
Proof.
  induction s as [|c s [b IH]]; [exists []; reflexivity|].
  cbn [rstrip]. destruct (rstrip p s) as [|c' r] eqn:E.
  - destruct (p c).
    + exists (c :: s). reflexivity.
    + exists b. cbn. f_equal. assumption.
  - exists b. cbn. f_equal. assumption.
Qed.

Lemma strip_split (p : codepoint -> bool) (s : pystr) :
  exists a b, s = a ++ strip p s ++ b.
Proof.
  unfold strip. destruct (lstrip_split p s) as [a Ha].
  destruct (rstrip_split p (lstrip p s)) as [b Hb].
  exists a, b. rewrite <- Hb. assumption.
Qed.

Lemma lstrip_first (p : codepoint -> bool) (s : pystr) :
  first_in p (lstrip p s) = false.
Proof.
  induction s as [|c s IH]; [reflexivity|]. cbn [lstrip].
  destruct (p c) eqn:E; [assumption|]. cbn. assumption.
Qed.

Lemma rstrip_first (p q : codepoint -> bool) (s : pystr) :
  first_in q s = false -> first_in q (rstrip p s) = false.
Proof.
  destruct s as [|c s]; [reflexivity|]. cbn [rstrip first_in]. intros H.
  destruct (rstrip p s); [destruct (p c)|]; cbn; auto.
Qed.

Lemma rstrip_last (p : codepoint -> bool) (s : pystr) :
  last_in p (rstrip p s) = false.
Proof.
  induction s as [|c s IH]; [reflexivity|]. cbn [rstrip].
  destruct (rstrip p s) as [|c' r] eqn:E.
  - destruct (p c) eqn:Ec; [reflexivity|]. cbn. assumption.
  - rewrite last_in_cons. assumption.
Qed.

Lemma strip_ends (p : codepoint -> bool) (s : pystr) :
  first_in p (strip p s) = false /\ last_in p (strip p s) = false.
Proof.
  unfold strip. split; [apply rstrip_first, lstrip_first | apply rstrip_last].
Qed.

Lemma lstrip_id (p : codepoint -> bool) (s : pystr) :
  first_in p s = false -> lstrip p s = s.
Proof.
  destruct s as [|c s]; [reflexivity|]. cbn. intros ->. reflexivity.
Qed.

Lemma rstrip_id (p : codepoint -> bool) (s : pystr) :
  last_in p s = false -> rstrip p s = s.
Proof.
  induction s as [|c s IH]; [reflexivity|]. rewrite last_in_cons. cbn [rstrip].
  destruct s as [|c' s'].
  - cbn. intros ->. reflexivity.
  - intros H. rewrite (IH H). reflexivity.
Qed.

Lemma strip_id (p : codepoint -> bool) (s : pystr) :
  first_in p s = false -> last_in p s = false -> strip p s = s.
Proof.
  intros Hf Hl. unfold strip. rewrite (lstrip_id p s Hf). apply rstrip_id. assumption.
Qed.

Lemma strip_forallb (p q : codepoint -> bool) (s : pystr) :
  forallb q s = true -> forallb q (strip p s) = true.
Proof.
  destruct (strip_split p s) as (a & b & H). intros Hall.
  rewrite H, !forallb_app, !andb_true_iff in Hall. tauto.
Qed.

Lemma strip_no_adjacent (p q : codepoint -> bool) (s : pystr) :
  no_adjacent q s = true -> no_adjacent q (strip p s) = true.
Proof.
  destruct (strip_split p s) as (a & b & H). intros Hna.
  rewrite H in Hna. apply (no_adjacent_infix q a _ b). assumption.
Qed.

(** *** The characters of the pipeline *)

Lemma ctl_space_is_space (c : codepoint) :
  is_ctl_space c = true -> is_space c = true /\ cp_eqb c SPACE = false.
Proof.
  unfold is_ctl_space. intros H.
  repeat (apply orb_true_iff in H; destruct H as [H|H]);
    apply N.eqb_eq in H; subst c; split; reflexivity.
Qed.

Lemma plain_space_not_ctl (c : codepoint) :
  plain_space c = true -> negb (is_ctl_space c) = true.
Proof.
  unfold plain_space. intros H. destruct (is_ctl_space c) eqn:E; [|reflexivity].
  destruct (ctl_space_is_space c E) as [H1 H2]. rewrite H1, H2 in H. discriminate.
Qed.

Lemma plain_space_runs (c : codepoint) :
  plain_space c = true -> negb (is_space c) || cp_eqb c SPACE = true.
Proof. auto. Qed.

Lemma underscore_only (c : codepoint) :
  negb (cp_eqb UNDERSCORE c) || cp_eqb c UNDERSCORE = true.
Proof.
  unfold cp_eqb. rewrite (N.eqb_sym UNDERSCORE c).
  destruct (N.eqb c UNDERSCORE); reflexivity.
Qed.

Lemma is_space_not_underscore (c : codepoint) :
  is_space c = true -> cp_eqb UNDERSCORE c = false.
Proof.
  intros H. destruct (cp_eqb UNDERSCORE c) eqn:E; [|reflexivity].
  apply cp_eqb_eq in E. subst c. discriminate H.
Qed.

(** *** The first half of the pipeline *)

Lemma tidy_iff (s : pystr) :
  tidy s = true <->
  forallb plain_space s = true /\ no_adjacent is_space s = true
  /\ forallb valid_char s = true /\ no_adjacent (cp_eqb UNDERSCORE) s = true.
Proof. unfold tidy. rewrite !andb_true_iff. tauto. Qed.

Lemma forallb_in {A : Type} (p : A -> bool) (l : list A) (x : A) :
  forallb p l = true -> In x l -> p x = true.
Proof. rewrite forallb_forall. auto. Qed.

(** Whatever the text, the first half of the pipeline leaves a tidy text
    that neither starts nor ends with an underscore or a space. *)
Lemma sanitize_strip_tidy (s : pystr) :
  tidy (sanitize_strip s) = true
  /\ first_in (char_in [UNDERSCORE; SPACE]) (sanitize_strip s) = false
  /\ last_in (char_in [UNDERSCORE; SPACE]) (sanitize_strip s) = false.
Proof.
  unfold sanitize_strip.
  set (s3 := re_sub_class is_ctl_space [SPACE] s).
  set (s4 := re_sub_runs is_space [SPACE] s3).
  set (s5 := strip (char_in [SPACE; DOT]) s4).
  set (s6 := re_sub_class is_invalid_filename_char [UNDERSCORE] s5).
  set (s7 := re_sub_runs (cp_eqb UNDERSCORE) [UNDERSCORE] s6).
  assert (W4 : forallb plain_space s4 = true).
  { apply re_sub_runs_forallb; [reflexivity|]. intros c Hc _.
    unfold plain_space. rewrite Hc. reflexivity. }
  assert (A4 : no_adjacent is_space s4 = true)
    by (apply re_sub_runs_no_adjacent; reflexivity).
  assert (W5 : forallb plain_space s5 = true) by (apply strip_forallb; assumption).
  assert (A5 : no_adjacent is_space s5 = true) by (apply strip_no_adjacent; assumption).
  assert (W6 : forallb plain_space s6 = true).
  { apply re_sub_class_forallb; [reflexivity|]. intros c _ Hin.
    apply (forallb_in _ _ _ W5 Hin). }
  assert (A6 : no_adjacent is_space s6 = true)
    by (apply re_sub_class_no_adjacent; [reflexivity|assumption]).
  assert (I6 : forallb valid_char s6 = true).
  { apply re_sub_class_forallb; [reflexivity|]. intros c Hc _.
    unfold valid_char. rewrite Hc. reflexivity. }
  assert (W7 : forallb plain_space s7 = true).
  { apply re_sub_runs_forallb; [reflexivity|]. intros c _ Hin.
    apply (forallb_in _ _ _ W6 Hin). }
  assert (A7 : no_adjacent is_space s7 = true).
  { apply re_sub_runs_no_adjacent_other; [reflexivity| |assumption].
    apply is_space_not_underscore. }
  assert (I7 : forallb valid_char s7 = true).
  { apply re_sub_runs_forallb; [reflexivity|]. intros c _ Hin.
    apply (forallb_in _ _ _ I6 Hin). }
  assert (U7 : no_adjacent (cp_eqb UNDERSCORE) s7 = true)
    by (apply re_sub_runs_no_adjacent; reflexivity).
  split; [|apply strip_ends].
  apply tidy_iff.
  repeat split; try (apply strip_forallb; assumption);
    apply strip_no_adjacent; assumption.
Qed.

(** On a tidy text that neither starts nor ends with a space or a period,
    the first half of the pipeline only strips the underscores at the
    ends. *)
Lemma sanitize_strip_on_tidy (s : pystr) :
  tidy s = true ->
  first_in (char_in [SPACE; DOT]) s = false ->
  last_in (char_in [SPACE; DOT]) s = false ->
  sanitize_strip s = strip (char_in [UNDERSCORE; SPACE]) s.
Proof.
  intros Ht Hf Hl. apply tidy_iff in Ht as (W & A & I & U).
  unfold sanitize_strip.
  rewrite (re_sub_class_id is_ctl_space [SPACE] s)
    by (apply (forallb_impl plain_space); [apply plain_space_not_ctl|assumption]).
  rewrite (re_sub_runs_id is_space SPACE s A W).
  rewrite (strip_id _ s Hf Hl).
  rewrite (re_sub_class_id is_invalid_filename_char [UNDERSCORE] s I).
  rewrite (re_sub_runs_id (cp_eqb UNDERSCORE) UNDERSCORE s U); [reflexivity|].
  apply forallb_forall. intros c _. apply underscore_only.
Qed.

(** *** Stems, suffixes and reserved names of tidy texts *)

Lemma valid_no_slash (s : pystr) :
  forallb valid_char s = true -> no_char SLASH s = true.
Proof.
  apply forallb_impl. intros c H. destruct (cp_eqb c SLASH) eqn:E; [|reflexivity].
  apply cp_eqb_eq in E. subst c. discriminate H.
Qed.

Lemma path_name_tidy (s : pystr) :
  tidy s = true -> s <> [DOT] -> path_name s = s.
Proof.
  intros Ht Hd. destruct s as [|c s]; [reflexivity|].
  apply tidy_iff in Ht as (_ & _ & I & _).
  unfold path_name. rewrite path_parts_single; try congruence; [reflexivity|].
  apply valid_no_slash. assumption.
Qed.

Lemma path_stem_tidy (s : pystr) :
  tidy s = true -> s <> [DOT] -> path_stem s = name_stem s /\ path_suffix s = name_suffix s.
Proof.
  intros Ht Hd. unfold path_stem, path_suffix. rewrite (path_name_tidy s Ht Hd). auto.
Qed.

Lemma upper_cp_dot (c : codepoint) : cp_eqb (upper_cp c) DOT = cp_eqb c DOT.
Proof.
  unfold upper_cp, cp_eqb, DOT.
  destruct ((97 <=? c)%N && (c <=? 122)%N) eqn:E; [|reflexivity].
  apply andb_true_iff in E as [E1 E2]. apply N.leb_le in E1. apply N.leb_le in E2.
  rewrite (proj2 (N.eqb_neq (c - 32) 46)) by lia.
  rewrite (proj2 (N.eqb_neq c 46)) by lia. reflexivity.
Qed.

Lemma upper_no_dot (s : pystr) : no_char DOT (upper s) = no_char DOT s.
Proof.
  unfold no_char, upper. induction s as [|c s IH]; [reflexivity|].
  cbn. rewrite upper_cp_dot, IH. reflexivity.
Qed.

Lemma reserved_names_shape :
  Forall (fun r => no_char DOT r = true /\ (0 < length r <= 4)%nat) RESERVED_NAMES.
Proof. repeat constructor. Qed.

Lemma in_reserved_shape (u : pystr) :
  in_reserved u = true -> no_char DOT u = true /\ (0 < length u <= 4)%nat.
Proof.
  unfold in_reserved. intros H. apply existsb_exists in H as (r & Hin & He).
  apply pystr_eqb_eq in He. subst u.
  exact (proj1 (List.Forall_forall _ _) reserved_names_shape r Hin).
Qed.

(** A name whose stem is reserved: the stem has no dot and at most four
    characters. *)
Lemma reserved_stem_shape (s : pystr) :
  in_reserved (upper (name_stem s)) = true ->
  no_char DOT (name_stem s) = true /\ (0 < length (name_stem s) <= 4)%nat.
Proof.
  intros H. apply in_reserved_shape in H as [H1 H2].
  rewrite upper_no_dot in H1. unfold upper in H2. rewrite length_map in H2. auto.
Qed.

(** The name made of a non-empty text, a dot and a non-empty extension
    without dots splits there. *)
Lemma stem_suffix_of_app (a e : pystr) :
  a <> [] -> e <> [] -> no_char DOT e = true ->
  name_stem (a ++ DOT :: e) = a /\ name_suffix (a ++ DOT :: e) = DOT :: e.
Proof.
  intros Ha He Hdot. unfold name_stem, name_suffix, suffix_index.
  rewrite rfind_app. cbn [rfind]. rewrite (rfind_no_char _ _ Hdot), cp_eqb_refl.
  rewrite Nat.add_0_r.
  assert (Hc : ((0 <? length a)%nat && (S (length a) <? length (a ++ DOT :: e))%nat) = true).
  { apply andb_true_iff. split; apply Nat.ltb_lt.
    - destruct a; [congruence|cbn; lia].
    - rewrite length_app. cbn. destruct e; [congruence|cbn; lia]. }
  rewrite Hc. split; [apply take_app_length | apply drop_app_length].
Qed.

(** Putting a character that is not a dot before a name with a reserved
    stem puts it before the stem and keeps the suffix. *)
Lemma reserved_stem_cons (c : codepoint) (s : pystr) :
  in_reserved (upper (name_stem s)) = true -> cp_eqb c DOT = false ->
  name_stem (c :: s) = c :: name_stem s /\ name_suffix (c :: s) = name_suffix s.
Proof.
  intros Hr Hc. apply reserved_stem_shape in Hr as [Hdot Hlen].
  destruct (name_suffix_shape s) as [Hnil|(e & He & Hne & Hed & _)].
  - pose proof (name_stem_suffix s) as Hs. rewrite Hnil, app_nil_r in Hs.
    rewrite Hs in Hdot. unfold name_stem, name_suffix, suffix_index. cbn [rfind].
    rewrite (rfind_no_char _ _ Hdot), Hc.
    unfold name_suffix, suffix_index in Hnil. rewrite (rfind_no_char _ _ Hdot) in Hnil.
    unfold name_stem, suffix_index in Hs. rewrite (rfind_no_char _ _ Hdot) in Hs.
    auto.
  - pose proof (name_stem_suffix s) as Hs. rewrite He in Hs.
    rewrite <- Hs at 1 3.
    change (c :: name_stem s ++ DOT :: e) with ((c :: name_stem s) ++ DOT :: e).
    destruct (stem_suffix_of_app (c :: name_stem s) e) as [H1 H2];
      try assumption; [discriminate|].
    rewrite H1, H2. auto.
Qed.

(** *** Tidy texts *)

Lemma tidy_app (a b : pystr) :
  tidy a = true -> tidy b = true ->
  last_in is_space a && first_in is_space b = false ->
  last_in (cp_eqb UNDERSCORE) a && first_in (cp_eqb UNDERSCORE) b = false ->
  tidy (a ++ b) = true.
Proof.
  intros Ha Hb Hs Hu. apply tidy_iff in Ha as (Wa & Aa & Ia & Ua).
  apply tidy_iff in Hb as (Wb & Ab & Ib & Ub). apply tidy_iff.
  rewrite !forallb_app, !no_adjacent_app, Wa, Wb, Aa, Ab, Ia, Ib, Ua, Ub, Hs, Hu.
  repeat split.
Qed.

Lemma tidy_firstn (n : nat) (s : pystr) : tidy s = true -> tidy (firstn n s) = true.
Proof.
  intros H. apply tidy_iff in H as (W & A & I & U). apply tidy_iff.
  repeat split; auto using forallb_firstn, no_adjacent_firstn.
Qed.

Lemma tidy_skipn (n : nat) (s : pystr) : tidy s = true -> tidy (skipn n s) = true.
Proof.
  intros H. apply tidy_iff in H as (W & A & I & U). apply tidy_iff.
  repeat split; auto using forallb_skipn, no_adjacent_skipn.
Qed.

Lemma tidy_name_stem (s : pystr) : tidy s = true -> tidy (name_stem s) = true.
Proof.
  intros H. unfold name_stem. destruct (suffix_index s); [apply tidy_firstn|]; assumption.
Qed.

Lemma tidy_name_suffix (s : pystr) : tidy s = true -> tidy (name_suffix s) = true.
Proof.
  intros H. unfold name_suffix. destruct (suffix_index s); [apply tidy_skipn; assumption|].
  reflexivity.
Qed.

(** *** The second half of the pipeline on its own results *)

Lemma cp_eqb_sym (a b : codepoint) : cp_eqb a b = cp_eqb b a.
Proof. apply N.eqb_sym. Qed.

Lemma char_sp_dot (c : codepoint) :
  char_in [UNDERSCORE; SPACE] c = false -> cp_eqb DOT c = false ->
  char_in [SPACE; DOT] c = false.
Proof.
  unfold char_in. cbn [existsb]. rewrite (cp_eqb_sym DOT c). intros H1 H2.
  apply orb_false_iff in H1 as [_ H1]. apply orb_false_iff in H1 as [H1 _].
  rewrite H1, H2. reflexivity.
Qed.

Lemma char_underscore (c : codepoint) :
  char_in [UNDERSCORE; SPACE] c = false -> cp_eqb UNDERSCORE c = false.
Proof.
  unfold char_in. cbn [existsb]. rewrite (cp_eqb_sym UNDERSCORE c). intros H1.
  apply orb_false_iff in H1 as [H1 _]. assumption.
Qed.

Lemma first_in_sp_dot (s : pystr) :
  first_in (char_in [UNDERSCORE; SPACE]) s = false -> first_in (cp_eqb DOT) s = false ->
  first_in (char_in [SPACE; DOT]) s = false.
Proof.
  destruct s as [|c s]; [reflexivity|]. cbn [first_in]. apply char_sp_dot.
Qed.

Lemma last_in_sp_dot (s : pystr) :
  last_in (char_in [UNDERSCORE; SPACE]) s = false -> last_in (cp_eqb DOT) s = false ->
  last_in (char_in [SPACE; DOT]) s = false.
Proof.
  destruct s as [|c s]; [reflexivity|]. unfold last_in. apply char_sp_dot.
Qed.

Lemma first_in_underscore (s : pystr) :
  first_in (char_in [UNDERSCORE; SPACE]) s = false ->
  first_in (cp_eqb UNDERSCORE) s = false.
Proof.
  destruct s as [|c s]; [reflexivity|]. cbn [first_in]. apply char_underscore.
Qed.

(** A tidy text with none of underscore, space and period at its ends is
    a fixed point of the first half. *)
Lemma sanitize_strip_fixed (s : pystr) :
  tidy s = true ->
  first_in (char_in [UNDERSCORE; SPACE]) s = false ->
  last_in (char_in [UNDERSCORE; SPACE]) s = false ->
  first_in (cp_eqb DOT) s = false -> last_in (cp_eqb DOT) s = false ->
  sanitize_strip s = s.
Proof.
  intros Ht Hf Hl Hfd Hld.
  rewrite sanitize_strip_on_tidy; auto using first_in_sp_dot, last_in_sp_dot.
  apply strip_id; assumption.
Qed.

Lemma not_single_underscore (s : pystr) :
  first_in (char_in [UNDERSCORE; SPACE]) s = false -> pystr_eqb s [UNDERSCORE] = false.
Proof.
  intros H. apply pystr_eqb_neq. intros ->. discriminate H.
Qed.

Lemma not_single_dot (s : pystr) :
  first_in (cp_eqb DOT) s = false -> s <> [DOT].
Proof. intros H ->. discriminate H. Qed.

(** Case 1: the text is not reserved and fits. *)
Lemma finish_fixed_plain (s : pystr) :
  tidy s = true ->
  first_in (char_in [UNDERSCORE; SPACE]) s = false ->
  last_in (char_in [UNDERSCORE; SPACE]) s = false ->
  first_in (cp_eqb DOT) s = false -> last_in (cp_eqb DOT) s = false ->
  s <> [] ->
  in_reserved (upper (path_stem s)) = false ->
  (len s >? MAX_LENGTH) = false ->
  sanitize_finish MAX_LENGTH (sanitize_strip s) = s.
Proof.
  intros Ht Hf Hl Hfd Hld Hne Hr Hlen.
  rewrite (sanitize_strip_fixed s Ht Hf Hl Hfd Hld).
  unfold sanitize_finish. rewrite Hr, Hlen, (not_single_underscore s Hf).
  destruct s; [congruence|reflexivity].
Qed.

(** Case 2: the text is reserved, was given its underscore, and fits. *)
Lemma finish_fixed_reserved (s : pystr) :
  tidy s = true ->
  first_in (char_in [UNDERSCORE; SPACE]) s = false ->
  last_in (char_in [UNDERSCORE; SPACE]) s = false ->
  last_in (cp_eqb DOT) s = false ->
  s <> [] ->
  in_reserved (upper (path_stem s)) = true ->
  (len (UNDERSCORE :: s) >? MAX_LENGTH) = false ->
  tidy (UNDERSCORE :: s) = true
  /\ sanitize_finish MAX_LENGTH (sanitize_strip (UNDERSCORE :: s)) = UNDERSCORE :: s.
Proof.
  intros Ht Hf Hl Hld Hne Hr Hlen.
  assert (Ht' : tidy (UNDERSCORE :: s) = true).
  { change (UNDERSCORE :: s) with ([UNDERSCORE] ++ s).
    apply tidy_app; [reflexivity|assumption|reflexivity|].
    rewrite (first_in_underscore s Hf). apply andb_false_r. }
  split; [assumption|].
  assert (Hl' : forall q, last_in q (UNDERSCORE :: s) = last_in q s).
  { intros q. rewrite last_in_cons. destruct s; [congruence|reflexivity]. }
  rewrite sanitize_strip_on_tidy; try assumption; try reflexivity.
  - unfold strip. cbn [lstrip char_in existsb]. rewrite cp_eqb_refl. cbn [orb].
    fold (strip (char_in [UNDERSCORE; SPACE]) s). rewrite (strip_id _ s Hf Hl).
    unfold sanitize_finish. rewrite Hr, Hlen. cbn [truthy negb orb].
    destruct s; [congruence|reflexivity].
  - rewrite Hl'. apply last_in_sp_dot; assumption.
Qed.

Lemma last_in_no_char (x : codepoint) (s : pystr) :
  no_char x s = true -> last_in (cp_eqb x) s = false.
Proof.
  intros H. destruct s as [|c s]; [reflexivity|]. unfold last_in.
  assert (Hin : In (List.last (c :: s) SPACE) (c :: s)).
  { destruct (exists_last (l := c :: s)) as (l' & a & ->); [discriminate|].
    rewrite last_last. apply in_or_app. right. left. reflexivity. }
  pose proof (forallb_in _ _ _ H Hin) as Hc. cbn in Hc.
  apply negb_true_iff in Hc. rewrite cp_eqb_sym. assumption.
Qed.

Lemma final_fallback_id (s : pystr) :
  s <> [] -> first_in (char_in [UNDERSCORE; SPACE]) s = false ->
  (if negb (truthy s) || pystr_eqb s [UNDERSCORE] then py "untitled" else s) = s.
Proof.
  intros Hne Hf. rewrite (not_single_underscore s Hf).
  destruct s; [congruence|reflexivity].
Qed.

(** Case 3: the name was cut to [truncated] and its extension. *)
Lemma finish_fixed_truncated (ext e : pystr) :
  tidy ext = true -> ext = DOT :: e -> e <> [] -> no_char DOT e = true ->
  last_in (char_in [UNDERSCORE; SPACE]) ext = false ->
  (MAX_LENGTH - len ext - 10 >? 0) = false ->
  sanitize_finish MAX_LENGTH (sanitize_strip (py "truncated" ++ ext))
  = py "truncated" ++ ext.
Proof.
  intros Ht He Hne Hdot Hl Hm.
  assert (Hext : ext <> []) by (rewrite He; discriminate).
  set (y := py "truncated" ++ ext).
  assert (Hty : tidy y = true).
  { apply tidy_app; [reflexivity|assumption|reflexivity|reflexivity]. }
  assert (Hfy : first_in (char_in [UNDERSCORE; SPACE]) y = false) by reflexivity.
  assert (Hfd : first_in (cp_eqb DOT) y = false) by reflexivity.
  assert (Hly : last_in (char_in [UNDERSCORE; SPACE]) y = false).
  { unfold y. rewrite last_in_app; assumption. }
  assert (Hld : last_in (cp_eqb DOT) y = false).
  { unfold y. rewrite last_in_app by assumption. rewrite He, last_in_cons.
    destruct e; [congruence|]. apply last_in_no_char. assumption. }
  rewrite (sanitize_strip_fixed y Hty Hfy Hly Hfd Hld).
  destruct (path_stem_tidy y Hty (not_single_dot y Hfd)) as [Hs Hx].
  destruct (stem_suffix_of_app (py "truncated") e) as [H1 H2];
    try assumption; [discriminate|].
  assert (Hsy : path_stem y = py "truncated") by (rewrite Hs; unfold y; rewrite He; exact H1).
  assert (Hxy : path_suffix y = ext) by (rewrite Hx; unfold y; rewrite He; exact H2).
  unfold sanitize_finish. rewrite Hsy.
  change (in_reserved (upper (py "truncated"))) with false. cbv iota.
  rewrite Hsy, Hxy, Hm.
  destruct (len y >? MAX_LENGTH); apply final_fallback_id; try assumption;
    unfold y; discriminate.
Qed.

Lemma first_in_firstn (q : codepoint -> bool) (k : nat) (s : pystr) :
  (0 < k)%nat -> first_in q (firstn k s) = first_in q s.
Proof.
  intros Hk. destruct k; [lia|]. destruct s; reflexivity.
Qed.

(** Case 4: the stem was cut and the ellipsis put before the extension. *)
Lemma finish_fixed_ellipsis (s : pystr) :
  tidy s = true ->
  first_in (char_in [UNDERSCORE; SPACE]) s = false ->
  last_in (char_in [UNDERSCORE; SPACE]) s = false ->
  (len s >? MAX_LENGTH) = true ->
  (MAX_LENGTH - len (name_suffix s) - 10 >? 0) = true ->
  let y := firstn (Z.to_nat (MAX_LENGTH - len (name_suffix s) - 10)) (name_stem s)
             ++ py "..." ++ name_suffix s in
  first_in (cp_eqb DOT) y = false -> last_in (cp_eqb DOT) y = false ->
  sanitize_finish MAX_LENGTH (sanitize_strip y) = y.
Proof.
  intros Ht Hf Hl Hlen Hm y Hfd Hld.
  pose proof (name_stem_suffix s) as Hs.
  pose proof (name_suffix_shape s) as Hshape.
  pose proof (tidy_name_stem s Ht) as Htn. pose proof (tidy_name_suffix s Ht) as Hte.
  remember (name_stem s) as name eqn:Hname. remember (name_suffix s) as ext eqn:Hextdef.
  clear Hname Hextdef.
  set (k := Z.to_nat (MAX_LENGTH - len ext - 10)) in *.
  apply Z.gtb_lt in Hlen. apply Z.gtb_lt in Hm. unfold MAX_LENGTH, len in Hlen, Hm.
  assert (Hext : ext <> []).
  { intros Hnil. unfold y in Hld. rewrite Hnil in Hld.
    rewrite last_in_app in Hld; discriminate. }
  destruct Hshape as [Hnil|(e & He & Hne & Hed & Hstem)]; [contradiction|].
  set (a := firstn k name) in *.
  assert (Hka : length a = k).
  { unfold a. rewrite length_firstn. rewrite <- Hs, length_app in Hlen.
    unfold k, MAX_LENGTH, len. lia. }
  assert (Ha : a <> []).
  { intros Hnil. rewrite Hnil in Hka. cbn in Hka. unfold k, MAX_LENGTH, len in Hka. lia. }
  assert (Hfirst : forall q, first_in q y = first_in q s).
  { intros q. unfold y. rewrite first_in_app by assumption. rewrite <- Hs.
    rewrite first_in_app by assumption. unfold a.
    apply first_in_firstn. unfold k, MAX_LENGTH, len. lia. }
  assert (Hlast : forall q, last_in q y = last_in q s).
  { intros q. unfold y. rewrite app_assoc, last_in_app by assumption.
    rewrite <- Hs, last_in_app by assumption. reflexivity. }
  assert (Hty : tidy y = true).
  { unfold y. apply tidy_app.
    - apply tidy_firstn. assumption.
    - apply tidy_app; [reflexivity|assumption|reflexivity|reflexivity].
    - apply andb_false_intro2. reflexivity.
    - apply andb_false_intro2. reflexivity. }
  rewrite (sanitize_strip_fixed y Hty); rewrite ?Hfirst, ?Hlast; try assumption;
    try (rewrite <- Hfirst; assumption); try (rewrite <- Hlast; assumption).
  destruct (path_stem_tidy y Hty (not_single_dot y Hfd)) as [Hps _].
  assert (Hy : y = (a ++ py "...") ++ DOT :: e).
  { unfold y. rewrite He, <- app_assoc. reflexivity. }
  destruct (stem_suffix_of_app (a ++ py "...") e) as [H1 _]; try assumption.
  { intros Hnil. apply app_eq_nil in Hnil as [_ Hnil]. discriminate. }
  assert (Hr : in_reserved (upper (path_stem y)) = false).
  { rewrite Hps, Hy, H1. destruct (in_reserved _) eqn:R; [|reflexivity].
    apply in_reserved_shape in R as [R _].
    rewrite upper_no_dot, no_char_app, andb_true_iff in R. destruct R as [_ R].
    discriminate R. }
  assert (Hly : (len y >? MAX_LENGTH) = false).
  { rewrite Z.gtb_ltb. apply Z.ltb_ge. unfold y, len, MAX_LENGTH.
    rewrite !length_app. fold a. rewrite Hka. cbn [length py map list_ascii_of_string].
    unfold k, MAX_LENGTH, len. lia. }
  unfold sanitize_finish. rewrite Hr, Hly.
  apply final_fallback_id.
  - intros Hnil. unfold y in Hnil. apply app_eq_nil in Hnil as [Hnil _]. contradiction.
  - rewrite Hfirst. assumption.
Qed.

Lemma tidy_cons_underscore (s : pystr) :
  tidy s = true -> first_in (char_in [UNDERSCORE; SPACE]) s = false ->
  tidy (UNDERSCORE :: s) = true.
Proof.
  intros Ht Hf. change (UNDERSCORE :: s) with ([UNDERSCORE] ++ s).
  apply tidy_app; [reflexivity|assumption|reflexivity|].
  rewrite (first_in_underscore s Hf). apply andb_false_r.
Qed.

Lemma final_fallback_long (s : pystr) :
  (2 <= length s)%nat ->
  (if negb (truthy s) || pystr_eqb s [UNDERSCORE] then py "untitled" else s) = s.
Proof.
  destruct s as [|a [|b s']]; cbn [length]; try lia. intros _.
  cbn [truthy negb orb pystr_eqb]. rewrite andb_false_r. reflexivity.
Qed.

Lemma sanitize_finish_unfold (max_length : Z) (s : pystr) :
  sanitize_finish max_length s
  = let f := if in_reserved (upper (path_stem s)) then UNDERSCORE :: s else s in
    let g := if len f >? max_length then
               if max_length - len (path_suffix f) - 10 >? 0 then
                 firstn (Z.to_nat (max_length - len (path_suffix f) - 10)) (path_stem f)
                   ++ py "..." ++ path_suffix f
               else py "truncated" ++ path_suffix f
             else f in
    if negb (truthy g) || pystr_eqb g [UNDERSCORE] then py "untitled" else g.
Proof. reflexivity. Qed.

(** The second half of the pipeline, run on a text as the first half
    leaves it, gives a text that the whole pipeline maps to itself,
    unless that text starts or ends with a period. *)
Lemma sanitize_finish_fixed (s : pystr) :
  tidy s = true ->
  first_in (char_in [UNDERSCORE; SPACE]) s = false ->
  last_in (char_in [UNDERSCORE; SPACE]) s = false ->
  first_in (cp_eqb DOT) (sanitize_finish MAX_LENGTH s) = false ->
  last_in (cp_eqb DOT) (sanitize_finish MAX_LENGTH s) = false ->
  sanitize_finish MAX_LENGTH s <> []
  /\ sanitize_finish MAX_LENGTH (sanitize_strip (sanitize_finish MAX_LENGTH s))
     = sanitize_finish MAX_LENGTH s.
Proof.
  intros Ht Hf Hl Hfd Hld.
  destruct (pystr_eqb s []) eqn:Enil.
  { apply pystr_eqb_eq in Enil. subst s. vm_compute. split; [discriminate|reflexivity]. }
  apply pystr_eqb_neq in Enil.
  destruct (pystr_eqb s [DOT]) eqn:Ed.
  { apply pystr_eqb_eq in Ed. subst s. vm_compute in Hfd. discriminate Hfd. }
  apply pystr_eqb_neq in Ed.
  destruct (path_stem_tidy s Ht Ed) as [Hps Hpx].
  pose proof (name_stem_suffix s) as Hs.
  pose proof (name_suffix_shape s) as Hshape.
  pose proof (tidy_name_suffix s Ht) as Hte.
  assert (Hlast_ext : name_suffix s <> [] ->
            last_in (char_in [UNDERSCORE; SPACE]) (name_suffix s) = false).
  { intros Hne. rewrite <- Hs, last_in_app in Hl; assumption. }
  rewrite sanitize_finish_unfold in Hfd, Hld |- *. rewrite sanitize_finish_unfold.
  cbv zeta in *.
  destruct (in_reserved (upper (path_stem s))) eqn:R.
  - (* reserved *)
    pose proof (tidy_cons_underscore s Ht Hf) as Ht'.
    rewrite Hps in R.
    destruct (reserved_stem_cons UNDERSCORE s R eq_refl) as [Hst' Hsx'].
    destruct (reserved_stem_shape s R) as [_ Hstem_len].
    destruct (path_stem_tidy (UNDERSCORE :: s) Ht') as [Hps' Hpx']; [discriminate|].
    rewrite Hpx', Hsx' in *. rewrite Hps', Hst' in *.
    destruct (len (UNDERSCORE :: s) >? MAX_LENGTH) eqn:L.
    + assert (Hm : (MAX_LENGTH - len (name_suffix s) - 10 >? 0) = false).
      { rewrite Z.gtb_ltb. apply Z.ltb_ge. apply Z.gtb_lt in L.
        unfold MAX_LENGTH, len in *. rewrite <- Hs in L at 1.
        cbn [length] in L. rewrite length_app in L. lia. }
      rewrite Hm in *.
      destruct Hshape as [Hnil|(e & He & Hne & Hed & _)].
      { rewrite Hnil in Hm. discriminate Hm. }
      assert (Hext : name_suffix s <> []) by (rewrite He; discriminate).
      rewrite final_fallback_long by (rewrite length_app; cbn; lia).
      split; [discriminate|].
      apply (finish_fixed_truncated (name_suffix s) e); auto.
    + assert (Hfin : (if negb (truthy (UNDERSCORE :: s))
                         || pystr_eqb (UNDERSCORE :: s) [UNDERSCORE]
                      then py "untitled" else UNDERSCORE :: s) = UNDERSCORE :: s).
      { apply final_fallback_long. destruct s; [congruence|cbn; lia]. }
      rewrite Hfin in *. split; [discriminate|].
      rewrite <- Hps in R.
      apply finish_fixed_reserved; auto.
      rewrite last_in_cons in Hld. destruct s; [congruence|assumption].
  - (* not reserved *)
    rewrite Hps, Hpx in *.
    destruct (len s >? MAX_LENGTH) eqn:L.
    + destruct (MAX_LENGTH - len (name_suffix s) - 10 >? 0) eqn:M.
      * assert (Hk : (0 < Z.to_nat (MAX_LENGTH - len (name_suffix s) - 10))%nat).
        { apply Z.gtb_lt in M. lia. }
        assert (Hname : name_stem s <> []).
        { intros Hnil. apply Z.gtb_lt in L. apply Z.gtb_lt in M.
          rewrite <- Hs, Hnil in L. unfold MAX_LENGTH, len in *. cbn [app] in L. lia. }
        assert (Hlong : (2 <= length (firstn (Z.to_nat (MAX_LENGTH - len (name_suffix s) - 10))
                                       (name_stem s) ++ py "..." ++ name_suffix s))%nat).
        { rewrite !length_app. cbn. lia. }
        rewrite (final_fallback_long _ Hlong) in *.
        split.
        { intros Hnil. rewrite Hnil in Hlong. cbn in Hlong. lia. }
        apply finish_fixed_ellipsis; assumption.
      * assert (Hext : name_suffix s <> []).
        { intros Hnil. rewrite Hnil in M. discriminate M. }
        destruct Hshape as [Hnil|(e & He & Hne & Hed & _)]; [contradiction|].
        rewrite final_fallback_long by (rewrite length_app; cbn; lia).
        split; [discriminate|].
        apply (finish_fixed_truncated (name_suffix s) e); auto.
    + rewrite (final_fallback_id s Enil Hf) in *.
      split; [assumption|].
      rewrite <- Hps in R. apply finish_fixed_plain; assumption.
Qed.

(** C4, counterexample. Whatever the normaliser does outside ASCII,
    sanitising [a._] gives [a.] and sanitising that gives [a]: the second
    [strip] uncovers a period that the first [strip] of the next pass
    removes. And sanitising a name of 300 letters gives 245 letters and
    the ellipsis, whose periods the next pass strips. *)
Lemma sanitize_filename_not_idempotent :
  for_every_normaliser (fun nfkc =>
    (sanitize_filename nfkc MAX_LENGTH (py "a._") = py "a."
     /\ sanitize_filename nfkc MAX_LENGTH (sanitize_filename nfkc MAX_LENGTH (py "a._"))
        = py "a"
     /\ sanitize_filename nfkc MAX_LENGTH (sanitize_filename nfkc MAX_LENGTH (py "a._"))
        <> sanitize_filename nfkc MAX_LENGTH (py "a._"))
    /\ (sanitize_filename nfkc MAX_LENGTH long_name = repeat 97%N 245 ++ py "..."
        /\ sanitize_filename nfkc MAX_LENGTH (sanitize_filename nfkc MAX_LENGTH long_name)
           = repeat 97%N 245
        /\ sanitize_filename nfkc MAX_LENGTH (sanitize_filename nfkc MAX_LENGTH long_name)
           <> sanitize_filename nfkc MAX_LENGTH long_name)).
Proof.
  intros nfkc Hfix.
  assert (Hrun : forall x y : pystr,
             forallb is_ascii x = true -> truthy x = true ->
             sanitize_finish MAX_LENGTH (sanitize_strip x) = y ->
             sanitize_filename nfkc MAX_LENGTH x = y).
  { intros x y Hx Ht Hy. rewrite sanitize_filename_unfold, Ht, (Hfix x Hx). exact Hy. }
  assert (H1 : sanitize_filename nfkc MAX_LENGTH (py "a._") = py "a.")
    by (apply Hrun; vm_compute; reflexivity).
  assert (H2 : sanitize_filename nfkc MAX_LENGTH (py "a.") = py "a")
    by (apply Hrun; vm_compute; reflexivity).
  assert (H3 : sanitize_filename nfkc MAX_LENGTH long_name = repeat 97%N 245 ++ py "...")
    by (apply Hrun; vm_compute; reflexivity).
  assert (H4 : sanitize_filename nfkc MAX_LENGTH (repeat 97%N 245 ++ py "...")
               = repeat 97%N 245)
    by (apply Hrun; vm_compute; reflexivity).
  rewrite H1, H2, H3, H4. repeat split; discriminate.
Qed.

(** C4, as the code has it. With the default replacement and maximum
    length, sanitising is idempotent on every input whose sanitised form
    neither starts nor ends with a period (and is left unchanged by the
    normaliser): the empty input, the inputs of invalid characters only
    and the inputs that are cut with their extension kept are among them. *)
Theorem sanitize_filename_idempotent_without_end_periods (nfkc : pystr -> pystr)
    (x : pystr) :
  nfkc (sanitize_filename nfkc MAX_LENGTH x) = sanitize_filename nfkc MAX_LENGTH x ->
  first_in (cp_eqb DOT) (sanitize_filename nfkc MAX_LENGTH x) = false ->
  last_in (cp_eqb DOT) (sanitize_filename nfkc MAX_LENGTH x) = false ->
  sanitize_filename nfkc MAX_LENGTH (sanitize_filename nfkc MAX_LENGTH x)
  = sanitize_filename nfkc MAX_LENGTH x.
Proof.
  intros Hn Hfd Hld.
  rewrite (sanitize_filename_unfold nfkc MAX_LENGTH x) in *.
  destruct (truthy x); cbn [negb] in *.
  - destruct (sanitize_strip_tidy (nfkc x)) as (Ht & Hf & Hl).
    destruct (sanitize_finish_fixed _ Ht Hf Hl Hfd Hld) as [Hne Hfix].
    rewrite sanitize_filename_unfold, Hn.
    destruct (sanitize_finish MAX_LENGTH (sanitize_strip (nfkc x))); [congruence|].
    exact Hfix.
  - rewrite sanitize_filename_unfold, Hn. vm_compute. reflexivity.
Qed.

Lemma sanitize_filename_idempotent_without_end_periods_witness :
  sanitize_filename nfkc_ascii MAX_LENGTH
    (sanitize_filename nfkc_ascii MAX_LENGTH (py "Chapter 1: Introduction"))
  = sanitize_filename nfkc_ascii MAX_LENGTH (py "Chapter 1: Introduction").
Proof.
  apply (sanitize_filename_idempotent_without_end_periods nfkc_ascii
           (py "Chapter 1: Introduction"));
    vm_compute; reflexivity.
Defined.

(** * Further properties of the code *)

(** ** The data model *)

Lemma range_length (a b : Z) :
  Z.of_nat (length (PDFProcessor.range a b)) = Z.max 0 (b - a).
Proof.
  unfold PDFProcessor.range. rewrite length_map, length_seq. lia.
Qed.

Lemma range_In (a b p : Z) : In p (PDFProcessor.range a b) <-> a <= p < b.
Proof.
  unfold PDFProcessor.range. rewrite in_map_iff. split.
  - intros (i & <- & Hi). apply in_seq in Hi. lia.
  - intros H. exists (Z.to_nat (p - a)). split; [lia|]. apply in_seq. lia.
Qed.

(** X1. A chapter that passes the pre-check of the PDF extractor has at
    least one page, and [page_count] counts exactly the page indices the
    extractor visits for it, [range(start_page - 1, end_page)]: the
    0-based indices of the pages [start_page] to [end_page]. *)
Theorem valid_pdf_chapter_page_count (c : Chapter.t) :
  Chapter.is_valid_pdf_chapter c = true ->
  exists s e,
    Chapter.start_page c = Some s /\ Chapter.end_page c = Some e
    /\ 1 <= Chapter.page_count c
    /\ Z.of_nat (length (PDFProcessor.range (s - 1) e)) = Chapter.page_count c
    /\ forall p, In p (PDFProcessor.range (s - 1) e) <-> s <= p + 1 <= e.
Proof.
  unfold Chapter.is_valid_pdf_chapter, Chapter.page_count.
  destruct (Chapter.start_page c) as [s|]; [|discriminate].
  destruct (Chapter.end_page c) as [e|]; [|discriminate].
  intros H. apply andb_true_iff in H as [Hle Hpos].
  apply Z.leb_le in Hle. rewrite Z.gtb_ltb in Hpos. apply Z.ltb_lt in Hpos.
  exists s, e. repeat split; try lia.
  - rewrite range_length. lia.
  - apply range_In in H. lia.
  - apply range_In in H. lia.
  - intros H. apply range_In. lia.
Qed.

(** The second sample chapter, pages 2 to 3, has two pages. *)
Lemma valid_pdf_chapter_page_count_witness :
  exists s e,
    Chapter.start_page (Chapter.make None 2 (py "Two") (Some 2) (Some 3) [] 0.9) = Some s
    /\ Chapter.end_page (Chapter.make None 2 (py "Two") (Some 2) (Some 3) [] 0.9) = Some e
    /\ 1 <= 2
    /\ Z.of_nat (length (PDFProcessor.range (s - 1) e)) = 2
    /\ forall p, In p (PDFProcessor.range (s - 1) e) <-> s <= p + 1 <= e.
Proof.
  exact (valid_pdf_chapter_page_count
           (Chapter.make None 2 (py "Two") (Some 2) (Some 3) [] 0.9) eq_refl).
Defined.

Lemma find_imap_numbers (j : nat) (chapters : list Chapter.t) (k : Z) :
  List.find (fun ch => Chapter.chapter_number ch =? k)
    (imap (fun idx chapter =>
             Chapter.set_chapter_number (Z.of_nat (j + idx) + 1) chapter) chapters)
  = if Z.of_nat j + 1 <=? k
    then imap (fun idx chapter =>
                 Chapter.set_chapter_number (Z.of_nat (j + idx) + 1) chapter) chapters
         !! Z.to_nat (k - 1 - Z.of_nat j)
    else None.
Proof.
  revert j. induction chapters as [|c cs IH]; intros j.
  - cbn. destruct (_ <=? _); reflexivity.
  - cbn [imap List.find Chapter.chapter_number Chapter.set_chapter_number].
    rewrite Nat.add_0_r.
    rewrite (imap_ext _ (fun idx chapter =>
               Chapter.set_chapter_number (Z.of_nat (S j + idx) + 1) chapter))
      by (intros i x _; cbn; do 2 f_equal; lia).
    destruct (Z.of_nat j + 1 =? k) eqn:E.
    + apply Z.eqb_eq in E. subst k.
      rewrite (proj2 (Z.leb_le _ _)) by lia.
      replace (Z.to_nat (Z.of_nat j + 1 - 1 - Z.of_nat j)) with 0%nat by lia.
      reflexivity.
    + apply Z.eqb_neq in E. rewrite IH.
      destruct (Z.of_nat j + 1 <=? k) eqn:L.
      * apply Z.leb_le in L. rewrite (proj2 (Z.leb_le _ _)) by lia.
        replace (Z.to_nat (k - 1 - Z.of_nat j)) with (S (Z.to_nat (k - 1 - Z.of_nat (S j))))
          by lia.
        reflexivity.
      * apply Z.leb_gt in L. rewrite (proj2 (Z.leb_gt _ _)) by lia. reflexivity.
Qed.

(** X2. Once the chapters of a document are renumbered, looking a chapter
    up by its number is looking it up by its position: for a number [k]
    from 1 to the number of chapters [get_chapter_by_number] returns the
    chapter at index [k - 1], and it returns [None] for every other
    number. For the renumbering of the PDF and of the EPUB processor. *)
Theorem get_chapter_by_number_after_normalize (d : Document.t)
    (chapters : list Chapter.t) (k : Z) :
  Document.chapters d = PDFProcessor._normalize_chapter_numbers chapters
  \/ Document.chapters d = EPUBProcessor._normalize_chapter_numbers chapters ->
  Document.get_chapter_by_number d k
  = if 1 <=? k then Document.chapters d !! Z.to_nat (k - 1) else None.
Proof.
  unfold Document.get_chapter_by_number,
    PDFProcessor._normalize_chapter_numbers, EPUBProcessor._normalize_chapter_numbers.
  pose proof (find_imap_numbers 0 chapters k) as H. cbn [Nat.add] in H.
  change (Z.of_nat 0) with 0 in H.
  replace (k - 1 - 0) with (k - 1) in H by lia. change (0 + 1) with 1 in H.
  intros [-> | ->]; exact H.
Qed.

(** The sample PDF with its chapters renumbered: number 2 is the chapter
    at index 1. *)
Lemma get_chapter_by_number_after_normalize_witness :
  option_map Chapter.title
    (Document.get_chapter_by_number
       (Document.set_chapters
          (PDFProcessor._normalize_chapter_numbers sample_pdf_chapters) sample_pdf) 2)
  = Some (py "Two").
Proof.
  rewrite (get_chapter_by_number_after_normalize
             (Document.set_chapters
                (PDFProcessor._normalize_chapter_numbers sample_pdf_chapters) sample_pdf)
             sample_pdf_chapters 2 (or_introl eq_refl)).
  reflexivity.
Defined.

Lemma find_app_first {A : Type} (f : A -> bool) (a b : list A) :
  List.find f (a ++ b)
  = match List.find f a with
    | Some x => Some x
    | None => List.find f b
    end.
Proof.
  induction a as [|x a IH]; [reflexivity|]. cbn. destruct (f x); [reflexivity|exact IH].
Qed.

(** X3. [add_chapter] appends: the count grows by one, the chapter added
    carries the id of the document, and a look-up by number still finds
    every chapter it found before; the chapter added is found under its
    number only when no earlier chapter has that number. *)
Theorem add_chapter_then_lookup (d : Document.t) (c : Chapter.t) (k : Z) :
  Document.chapter_count (Document.add_chapter c d) = Document.chapter_count d + 1
  /\ List.last (map Some (Document.chapters (Document.add_chapter c d))) None
     = Some (Chapter.set_document_id (Document.id d) c)
  /\ Document.get_chapter_by_number (Document.add_chapter c d) k
     = match Document.get_chapter_by_number d k with
       | Some found => Some found
       | None =>
           if Chapter.chapter_number c =? k
           then Some (Chapter.set_document_id (Document.id d) c)
           else None
       end.
Proof.
  unfold Document.chapter_count, Document.get_chapter_by_number, Document.add_chapter.
  cbn [Document.chapters Document.id]. split; [|split].
  - rewrite length_app. cbn. lia.
  - rewrite map_app. cbn. apply last_last.
  - rewrite find_app_first. destruct (List.find _ (Document.chapters d)); [reflexivity|].
    cbn. destruct (Chapter.chapter_number c =? k); reflexivity.
Qed.

(** ** Processing results *)

Lemma run_calls_app (calls : list result_call) (call : result_call)
    (r : ProcessingResult.t) :
  run_calls (calls ++ [call]) r = run_call (run_calls calls r) call.
Proof. unfold run_calls. rewrite fold_left_app. reflexivity. Qed.

(** X4. Starting from a fresh [ProcessingResult], whatever calls of
    [add_output_file] and [add_error] are made, the two counters are the
    lengths of the two lists, they add up to the number of calls, and the
    result, once marked [SUCCESS], is successful exactly when no error was
    added. *)
Theorem processing_result_counters (calls : list result_call) :
  let r := run_calls calls ProcessingResult.default in
  ProcessingResult.processed_chapters r
  = Z.of_nat (length (ProcessingResult.output_files r))
  /\ ProcessingResult.failed_chapters r
     = Z.of_nat (length (ProcessingResult.error_details r))
  /\ ProcessingResult.processed_chapters r + ProcessingResult.failed_chapters r
     = Z.of_nat (length calls)
  /\ (ProcessingResult.is_successful
        (ProcessingResult.set_status ProcessingStatus.SUCCESS r) = true
      <-> ProcessingResult.error_details r = []).
Proof.
  cbn zeta.
  assert (ProcessingResult.processed_chapters (run_calls calls ProcessingResult.default)
          = Z.of_nat (length (ProcessingResult.output_files
                                (run_calls calls ProcessingResult.default)))
          /\ ProcessingResult.failed_chapters (run_calls calls ProcessingResult.default)
             = Z.of_nat (length (ProcessingResult.error_details
                                   (run_calls calls ProcessingResult.default)))
          /\ ProcessingResult.processed_chapters (run_calls calls ProcessingResult.default)
             + ProcessingResult.failed_chapters (run_calls calls ProcessingResult.default)
             = Z.of_nat (length calls)) as (Hp & Hf & Hs).
  { induction calls as [|call calls IH] using rev_ind; [cbn; auto|].
    rewrite run_calls_app, length_app. destruct IH as (Hp & Hf & Hs).
    destruct call; cbn; rewrite ?length_app; cbn; repeat split; lia. }
  repeat split; try assumption.
  - unfold ProcessingResult.is_successful. cbn. rewrite Hf. intros H.
    apply Z.eqb_eq in H.
    destruct (ProcessingResult.error_details _); [reflexivity|cbn in H; lia].
  - unfold ProcessingResult.is_successful. cbn. rewrite Hf. intros ->. reflexivity.
Qed.

(** X5. In a batch, the completed results are the successful ones and the
    failed ones: [completed_count] is the sum of [success_count] and
    [error_count], and it is at most the number of results. *)
Theorem batch_completed_is_success_plus_error (c : BatchProcessingConfig.t) :
  BatchProcessingConfig.completed_count c
  = BatchProcessingConfig.success_count c + BatchProcessingConfig.error_count c
  /\ BatchProcessingConfig.completed_count c
     <= Z.of_nat (length (BatchProcessingConfig.results c)).
Proof.
  unfold BatchProcessingConfig.completed_count, BatchProcessingConfig.success_count,
    BatchProcessingConfig.error_count.
  induction (BatchProcessingConfig.results c) as [|r rs [IH1 IH2]]; [cbn; lia|].
  cbn [List.filter existsb] in *.
  destruct (ProcessingResult.status r); cbn [ProcessingStatus.eqb orb length]; lia.
Qed.

(** ** File names *)

Lemma path_pieces_tidy (f : pystr) :
  tidy f = true ->
  tidy (path_stem f) = true /\ tidy (path_suffix f) = true
  /\ first_in is_space (path_suffix f) = false
  /\ first_in (cp_eqb UNDERSCORE) (path_suffix f) = false.
Proof.
  intros Ht. destruct (pystr_eqb f [DOT]) eqn:E.
  - apply pystr_eqb_eq in E. subst f. repeat split; reflexivity.
  - apply pystr_eqb_neq in E. destruct (path_stem_tidy f Ht E) as [-> ->].
    split; [apply tidy_name_stem; assumption|].
    split; [apply tidy_name_suffix; assumption|].
    destruct (name_suffix_shape f) as [-> | (e & -> & _)]; split; reflexivity.
Qed.

Lemma sanitize_finish_tidy (max_length : Z) (s : pystr) :
  tidy s = true ->
  first_in (char_in [UNDERSCORE; SPACE]) s = false ->
  sanitize_finish max_length s <> []
  /\ sanitize_finish max_length s <> [UNDERSCORE]
  /\ tidy (sanitize_finish max_length s) = true.
Proof.
  intros Ht Hf. rewrite sanitize_finish_unfold. cbn zeta.
  set (f := if in_reserved (upper (path_stem s)) then UNDERSCORE :: s else s).
  assert (tidy f = true) as Htf.
  { subst f. destruct (in_reserved _); [apply tidy_cons_underscore|]; assumption. }
  destruct (path_pieces_tidy f Htf) as (Hstem & Hsuf & Hsp & Hus).
  set (g := if len f >? max_length then _ else f).
  assert (tidy g = true) as Htg.
  { subst g. destruct (len f >? max_length); [|assumption].
    destruct (_ >? 0).
    - apply tidy_app; [apply tidy_firstn; assumption| | |].
      2: { replace (first_in is_space (py "..." ++ path_suffix f)) with false
             by reflexivity. apply andb_false_r. }
      2: { replace (first_in (cp_eqb UNDERSCORE) (py "..." ++ path_suffix f)) with false
             by reflexivity. apply andb_false_r. }
      apply tidy_app; [reflexivity|assumption| |].
      + rewrite Hsp. apply andb_false_r.
      + rewrite Hus. apply andb_false_r.
    - apply tidy_app; [reflexivity|assumption| |].
      + rewrite Hsp. apply andb_false_r.
      + rewrite Hus. apply andb_false_r. }
  destruct (negb (truthy g) || pystr_eqb g [UNDERSCORE]) eqn:C.
  - repeat split; try discriminate.
  - apply orb_false_iff in C as [C1 C2]. apply pystr_eqb_neq in C2.
    repeat split; try assumption. intros ->. discriminate C1.
Qed.

Lemma sanitize_filename_tidy (nfkc : pystr -> pystr) (max_length : Z)
    (filename : pystr) :
  sanitize_filename nfkc max_length filename <> []
  /\ sanitize_filename nfkc max_length filename <> [UNDERSCORE]
  /\ tidy (sanitize_filename nfkc max_length filename) = true.
Proof.
  rewrite sanitize_filename_unfold.
  destruct (negb (truthy filename)).
  - repeat split; discriminate.
  - destruct (sanitize_strip_tidy (nfkc filename)) as (Ht & Hf & _).
    apply sanitize_finish_tidy; assumption.
Qed.

(** X6. Whatever the text, the normaliser and the maximum length, the
    result of [sanitize_filename] is never empty and never the bare
    replacement token; it holds none of the characters of
    [INVALID_FILENAME_CHARS] (so no path separator), its only white space
    is the plain space, and neither two spaces nor two underscores follow
    each other in it. *)
Theorem sanitize_filename_result_is_clean (nfkc : pystr -> pystr) (max_length : Z)
    (filename : pystr) :
  let r := sanitize_filename nfkc max_length filename in
  r <> [] /\ r <> [UNDERSCORE]
  /\ forallb valid_char r = true
  /\ forallb plain_space r = true
  /\ no_adjacent is_space r = true
  /\ no_adjacent (cp_eqb UNDERSCORE) r = true.
Proof.
  cbn zeta.
  destruct (sanitize_filename_tidy nfkc max_length filename) as (H1 & H2 & H3).
  apply tidy_iff in H3 as (P & A & V & U). repeat split; assumption.
Qed.

Lemma len_app (a b : pystr) : len (a ++ b) = len a + len b.
Proof. unfold len. rewrite length_app. lia. Qed.

Lemma len_firstn_le (n : nat) (s : pystr) : len (firstn n s) <= Z.of_nat n.
Proof. unfold len. rewrite length_firstn. lia. Qed.

(** X7. With a maximum length of at least 8 (the length of the fall-back
    name), the result of [sanitize_filename] fits the maximum length, or it
    is the word "truncated" followed by the suffix of the name, which is
    what the code returns when that suffix alone comes within 10
    characters of the maximum. *)
Theorem sanitize_filename_length (nfkc : pystr -> pystr) (max_length : Z)
    (filename : pystr) :
  8 <= max_length ->
  let r := sanitize_filename nfkc max_length filename in
  len r <= max_length
  \/ exists ext, r = py "truncated" ++ ext /\ max_length - 10 <= len ext.
Proof.
  intros Hm. cbn zeta. rewrite sanitize_filename_unfold.
  destruct (negb (truthy filename));
    [left; change (len (py "untitled")) with 8; lia|].
  rewrite sanitize_finish_unfold. cbn zeta.
  set (s := sanitize_strip (nfkc filename)).
  set (f := if in_reserved (upper (path_stem s)) then UNDERSCORE :: s else s).
  destruct (len f >? max_length) eqn:L.
  - destruct (max_length - len (path_suffix f) - 10 >? 0) eqn:N.
    + rewrite Z.gtb_ltb in N. apply Z.ltb_lt in N. left.
      rewrite final_fallback_long
        by (rewrite !length_app; cbn; lia).
      rewrite !len_app.
      pose proof (len_firstn_le (Z.to_nat (max_length - len (path_suffix f) - 10))
                    (path_stem f)).
      change (len (py "...")) with 3. lia.
    + rewrite Z.gtb_ltb in N. apply Z.ltb_ge in N. right.
      exists (path_suffix f). split; [|lia].
      apply final_fallback_long. rewrite length_app. cbn. lia.
  - rewrite Z.gtb_ltb in L. apply Z.ltb_ge in L. left.
    destruct (negb (truthy f) || pystr_eqb f [UNDERSCORE]);
      [change (len (py "untitled")) with 8; lia|assumption].
Qed.

(** With the default maximum length, a title of 300 letters comes back
    within 255 characters. *)
Lemma sanitize_filename_length_witness :
  len (sanitize_filename nfkc_ascii MAX_LENGTH long_name) <= MAX_LENGTH.
Proof.
  destruct (sanitize_filename_length nfkc_ascii MAX_LENGTH long_name) as [H | H].
  - unfold MAX_LENGTH. lia.
  - exact H.
  - destruct H as (ext & H & _). vm_compute in H. discriminate H.
Defined.

(** *** Chapter file names *)




Lemma len_drop_last_le (n : nat) (s : pystr) : len (drop_last n s) <= len s.
Proof.
  unfold drop_last, len. destruct n; [cbn; lia|]. rewrite length_firstn. lia.
Qed.


Lemma format_02d_no_char (x : codepoint) (n : Z) :
  is_numeral_char x = false -> no_char x (format_02d n) = true.
Proof.
  intros Hx. unfold format_02d. destruct (_ && _).
  - rewrite no_char_app, (str_of_int_no_char x n Hx), andb_true_r.
    change (no_char x (py "0")) with (negb (cp_eqb 48%N x) && true).
    destruct (cp_eqb 48%N x) eqn:E; [|reflexivity].
    apply cp_eqb_eq in E. subst x. discriminate Hx.
  - apply str_of_int_no_char. assumption.
Qed.

Lemma sanitize_filename_no_slash (nfkc : pystr -> pystr) (max_length : Z)
    (filename : pystr) :
  no_char SLASH (sanitize_filename nfkc max_length filename) = true.
Proof.
  destruct (sanitize_filename_tidy nfkc max_length filename) as (_ & _ & H).
  apply tidy_iff in H as (_ & _ & V & _). apply valid_no_slash. assumption.
Qed.

Lemma no_char_drop_last (x : codepoint) (n : nat) (s : pystr) :
  no_char x s = true -> no_char x (drop_last n s) = true.
Proof.
  intros H. unfold drop_last. destruct n; [reflexivity|]. apply no_char_firstn.
  assumption.
Qed.

Lemma underscore_not_dots (s : pystr) :
  In UNDERSCORE s -> s <> [] /\ s <> [DOT] /\ s <> [DOT; DOT].
Proof.
  intros H. repeat split; intros ->; cbn in H; intuition discriminate.
Qed.

(** The name of a chapter file is a plain name: it has no separator and
    is neither empty nor a dot name. *)
Lemma chapter_filename_plain (nfkc : pystr -> pystr)
    (document_title : pystr) (chapter_number : Z) (chapter_title extension : pystr) :
  no_char SLASH extension = true ->
  let r := get_safe_chapter_filename nfkc document_title chapter_number
             chapter_title extension in
  no_char SLASH r = true /\ r <> [] /\ r <> [DOT] /\ r <> [DOT; DOT].
Proof.
  intros Hx. cbn zeta. unfold get_safe_chapter_filename.
  set (filename :=
         if truthy chapter_title && truthy (strip is_space chapter_title)
         then _ else _).
  assert (no_char SLASH filename = true /\ In UNDERSCORE filename) as [Hs Hu].
  { subst filename. destruct (_ && _).
    - split.
      + rewrite !no_char_app, format_02d_no_char, sanitize_filename_no_slash
          by reflexivity. reflexivity.
      + apply in_or_app. right. left. reflexivity.
    - split.
      + rewrite !no_char_app, format_02d_no_char, sanitize_filename_no_slash
          by reflexivity. reflexivity.
      + apply in_or_app. right. left. reflexivity. }
  set (named := if negb (endswith (lower filename) (lower extension))
                then filename ++ extension else filename).
  assert (no_char SLASH named = true /\ In UNDERSCORE named) as [Hs' Hu'].
  { subst named. destruct (negb _); [|auto]. split.
    - rewrite no_char_app, Hs, Hx. reflexivity.
    - apply in_or_app. left. assumption. }
  destruct (len named >? 200).
  - split.
    + rewrite !no_char_app, Hx, andb_true_r.
      rewrite (no_char_firstn _ _ _ (no_char_drop_last _ _ _ Hs')). reflexivity.
    + repeat split; intros H; apply (f_equal (@length _)) in H;
        rewrite !length_app in H; cbn in H; lia.
  - split; [assumption|]. apply underscore_not_dots. assumption.
Qed.

(** X9. When the extension holds no path separator, neither does the
    chapter file name, whatever the titles are, and the name is neither
    empty nor "." nor "..": joined to the output directory it names a file
    of that very directory. *)
Theorem chapter_file_stays_in_output_directory (nfkc : pystr -> pystr)
    (output_dir : Path) (document_title : pystr) (chapter_number : Z)
    (chapter_title extension : pystr) :
  no_char SLASH extension = true ->
  let r := get_safe_chapter_filename nfkc document_title chapter_number
             chapter_title extension in
  no_char SLASH r = true /\ r <> py "." /\ r <> py ".."
  /\ Path_parent (joinpath output_dir r) = output_dir
  /\ Path_name (joinpath output_dir r) = r.
Proof.
  intros Hx. cbn zeta.
  destruct (chapter_filename_plain nfkc document_title chapter_number chapter_title
              extension Hx) as (Hs & Hne & Hd & Hdd).
  split; [assumption|]. split; [assumption|]. split; [assumption|].
  rewrite (joinpath_plain_name _ _ Hs Hne Hd). unfold Path_parent, Path_name.
  cbn [parts is_absolute]. rewrite removelast_last, last_last.
  destruct output_dir; split; reflexivity.
Qed.

(** A title made of separators and dots cannot leave the directory
    [out]. *)
Lemma chapter_file_stays_in_output_directory_witness :
  Path_parent
    (joinpath (Path_of (py "out"))
       (get_safe_chapter_filename nfkc_ascii (py "Book") 1 (py "../../etc/passwd")
          (py ".pdf")))
  = Path_of (py "out").
Proof.
  apply (chapter_file_stays_in_output_directory nfkc_ascii (Path_of (py "out"))
           (py "Book") 1 (py "../../etc/passwd") (py ".pdf")).
  reflexivity.
Defined.

(** ** Detection of the PDF chapters *)

Lemma index_of_idnum_spec (idnum : Z) (ps : list (option Z)) (k : Z) :
  match PDFProcessor.index_of_idnum idnum ps k with
  | Some page_num =>
      k <= page_num < k + Z.of_nat (length ps)
      /\ ps !! Z.to_nat (page_num - k) = Some (Some idnum)
      /\ forall i, (i < Z.to_nat (page_num - k))%nat -> ps !! i <> Some (Some idnum)
  | None => forall i, ps !! i <> Some (Some idnum)
  end.
Proof.
  revert k. induction ps as [|p ps IH]; intros k; cbn [PDFProcessor.index_of_idnum].
  - intros i. rewrite lookup_nil. discriminate.
  - assert (match PDFProcessor.index_of_idnum idnum ps (k + 1) with
            | Some page_num =>
                p <> Some idnum ->
                k <= page_num < k + Z.of_nat (length (p :: ps))
                /\ (p :: ps) !! Z.to_nat (page_num - k) = Some (Some idnum)
                /\ forall i, (i < Z.to_nat (page_num - k))%nat ->
                     (p :: ps) !! i <> Some (Some idnum)
            | None => p <> Some idnum -> forall i, (p :: ps) !! i <> Some (Some idnum)
            end) as Hrest.
    { specialize (IH (k + 1)).
      destruct (PDFProcessor.index_of_idnum idnum ps (k + 1)) as [page_num|].
      - destruct IH as (Hb & Hl & Hf). intros Hp. cbn [length].
        split; [lia|].
        replace (Z.to_nat (page_num - k)) with (S (Z.to_nat (page_num - (k + 1)))) by lia.
        split; [exact Hl|]. intros [|i] Hi; cbn; [congruence|]. apply Hf. lia.
      - intros Hp [|i]; cbn; [congruence|]. apply IH. }
    destruct p as [i|].
    + destruct (Z.eqb_spec i idnum) as [->|Hne].
      * cbn [length]. split; [lia|]. replace (Z.to_nat (k - k)) with 0%nat by lia.
        split; [reflexivity|]. intros j Hj. lia.
      * destruct (PDFProcessor.index_of_idnum idnum ps (k + 1));
          apply Hrest; congruence.
    + destruct (PDFProcessor.index_of_idnum idnum ps (k + 1));
        apply Hrest; discriminate.
Qed.

(** X10. For a bookmark whose destination is an indirect reference,
    [_safe_get_page_number] returns the 1-based position of the first
    page of the document with that object number, and 0 when no page has
    it or the page tree cannot be read: the bookmark is then dropped. *)
Theorem safe_get_page_number_finds_first_page (idnum : Z)
    (pdf_reader : PDFProcessor.PdfReader) :
  let k := PDFProcessor._safe_get_page_number (PDFProcessor.IndirectRef idnum)
             pdf_reader in
  match PDFProcessor.pages pdf_reader with
  | None => k = 0
  | Some ps =>
      (k = 0 /\ forall i, ps !! i <> Some (Some idnum))
      \/ (1 <= k <= Z.of_nat (length ps)
          /\ ps !! Z.to_nat (k - 1) = Some (Some idnum)
          /\ forall i, (i < Z.to_nat (k - 1))%nat -> ps !! i <> Some (Some idnum))
  end.
Proof.
  cbn zeta. unfold PDFProcessor._safe_get_page_number.
  destruct (PDFProcessor.pages pdf_reader) as [ps|]; [|reflexivity].
  pose proof (index_of_idnum_spec idnum ps 0) as H.
  destruct (PDFProcessor.index_of_idnum idnum ps 0) as [page_num|].
  - right. destruct H as (Hb & Hl & Hf).
    replace (page_num + 1 - 1) with (page_num - 0) by lia. split; [lia|]. auto.
  - left. auto.
Qed.

(** *** Threading a state through a list of calls that may not return *)

Lemma fold_option_none {S A : Type} (f : A -> S -> option S) (items : list A) :
  fold_left (fun acc x => match acc with Some s => f x s | None => None end)
    items None = None.
Proof. induction items; cbn; auto. Qed.

Lemma fold_option_inv {S A : Type} (f : A -> S -> option S) (P : S -> Prop)
    (items : list A) :
  (forall x s s', In x items -> f x s = Some s' -> P s -> P s') ->
  forall s s',
    fold_left (fun acc x => match acc with Some s => f x s | None => None end)
      items (Some s) = Some s' ->
    P s -> P s'.
Proof.
  induction items as [|x items IH]; intros Hf s s'; cbn [fold_left].
  - intros [= <-]. auto.
  - destruct (f x s) as [s1|] eqn:E.
    + intros H Hs. apply (IH (fun y t t' Hy => Hf y t t' (or_intror Hy)) s1 s' H).
      apply (Hf x s s1 (or_introl eq_refl) E Hs).
    + rewrite fold_option_none. discriminate.
Qed.

(** *** Numbering *)

Lemma numbered_from_app (k : nat) (chapters : list Chapter.t) (c : Chapter.t) :
  numbered_from k chapters ->
  Chapter.chapter_number c = Z.of_nat (k + length chapters) ->
  numbered_from k (chapters ++ [c]).
Proof.
  unfold numbered_from. intros Hn Hc.
  rewrite map_app, length_app, seq_app, map_app, Hn. cbn. rewrite Hc. reflexivity.
Qed.

Lemma set_chapter_number_same (c : Chapter.t) (n : Z) :
  Chapter.chapter_number c = n -> Chapter.set_chapter_number n c = c.
Proof. intros <-. destruct c; reflexivity. Qed.

Lemma imap_numbered (k : nat) (chapters : list Chapter.t) :
  numbered_from (S k) chapters ->
  imap (fun idx chapter =>
          Chapter.set_chapter_number (Z.of_nat (k + idx) + 1) chapter) chapters
  = chapters.
Proof.
  unfold numbered_from. revert k.
  induction chapters as [|c cs IH]; intros k H; [reflexivity|].
  cbn in H. injection H as Hc Hcs. cbn [imap]. f_equal.
  - apply set_chapter_number_same. rewrite Hc. lia.
  - rewrite <- (IH (S k) Hcs) at 2. apply imap_ext. intros i x _. cbn.
    do 2 f_equal. lia.
Qed.

Lemma normalize_numbered (chapters : list Chapter.t) :
  numbered_from 1 chapters ->
  PDFProcessor._normalize_chapter_numbers chapters = chapters
  /\ EPUBProcessor._normalize_chapter_numbers chapters = chapters.
Proof.
  intros H. split; apply (imap_numbered 0 chapters H).
Qed.

(** *** Resolved boundaries *)

(** What [_set_chapter_end_pages] does to each chapter of a list whose
    chapters all have a start page: it sets the end page, to the start
    page at least. *)
Lemma set_chapter_end_pages_each (chapters : list Chapter.t) (total_pages : Z) :
  Forall (fun c => is_Some (Chapter.start_page c)) chapters ->
  snd (PDFProcessor._set_chapter_end_pages chapters total_pages) = None
  /\ Forall2 (fun c c' => exists s e, Chapter.start_page c = Some s /\ s <= e
                                      /\ c' = Chapter.set_end_page (Some e) c)
       chapters (fst (PDFProcessor._set_chapter_end_pages chapters total_pages)).
Proof.
  induction chapters as [|c rest IH]; intros Hall; [split; [reflexivity|constructor]|].
  inversion Hall as [|? ? [s Hs] Hrest]; subst.
  rewrite (set_chapter_end_pages_cons c s rest total_pages Hs Hrest).
  destruct (IH Hrest) as [IHex IH2]. cbn [fst snd]. split; [exact IHex|].
  constructor; [|exact IH2]. eexists s, _. split; [exact Hs|]. split; [|reflexivity]. lia.
Qed.

Lemma set_chapter_end_pages_starts (chapters : list Chapter.t) (total_pages : Z) :
  Forall (fun c => is_Some (Chapter.start_page c)) chapters ->
  map Chapter.start_page (fst (PDFProcessor._set_chapter_end_pages chapters total_pages))
  = map Chapter.start_page chapters.
Proof.
  intros Hall. destruct (set_chapter_end_pages_each chapters total_pages Hall) as [_ H].
  clear Hall. induction H as [|c c' cs cs' (s & e & Hs & Hle & ->) _ IH]; [reflexivity|].
  cbn. f_equal. exact IH.
Qed.

(** X11. Resolving the boundaries twice is resolving them once: on
    chapters that all have a start page, [_set_chapter_end_pages] applied
    to its own result, with the same page count, changes nothing. *)
Theorem set_chapter_end_pages_idempotent (chapters : list Chapter.t) (total_pages : Z) :
  Forall (fun c => is_Some (Chapter.start_page c)) chapters ->
  PDFProcessor._set_chapter_end_pages
    (fst (PDFProcessor._set_chapter_end_pages chapters total_pages)) total_pages
  = PDFProcessor._set_chapter_end_pages chapters total_pages.
Proof.
  induction chapters as [|c rest IH]; intros Hall; [reflexivity|].
  inversion Hall as [|? ? [s Hs] Hrest]; subst.
  rewrite (set_chapter_end_pages_cons c s rest total_pages Hs Hrest). cbn [fst].
  pose proof (set_chapter_end_pages_starts rest total_pages Hrest) as Hstarts.
  assert (Forall (fun c => is_Some (Chapter.start_page c))
            (fst (PDFProcessor._set_chapter_end_pages rest total_pages))) as Hrest'.
  { apply List.Forall_forall. intros x Hx.
    assert (In (Chapter.start_page x) (map Chapter.start_page rest)) as Hin
      by (rewrite <- Hstarts; apply in_map; assumption).
    apply in_map_iff in Hin as (y & Hy & Hiny). rewrite <- Hy.
    rewrite List.Forall_forall in Hrest. apply Hrest. assumption. }
  rewrite (set_chapter_end_pages_cons _ s _ total_pages) by (auto using Hrest').
  rewrite (IH Hrest). cbn [fst snd].
  replace (match fst (PDFProcessor._set_chapter_end_pages rest total_pages) with
           | [] => total_pages
           | n :: _ => match Chapter.start_page n with Some s' => s' - 1 | None => 0 end
           end)
    with (match rest with
          | [] => total_pages
          | n :: _ => match Chapter.start_page n with Some s' => s' - 1 | None => 0 end
          end); [reflexivity|].
  destruct rest as [|n rest']; [reflexivity|].
  destruct (fst (PDFProcessor._set_chapter_end_pages (n :: rest') total_pages))
    as [|n' r']; [discriminate Hstarts|].
  cbn in Hstarts. injection Hstarts as -> _. reflexivity.
Qed.

(** Three bookmarks of a 25-page document. *)
Lemma set_chapter_end_pages_idempotent_witness :
  PDFProcessor._set_chapter_end_pages
    (fst (PDFProcessor._set_chapter_end_pages
            [pdf_chapter_at 1; pdf_chapter_at 10; pdf_chapter_at 20] 25)) 25
  = PDFProcessor._set_chapter_end_pages
      [pdf_chapter_at 1; pdf_chapter_at 10; pdf_chapter_at 20] 25.
Proof.
  apply (set_chapter_end_pages_idempotent
           [pdf_chapter_at 1; pdf_chapter_at 10; pdf_chapter_at 20] 25).
  repeat constructor; eexists; reflexivity.
Defined.

(** *** The outline *)

Lemma detector_state_ok_nil (P : Chapter.t -> Prop) : detector_state_ok P ([], 1).
Proof. repeat split. constructor. Qed.

Lemma detector_state_ok_snoc (P : Chapter.t -> Prop) (chapters : list Chapter.t)
    (chapter_num : Z) (c : Chapter.t) :
  detector_state_ok P (chapters, chapter_num) ->
  Chapter.chapter_number c = chapter_num -> P c ->
  detector_state_ok P (chapters ++ [c], chapter_num + 1).
Proof.
  intros (Hn & Hnum & Hall) Hc Hp. cbn [fst snd] in *. repeat split; cbn [fst snd].
  - apply numbered_from_app; [assumption|]. rewrite Hc, Hnum. lia.
  - rewrite length_app. cbn. lia.
  - apply Forall_app. split; [assumption|]. constructor; [assumption|constructor].
Qed.

Module OutlineFacts.
Import PDFProcessor.

Section Facts.

Variable nfkc : pystr -> pystr.
Variable document_id : option Z.
Variable pdf_reader : PdfReader.
Variable heap : addr -> OutlineObj.

Lemma process_bookmark_ok (title : pystr) (page : PageRef) (st : outline_state) :
  detector_state_ok (pdf_detected 0.9) st ->
  detector_state_ok (pdf_detected 0.9)
    (process_bookmark nfkc document_id pdf_reader title page st).
Proof.
  destruct st as [chapters chapter_num]. intros Hok. unfold process_bookmark.
  destruct (_safe_get_page_number page pdf_reader >? 0) eqn:E; [|assumption].
  rewrite Z.gtb_ltb in E. apply Z.ltb_lt in E.
  apply detector_state_ok_snoc; [assumption|reflexivity|].
  split; [|reflexivity]. eexists. repeat split. assumption.
Qed.

Lemma process_outline_item_ok (fuel : nat) :
  forall item st st',
    process_outline_item nfkc document_id pdf_reader heap fuel item st = Some st' ->
    detector_state_ok (pdf_detected 0.9) st ->
    detector_state_ok (pdf_detected 0.9) st'.
Proof.
  induction fuel as [|fuel IH]; intros item st st'; [discriminate|].
  rewrite TraversalFacts.process_outline_item_S.
  destruct (heap item) as [items|title page|].
  - apply (fold_option_inv
             (fun subitem s =>
                process_outline_item nfkc document_id pdf_reader heap fuel subitem s)).
    intros x s s' _. apply IH.
  - intros [= <-]. apply process_bookmark_ok.
  - intros [= <-]. auto.
Qed.

(** The chapters the outline gives, before and after the boundaries are
    resolved. *)
Lemma extract_chapters_from_outline_ok (fuel : nat) (outline : option addr)
    (chapters : list Chapter.t) :
  _extract_chapters_from_outline nfkc document_id pdf_reader heap fuel outline
  = Some chapters ->
  numbered_from 1 chapters
  /\ Forall (fun c => Chapter.is_valid_pdf_chapter c = true) chapters
  /\ Forall (fun c => Chapter.confidence_score c = 0.9%Q) chapters.
Proof.
  unfold _extract_chapters_from_outline.
  destruct outline as [root|]; [|intros [= <-]; repeat split; constructor].
  destruct (process_outline_item nfkc document_id pdf_reader heap fuel root ([], 1))
    as [[found chapter_num]|] eqn:E; [|discriminate].
  apply process_outline_item_ok in E; [|apply detector_state_ok_nil].
  destruct E as (Hn & _ & Hall). cbn [fst] in Hn, Hall.
  assert (Forall (fun c => is_Some (Chapter.start_page c)) found) as Hstart.
  { eapply List.Forall_impl; [|exact Hall]. intros c ((p & -> & _) & _). eexists. reflexivity. }
  destruct (pages pdf_reader) as [ps|]; intros [= <-].
  - destruct (set_chapter_end_pages_each found (Z.of_nat (length ps)) Hstart) as [_ H2].
    set (resolved := fst (_set_chapter_end_pages found (Z.of_nat (length ps)))) in *.
    clearbody resolved. clear Hstart. unfold numbered_from in *.
    revert Hn Hall. generalize 1%nat.
    induction H2 as [|c c' cs cs' (s & e & Hs & Hle & ->) _ IH]; intros k Hn Hall;
      [repeat split; constructor|].
    inversion Hall as [|? ? ((p & Hp & _ & Hpos) & Hconf) Hall']; subst.
    cbn in Hn. injection Hn as Hc Hcs.
    destruct (IH (S k) Hcs Hall') as (IHn & IHv & IHc).
    repeat split.
    + cbn. rewrite Hc, IHn. reflexivity.
    + constructor; [|assumption]. unfold Chapter.is_valid_pdf_chapter. cbn.
      rewrite Hs. rewrite Hs in Hp. injection Hp as <-.
      apply andb_true_iff. split; [apply Z.leb_le; lia|].
      rewrite Z.gtb_ltb. apply Z.ltb_lt. lia.
    + constructor; assumption.
  - repeat split; [assumption| |].
    + eapply List.Forall_impl; [|exact Hall]. intros c ((p & Hs & He & Hpos) & _).
      unfold Chapter.is_valid_pdf_chapter. rewrite Hs, He.
      apply andb_true_iff. split; [apply Z.leb_le; lia|].
      rewrite Z.gtb_ltb. apply Z.ltb_lt. lia.
    + eapply List.Forall_impl; [|exact Hall]. intros c [_ H]. exact H.
Qed.

End Facts.

End OutlineFacts.

(** X12. The chapters [_extract_chapters_from_outline] returns are
    already numbered 1, 2, ... in order, so that renumbering them changes
    nothing; each of them passes the pre-check of the extractor (a
    positive start page, at most the end page) and has the confidence
    0.9. *)
Theorem outline_chapters_are_numbered_and_valid (nfkc : pystr -> pystr)
    (document_id : option Z) (pdf_reader : PDFProcessor.PdfReader)
    (heap : addr -> PDFProcessor.OutlineObj) (fuel : nat) (outline : option addr)
    (chapters : list Chapter.t) :
  PDFProcessor._extract_chapters_from_outline nfkc document_id pdf_reader heap fuel
    outline = Some chapters ->
  PDFProcessor._normalize_chapter_numbers chapters = chapters
  /\ Forall (fun c => Chapter.is_valid_pdf_chapter c = true) chapters
  /\ Forall (fun c => Chapter.confidence_score c = 0.9%Q) chapters.
Proof.
  intros H. apply OutlineFacts.extract_chapters_from_outline_ok in H as (Hn & Hv & Hc).
  split; [apply normalize_numbered; assumption|]. split; assumption.
Qed.

(** The two bookmarks of the sample outline, in a three-page document. *)
Lemma outline_chapters_are_numbered_and_valid_witness :
  match PDFProcessor._extract_chapters_from_outline nfkc_ascii None
          producer_only_reader sample_outline 3 (Some 0%nat) with
  | Some chapters => Forall (fun c => Chapter.is_valid_pdf_chapter c = true) chapters
  | None => False
  end.
Proof.
  destruct (PDFProcessor._extract_chapters_from_outline nfkc_ascii None
              producer_only_reader sample_outline 3 (Some 0%nat)) as [chapters|] eqn:E.
  - apply (outline_chapters_are_numbered_and_valid _ _ _ _ _ _ _ E).
  - vm_compute in E. discriminate E.
Defined.

(** *** The text *)

Lemma starts_increase_mono (lo hi hi' : Z) (chapters : list Chapter.t) :
  hi <= hi' -> starts_increase lo hi chapters -> starts_increase lo hi' chapters.
Proof.
  intros Hle. revert lo. induction chapters as [|c rest IH]; intros lo; [auto|].
  intros (s & Hs & Hb & Hrest). exists s. split; [assumption|]. split; [lia|]. auto.
Qed.

Lemma starts_increase_snoc (lo hi : Z) (chapters : list Chapter.t) (c : Chapter.t) :
  lo <= hi -> starts_increase lo hi chapters ->
  Chapter.start_page c = Some (hi + 1) ->
  starts_increase lo (hi + 1) (chapters ++ [c]).
Proof.
  intros Hle H Hc. revert lo Hle H. induction chapters as [|x rest IH]; intros lo Hle H.
  - exists (hi + 1). split; [assumption|]. split; [lia|exact I].
  - destruct H as (s & Hs & Hb & Hrest). exists s. split; [assumption|].
    split; [lia|]. apply IH; [lia|assumption].
Qed.

Lemma starts_increase_have_start (lo hi : Z) (chapters : list Chapter.t) :
  starts_increase lo hi chapters ->
  Forall (fun c => is_Some (Chapter.start_page c)) chapters.
Proof.
  revert lo. induction chapters as [|c rest IH]; intros lo; [constructor|].
  intros (s & Hs & _ & Hrest). constructor; [eexists; eassumption|]. eauto.
Qed.

Lemma last_some_snoc {A : Type} (l : list A) (x : A) :
  List.last (map Some (l ++ [x])) None = Some x.
Proof. rewrite map_app. apply last_last. Qed.

Module TextFacts.
Import PDFProcessor.

Section Facts.

Variable nfkc : pystr -> pystr.
Variable document_id : option Z.
Variable pattern : Type.
Variable chapter_patterns : list pattern.
Variable finditer : pattern -> pystr -> option (list pystr).

(** The detector has read the pages before [page_num]: its chapters are
    as it makes them, one per page at most, on those pages. *)
Abbreviation read_up_to page_num st :=
  (detector_state_ok (pdf_detected 0.7) st /\ starts_increase 0 page_num (fst st)).

Lemma found_on_page_new (chapters : list Chapter.t) (page_num : Z) :
  0 <= page_num -> starts_increase 0 page_num chapters ->
  found_on_page chapters page_num = false.
Proof.
  unfold found_on_page. generalize 0 at 2.
  induction chapters as [|c rest IH]; intros lo Hle H; [reflexivity|].
  destruct H as (s & Hs & Hb & Hrest). destruct rest as [|c' rest'].
  - cbn. rewrite Hs. apply Z.eqb_neq. lia.
  - apply (IH s); assumption.
Qed.

Lemma found_on_page_snoc (chapters : list Chapter.t) (c : Chapter.t) (page_num : Z) :
  Chapter.start_page c = Some (page_num + 1) ->
  found_on_page (chapters ++ [c]) page_num = true.
Proof.
  intros Hc. unfold found_on_page. rewrite last_some_snoc, Hc. apply Z.eqb_refl.
Qed.

Lemma scan_patterns_ok (patterns : list pattern) (text : pystr) (page_num : Z)
    (st : text_state) :
  0 <= page_num -> read_up_to page_num st ->
  read_up_to (page_num + 1)
    (fst (scan_patterns nfkc document_id pattern finditer patterns text page_num st)).
Proof.
  intros Hk [Hok Hinc].
  assert (read_up_to (page_num + 1) st) as Hsame
    by (split; [assumption|apply (starts_increase_mono 0 page_num); [lia|assumption]]).
  induction patterns as [|p rest IH]; cbn [scan_patterns]; [exact Hsame|].
  destruct (finditer p text) as [[|m matches]|]; [| |exact Hsame].
  - rewrite (found_on_page_new (fst st) page_num Hk Hinc). exact IH.
  - destruct st as [chapters chapter_num]. cbn [fst] in *.
    rewrite found_on_page_snoc by reflexivity. cbn [fst]. split.
    + apply detector_state_ok_snoc; [assumption|reflexivity|].
      split; [|reflexivity]. eexists. repeat split. lia.
    + apply starts_increase_snoc; [lia|assumption|reflexivity].
Qed.

Lemma scan_pages_ok (pages : list (attr pystr)) :
  forall page_num st,
    0 <= page_num -> read_up_to page_num st ->
    read_up_to (page_num + Z.of_nat (length pages))
      (scan_pages nfkc document_id pattern chapter_patterns finditer pages page_num st).
Proof.
  induction pages as [|page rest IH]; intros page_num st Hk Hst.
  - cbn. rewrite Z.add_0_r. assumption.
  - cbn [scan_pages length].
    replace (page_num + Z.of_nat (S (length rest)))
      with (page_num + 1 + Z.of_nat (length rest)) by lia.
    apply IH; [lia|].
    assert (read_up_to (page_num + 1) st) as Hsame.
    { destruct Hst as [Hok Hinc].
      split; [assumption|apply (starts_increase_mono 0 page_num); [lia|assumption]]. }
    destruct page as [| |text]; try exact Hsame.
    destruct (truthy text); [|exact Hsame]. apply scan_patterns_ok; assumption.
Qed.

End Facts.

End TextFacts.

(** On start pages that increase strictly and stay within the document,
    nothing is clamped: the resolved boundaries are contiguous. *)
Lemma set_chapter_end_pages_contiguous (lo total_pages : Z) (chapters : list Chapter.t) :
  starts_increase lo total_pages chapters ->
  boundaries_contiguous total_pages
    (fst (PDFProcessor._set_chapter_end_pages chapters total_pages)).
Proof.
  revert lo. induction chapters as [|c rest IH]; intros lo H.
  - cbn. split; [|split].
    + intros i c H'. rewrite lookup_nil in H'. discriminate.
    + intros i c c' H'. rewrite lookup_nil in H'. discriminate.
    + intros c H'. discriminate.
  - destruct H as (s & Hs & Hb & Hrest).
    pose proof (starts_increase_have_start _ _ _ Hrest) as Hstart.
    rewrite (set_chapter_end_pages_cons c s rest total_pages Hs Hstart). cbn [fst].
    destruct (IH s Hrest) as (IH1 & IH2 & IH3).
    pose proof (set_chapter_end_pages_starts rest total_pages Hstart) as Hstarts.
    set (resolved := fst (PDFProcessor._set_chapter_end_pages rest total_pages)) in *.
    split; [|split].
    + intros [|i] x Hx; [|apply (IH1 i x Hx)].
      cbn in Hx. injection Hx as <-. cbn. rewrite Hs. eexists s, _.
      repeat split. lia.
    + intros [|i] x x' Hx Hx'; [|apply (IH2 i x x' Hx Hx')].
      cbn in Hx. injection Hx as <-. cbn in Hx'.
      destruct rest as [|n rest']; [subst resolved; cbn in Hx'; discriminate|].
      destruct resolved as [|n' r']; [discriminate Hstarts|].
      cbn in Hx'. injection Hx' as <-. cbn in Hstarts. injection Hstarts as Hn _.
      destruct Hrest as (s' & Hs' & Hb' & _). rewrite Hs'. rewrite Hn, Hs'.
      exists (Z.max s (s' - 1)), s'. cbn. repeat split. lia.
    + intros x Hx. destruct rest as [|n rest'].
      * subst resolved. cbn in Hx. injection Hx as <-. cbn. f_equal. lia.
      * destruct resolved as [|n' r']; [discriminate Hstarts|].
        apply IH3. exact Hx.
Qed.

(** The chapters the text gives. *)
Lemma extract_chapters_from_text_ok (nfkc : pystr -> pystr) (document_id : option Z)
    (pattern : Type) (chapter_patterns : list pattern)
    (finditer : pattern -> pystr -> option (list pystr))
    (pages : list (attr pystr)) :
  let chapters :=
    PDFProcessor._extract_chapters_from_text nfkc document_id pattern chapter_patterns
      finditer (Some pages) in
  starts_increase 0 (Z.of_nat (length pages)) chapters
  /\ boundaries_contiguous (Z.of_nat (length pages)) chapters
  /\ numbered_from 1 chapters
  /\ Forall (fun c => Chapter.is_valid_pdf_chapter c = true) chapters
  /\ Forall (fun c => Chapter.confidence_score c = 0.7%Q) chapters.
Proof.
  cbn zeta. unfold PDFProcessor._extract_chapters_from_text.
  pose proof (TextFacts.scan_pages_ok nfkc document_id pattern chapter_patterns finditer
                pages 0 ([], 1) (Z.le_refl 0)
                (conj (detector_state_ok_nil _) I)) as [(Hn & _ & Hall) Hinc].
  destruct (PDFProcessor.scan_pages _ _ _ _ _ pages 0 ([], 1)) as [found chapter_num].
  cbn [fst] in *. rewrite Z.add_0_l in Hinc.
  pose proof (starts_increase_have_start _ _ _ Hinc) as Hstart.
  pose proof (set_chapter_end_pages_contiguous _ _ _ Hinc) as Hcont.
  pose proof (set_chapter_end_pages_starts found (Z.of_nat (length pages)) Hstart)
    as Hstarts.
  destruct (set_chapter_end_pages_each found (Z.of_nat (length pages)) Hstart) as [_ H2].
  set (resolved := fst (PDFProcessor._set_chapter_end_pages found
                          (Z.of_nat (length pages)))) in *.
  clearbody resolved. split; [|split; [exact Hcont|]].
  - clear Hcont Hn Hall Hstart H2. revert resolved Hstarts Hinc. generalize 0.
    induction found as [|c rest IH]; intros lo resolved Hstarts Hinc.
    + destruct resolved; [exact I|discriminate].
    + destruct resolved as [|c' rest']; [discriminate|].
      cbn in Hstarts. injection Hstarts as Hc Hrest.
      destruct Hinc as (s & Hs & Hb & Hinc). exists s. rewrite Hc.
      split; [assumption|]. split; [assumption|]. apply IH; assumption.
  - clear Hcont Hstarts Hstart Hinc. unfold numbered_from in *. revert Hn Hall.
    generalize 1%nat.
    induction H2 as [|c c' cs cs' (s & e & Hs & Hle & ->) _ IH]; intros k Hn Hall;
      [repeat split; constructor|].
    inversion Hall as [|? ? ((p & Hp & _ & Hpos) & Hconf) Hall']; subst.
    cbn in Hn. injection Hn as Hc Hcs.
    destruct (IH (S k) Hcs Hall') as (IHn & IHv & IHc). repeat split.
    + cbn. rewrite Hc, IHn. reflexivity.
    + constructor; [|assumption]. unfold Chapter.is_valid_pdf_chapter. cbn.
      rewrite Hs. rewrite Hs in Hp. injection Hp as <-.
      apply andb_true_iff. split; [apply Z.leb_le; lia|].
      rewrite Z.gtb_ltb. apply Z.ltb_lt. lia.
    + constructor; assumption.
Qed.

(** X13. The chapters found in the text of a PDF are one per page at
    most, in page order, on pages of the document; so nothing is clamped
    when their boundaries are resolved: every chapter ends one page before
    the next starts and the last ends on the last page. Whatever the
    patterns are and whatever they match. *)
Theorem text_chapters_are_contiguous (nfkc : pystr -> pystr) (document_id : option Z)
    (pattern : Type) (chapter_patterns : list pattern)
    (finditer : pattern -> pystr -> option (list pystr))
    (pages : list (attr pystr)) :
  let chapters :=
    PDFProcessor._extract_chapters_from_text nfkc document_id pattern chapter_patterns
      finditer (Some pages) in
  starts_increase 0 (Z.of_nat (length pages)) chapters
  /\ boundaries_contiguous (Z.of_nat (length pages)) chapters.
Proof.
  cbn zeta.
  destruct (extract_chapters_from_text_ok nfkc document_id pattern chapter_patterns
              finditer pages) as (H1 & H2 & _).
  split; assumption.
Qed.



(** ** Extraction: the pages of a chapter *)

Lemma copy_pages_In (pdf_reader : PDFProcessor.PdfReader) (io : PDFProcessor.ChapterIO)
    (page_nums : list Z) (p : Z) :
  In p (fst (PDFProcessor.copy_pages pdf_reader io page_nums)) <->
  In p page_nums /\ 0 <= p
  /\ (exists ps, PDFProcessor.pages pdf_reader = Some ps /\ p < Z.of_nat (length ps))
  /\ PDFProcessor.add_page_raises io p = false.
Proof.
  induction page_nums as [|q rest IH]; cbn [PDFProcessor.copy_pages].
  - cbn. tauto.
  - destruct (PDFProcessor.copy_pages pdf_reader io rest) as [copied warnings].
    cbn [fst] in IH.
    destruct (Z.leb_spec 0 q) as [Hq|Hq].
    + destruct (PDFProcessor.pages pdf_reader) as [ps|] eqn:Eps.
      * destruct (Z.ltb_spec q (Z.of_nat (length ps))) as [Hlt|Hge].
        -- destruct (PDFProcessor.add_page_raises io q) eqn:Er; cbn [fst].
           ++ rewrite IH. cbn [In]. split; [tauto|].
              intros ([<-|H] & H1 & H2 & H3); [congruence|tauto].
           ++ cbn [In]. rewrite IH. split.
              ** intros [<-|H]; [|tauto]. repeat split; eauto.
              ** intros ([<-|H] & H1 & H2 & H3); tauto.
        -- cbn [fst]. rewrite IH. cbn [In]. split; [tauto|].
           intros ([<-|H] & H1 & (ps' & [= <-] & H2) & H3); [lia|eauto 6].
      * cbn [fst]. rewrite IH. cbn [In]. split; [tauto|].
        intros (_ & _ & (ps & H & _) & _). discriminate.
    + cbn [fst]. rewrite IH. cbn [In]. split; [tauto|].
      intros ([<-|H] & H1 & H2 & H3); [lia|tauto].
Qed.

Lemma copy_pages_all (pdf_reader : PDFProcessor.PdfReader) (io : PDFProcessor.ChapterIO)
    (ps : list (option Z)) (page_nums : list Z) :
  PDFProcessor.pages pdf_reader = Some ps ->
  (forall p, In p page_nums ->
     0 <= p < Z.of_nat (length ps) /\ PDFProcessor.add_page_raises io p = false) ->
  PDFProcessor.copy_pages pdf_reader io page_nums = (page_nums, []).
Proof.
  intros Hps. induction page_nums as [|q rest IH]; intros H; [reflexivity|].
  cbn [PDFProcessor.copy_pages]. rewrite IH by (intros p Hp; apply H; right; assumption).
  destruct (H q (or_introl eq_refl)) as [Hb Hr]. rewrite Hps, Hr.
  rewrite (proj2 (Z.leb_le 0 q)) by lia.
  rewrite (proj2 (Z.ltb_lt q _)) by lia. reflexivity.
Qed.

(** X15. The pages put into the file of a chapter are pages of the
    chapter that exist in the document and that [add_page] accepted: the
    0-based index [p] is copied exactly when [start_page <= p + 1 <=
    end_page], [p] is an index of the document, and adding the page did
    not raise. When the chapter lies within the document and no page
    fails, the file holds the pages [start_page - 1] to [end_page - 1] in
    order and nothing is logged. *)
Theorem copy_pages_copies_the_chapter (pdf_reader : PDFProcessor.PdfReader)
    (io : PDFProcessor.ChapterIO) (s e : Z) :
  (forall p,
     In p (fst (PDFProcessor.copy_pages pdf_reader io (PDFProcessor.range (s - 1) e)))
     <-> s <= p + 1 <= e /\ 0 <= p
         /\ (exists ps, PDFProcessor.pages pdf_reader = Some ps
                        /\ p < Z.of_nat (length ps))
         /\ PDFProcessor.add_page_raises io p = false)
  /\ (forall ps,
        PDFProcessor.pages pdf_reader = Some ps ->
        1 <= s -> e <= Z.of_nat (length ps) ->
        (forall p, PDFProcessor.add_page_raises io p = false) ->
        PDFProcessor.copy_pages pdf_reader io (PDFProcessor.range (s - 1) e)
        = (PDFProcessor.range (s - 1) e, [])).
Proof.
  split.
  - intros p. rewrite copy_pages_In, range_In. intuition lia.
  - intros ps Hps Hs He Hr. apply (copy_pages_all _ _ ps); [assumption|].
    intros p Hp. apply range_In in Hp. split; [lia|apply Hr].
Qed.

(** ** Extraction: the files written *)







Module PdfFilesFacts.
Import PDFProcessor.

Section Facts.

Variable nfkc : pystr -> pystr.
Variable env : SplitEnv.
Variable document : Document.t.
Variable settings : SplitSettings.t.
Variable pdf_reader : PdfReader.
Variable output_dir : Path.
Variable output_extension : pystr.
Variable files : Path -> bool.



End Facts.


End PdfFilesFacts.

Module EpubFilesFacts.
Import EPUBProcessor.

Section Facts.

Variable nfkc : pystr -> pystr.
Variable env : SplitEnv.
Variable document : Document.t.
Variable settings : SplitSettings.t.
Variable source_book : option (list Item).
Variable output_dir : Path.
Variable output_extension : pystr.
Variable files : Path -> bool.



End Facts.


End EpubFilesFacts.



(** ** Detection of the EPUB chapters *)

Module TocFacts.
Import EPUBProcessor.

Section Facts.

Variable nfkc : pystr -> pystr.
Variable document_id : option Z.
Variable heap : addr -> TocObj.
Variable repr : addr -> pystr.

Lemma create_chapter_from_link_detected (link : addr) (title : pystr) (chapter_num : Z) :
  epub_detected 0.8 (_create_chapter_from_link nfkc document_id heap repr link title
                       chapter_num)
  /\ Chapter.chapter_number
       (_create_chapter_from_link nfkc document_id heap repr link title chapter_num)
     = chapter_num
  /\ Chapter.xpath
       (_create_chapter_from_link nfkc document_id heap repr link title chapter_num)
     = href_of heap repr link.
Proof.
  unfold _create_chapter_from_link, epub_detected. cbn. repeat split.
  apply sanitize_filename_tidy.
Qed.

Lemma add_link_chapter_ok (link : addr) (title : pystr) (st : toc_state) :
  detector_state_ok (epub_detected 0.8) st ->
  detector_state_ok (epub_detected 0.8)
    (add_link_chapter nfkc document_id heap repr link title st).
Proof.
  destruct st as [chapters chapter_num]. intros Hok. unfold add_link_chapter.
  destruct (create_chapter_from_link_detected link title chapter_num) as (Hd & Hn & _).
  apply detector_state_ok_snoc; assumption.
Qed.

Lemma process_toc_item_ok (fuel : nat) :
  forall item st st',
    process_toc_item nfkc document_id heap repr fuel item st = Some st' ->
    detector_state_ok (epub_detected 0.8) st ->
    detector_state_ok (epub_detected 0.8) st'.
Proof.
  induction fuel as [|fuel IH]; intros item st st'; [discriminate|].
  rewrite TraversalFacts.process_toc_item_S. cbn zeta.
  assert (forall items s s',
            fold_left
              (fun acc subitem =>
                 match acc with
                 | Some st' => process_toc_item nfkc document_id heap repr fuel subitem st'
                 | None => None
                 end) items (Some s) = Some s' ->
            detector_state_ok (epub_detected 0.8) s ->
            detector_state_ok (epub_detected 0.8) s') as Hfold.
  { intros items.
    apply (fold_option_inv
             (fun subitem s =>
                process_toc_item nfkc document_id heap repr fuel subitem s)).
    intros x s s' _. apply IH. }
  destruct (heap item) as [is_list elems|href title|s|].
  - destruct is_list; destruct elems as [|first [|second rest]];
      try (destruct (has_href heap first));
      try (destruct (heap second) as [[|] children| | |]);
      try (intros [= <-]; solve [auto | apply add_link_chapter_ok; assumption]);
      apply Hfold.
  - intros [= <-]. apply add_link_chapter_ok.
  - intros [= <-]. auto.
  - intros [= <-]. auto.
Qed.

Lemma extract_chapters_from_toc_ok (fuel : nat) (toc : option addr)
    (chapters : list Chapter.t) :
  _extract_chapters_from_toc nfkc document_id heap repr fuel toc = Some chapters ->
  numbered_from 1 chapters /\ Forall (epub_detected 0.8) chapters.
Proof.
  unfold _extract_chapters_from_toc.
  assert (forall st : option toc_state,
            (forall s, st = Some s -> detector_state_ok (epub_detected 0.8) s) ->
            option_map fst st = Some chapters ->
            numbered_from 1 chapters /\ Forall (epub_detected 0.8) chapters) as Hfst.
  { intros [[found n]|] H; [|discriminate]. cbn. intros [= <-].
    destruct (H _ eq_refl) as (Hn & _ & Hall). auto. }
  destruct toc as [root|]; [|intros [= <-]; split; [reflexivity|constructor]].
  destruct (heap root) as [is_list elems|href title|s|].
  - destruct is_list; destruct elems as [|first rest];
      try (intros [= <-]; split; [reflexivity|constructor]).
    + apply Hfst. intros s Hs.
      apply (fold_option_inv
               (fun item s =>
                  process_toc_item nfkc document_id heap repr fuel item s)
               (detector_state_ok (epub_detected 0.8)) (first :: rest)
               (fun x t t' _ => process_toc_item_ok fuel x t t') ([], 1) s Hs).
      apply detector_state_ok_nil.
    + apply Hfst. intros s Hs.
      apply (process_toc_item_ok fuel root ([], 1) s Hs). apply detector_state_ok_nil.
  - apply Hfst. intros s Hs.
    apply (process_toc_item_ok fuel root ([], 1) s Hs). apply detector_state_ok_nil.
  - apply Hfst. intros s' Hs.
    apply (process_toc_item_ok fuel root ([], 1) s' Hs). apply detector_state_ok_nil.
  - apply Hfst. intros s Hs.
    apply (process_toc_item_ok fuel root ([], 1) s Hs). apply detector_state_ok_nil.
Qed.

End Facts.

End TocFacts.

(** X18. The chapters [_extract_chapters_from_toc] returns are already
    numbered 1, 2, ... in order, so that renumbering them changes
    nothing; each has the confidence 0.8, a title that is not empty, and
    no page range. *)
Theorem toc_chapters_are_numbered (nfkc : pystr -> pystr) (document_id : option Z)
    (heap : addr -> EPUBProcessor.TocObj) (repr : addr -> pystr) (fuel : nat)
    (toc : option addr) (chapters : list Chapter.t) :
  EPUBProcessor._extract_chapters_from_toc nfkc document_id heap repr fuel toc
  = Some chapters ->
  EPUBProcessor._normalize_chapter_numbers chapters = chapters
  /\ Forall (fun c => Chapter.confidence_score c = 0.8%Q
                      /\ Chapter.title c <> []
                      /\ Chapter.start_page c = None /\ Chapter.end_page c = None)
       chapters.
Proof.
  intros H. apply TocFacts.extract_chapters_from_toc_ok in H as [Hn Hall].
  split; [apply normalize_numbered; assumption|].
  eapply List.Forall_impl; [|exact Hall]. intros c (H1 & H2 & H3 & _ & H5). auto.
Qed.

(** A table of contents of two links. *)
Lemma toc_chapters_are_numbered_witness :
  match EPUBProcessor._extract_chapters_from_toc nfkc_ascii None
          (fun a => match a with
                    | 0%nat => EPUBProcessor.TocSeq true [1%nat; 2%nat]
                    | 1%nat => EPUBProcessor.Link (py "ch1.xhtml") (py "One")
                    | _ => EPUBProcessor.Link (py "ch2.xhtml") (py "Two")
                    end)
          (fun _ => []) 3 (Some 0%nat) with
  | Some chapters => EPUBProcessor._normalize_chapter_numbers chapters = chapters
  | None => False
  end.
Proof.
  destruct (EPUBProcessor._extract_chapters_from_toc nfkc_ascii None _ _ 3 (Some 0%nat))
    as [chapters|] eqn:E.
  - apply (toc_chapters_are_numbered _ _ _ _ _ _ _ E).
  - vm_compute in E. discriminate E.
Defined.







(** ** The items of an EPUB chapter *)

Lemma startswith_refl (s : pystr) : startswith s s = true.
Proof. induction s as [|c s IH]; cbn; [reflexivity|]. rewrite cp_eqb_refl. exact IH. Qed.

Lemma contains_refl (s : pystr) : contains s s = true.
Proof. destruct s; cbn; [reflexivity|]. rewrite cp_eqb_refl, startswith_refl. reflexivity. Qed.

Lemma contains_empty (s : pystr) : contains [] s = true.
Proof. destruct s; reflexivity. Qed.

Lemma get_chapter_items_unfold (all_items : list EPUBProcessor.Item) (c : Chapter.t) :
  EPUBProcessor._get_chapter_items (Some all_items) c
  = match List.find (refers_to c) all_items with
    | Some item => [item]
    | None => match all_items with first :: _ => [first] | [] => [] end
    end.
Proof. reflexivity. Qed.

(** X20. [_get_chapter_items] returns one item of the book, or none when
    the book has no document: the item is one the chapter refers to when
    there is one, else the first document of the book. A chapter the
    content detector made from a book always refers to an item of that
    book, so that it is extracted from an item it refers to. *)
Theorem get_chapter_items_result (all_items : list EPUBProcessor.Item) (c : Chapter.t) :
  let found := EPUBProcessor._get_chapter_items (Some all_items) c in
  (length found <= 1)%nat
  /\ (found = [] <-> all_items = [])
  /\ (forall item, In item found -> In item all_items)
  /\ ((exists x, In x all_items /\ refers_to c x = true) ->
      forall item, In item found -> refers_to c item = true)
  /\ (forall nfkc document_id,
        c ∈ EPUBProcessor._extract_chapters_from_content nfkc document_id
              (Some all_items) ->
        exists item, found = [item] /\ In item all_items /\ refers_to c item = true).
Proof.
  cbn zeta. rewrite get_chapter_items_unfold.
  destruct (List.find (refers_to c) all_items) as [item|] eqn:E.
  - apply find_some in E as [Hin Href].
    split; [cbn; lia|]. split; [split; [discriminate|intros ->; destruct Hin]|].
    split; [intros x [<-|[]]; assumption|].
    split; [intros _ x [<-|[]]; assumption|]. eauto.
  - pose proof (find_none _ _ E) as Hnone.
    split; [destruct all_items; cbn; lia|].
    split; [destruct all_items; split; congruence|].
    split; [destruct all_items as [|first rest];
            [intros x []|intros x [<-|[]]; left; reflexivity]|].
    split.
    + intros (x & Hx & Hr). rewrite (Hnone x Hx) in Hr. discriminate.
    + intros nfkc document_id Hc. exfalso.
      apply ContentFacts.content_chapters_elem in Hc as (idx & item & Hl & Hc).
      apply list_elem_of_lookup_2, list_elem_of_In in Hl.
      specialize (Hnone item Hl).
      unfold EPUBProcessor.chapter_of_item in Hc.
      destruct (EPUBProcessor.content item) as [text|]; [|discriminate].
      destruct (truthy text); cbn [negb] in Hc; [|discriminate].
      destruct (EPUBProcessor.soup item) as [parsed|]; [|discriminate].
      destruct (truthy _); [|discriminate]. injection Hc as <-.
      unfold refers_to in Hnone. cbn in Hnone.
      destruct (EPUBProcessor.file_name item) as [name|].
      * rewrite contains_refl in Hnone. discriminate.
      * rewrite contains_empty, orb_true_r in Hnone. discriminate.
Qed.

(** ** Metadata of an EPUB *)

Lemma safe_get_metadata_stripped (book : EPUBProcessor.EpubBook)
    (namespace name : string) :
  first_in is_space (EPUBProcessor._safe_get_metadata book namespace name) = false
  /\ last_in is_space (EPUBProcessor._safe_get_metadata book namespace name) = false.
Proof.
  unfold EPUBProcessor._safe_get_metadata.
  destruct (EPUBProcessor.book_metadata book namespace name) as [[|value values]|];
    try (split; reflexivity).
  destruct value as [[|first elems] repr|repr]; apply strip_ends.
Qed.

(** X21. Reading an EPUB file that exists raises nothing. When the book
    cannot be opened, the document gets the file stem as title, the author
    [unknown] and the language [unknown]. When it can, title and author
    are the first [DC] title and creator, stripped of surrounding white
    space, and the empty string when the book has none (never the file
    stem); the estimated page count is the number of document items, 0
    when they cannot be listed. A file that does not exist raises
    [FileProcessingError]. *)
Theorem read_epub_document_metadata (file_path : pystr) (file_size : Z)
    (source : option EPUBProcessor.EpubBook) :
  (exists doc,
     EPUBProcessor.read_epub_document file_path (Some file_size) source = Ok doc
     /\ Document.file_size doc = file_size
     /\ match source with
        | None =>
            Document.title doc = path_stem file_path
            /\ Document.author doc = py "unknown"
            /\ Document.metadata doc !! "language"%string = Some (VStr (py "unknown"))
        | Some book =>
            Document.title doc = EPUBProcessor._safe_get_metadata book "DC" "title"
            /\ Document.author doc = EPUBProcessor._safe_get_metadata book "DC" "creator"
            /\ first_in is_space (Document.title doc) = false
            /\ last_in is_space (Document.title doc) = false
            /\ Document.metadata doc !! "estimated_pages"%string
               = Some (VInt (match EPUBProcessor.book_items book with
                             | Some items => Z.of_nat (length items)
                             | None => 0
                             end))
        end)
  /\ (forall book namespace name,
        EPUBProcessor.book_metadata book namespace name = None
        \/ EPUBProcessor.book_metadata book namespace name = Some [] ->
        EPUBProcessor._safe_get_metadata book namespace name = [])
  /\ EPUBProcessor.read_epub_document file_path None source
     = Raise (FileProcessingError FileMissing).
Proof.
  split; [|split; [|reflexivity]].
  - eexists. split; [reflexivity|]. split; [reflexivity|].
    unfold EPUBProcessor._extract_epub_metadata, EPUBProcessor.fallback_metadata,
      EPUBProcessor.get_text.
    cbn [Document.title Document.author Document.metadata Document.make].
    destruct source as [book|]; [|by simplify_map_eq].
    pose proof (safe_get_metadata_stripped book "DC" "title") as [Hf Hl].
    destruct (EPUBProcessor.book_items book); by simplify_map_eq.
  - intros book namespace name [H|H];
      unfold EPUBProcessor._safe_get_metadata; rewrite H; reflexivity.
Qed.

(** ** Extraction: when nothing fails *)

Lemma extracted_paths_all (valid : Chapter.t -> bool) (before after : list Chapter.t) :
  length after = length before ->
  Forall (fun c => valid c = true) before ->
  Forall (fun c => Chapter.split_status c = ProcessingStatus.SUCCESS) after ->
  extracted_paths valid before after = map Chapter.output_file_path after.
Proof.
  unfold extracted_paths. revert after.
  induction before as [|b before IH]; intros [|a after] Hlen Hb Ha;
    try discriminate; [reflexivity|].
  inversion Hb as [|? ? Hvb Hb']; subst. inversion Ha as [|? ? Hsa Ha']; subst.
  cbn. rewrite Hvb, Hsa. cbn. f_equal. apply IH; auto.
Qed.

(** X22. When the set-up of a split succeeds, every chapter passes the
    pre-check and no call fails for any chapter, every chapter is
    extracted: all end in [SUCCESS], and the list returned holds their
    output paths, one per chapter and in the order of the chapters. For
    the PDF and for the EPUB extractor. *)
Theorem split_extracts_every_chapter (nfkc : pystr -> pystr)
    (document : Document.t) (settings : SplitSettings.t) (files : Path -> bool)
    (chapters : list Chapter.t) :
  (forall env : PDFProcessor.SplitEnv,
     pdf_setup_ok env settings = true ->
     Forall (fun c => Chapter.is_valid_pdf_chapter c = true) chapters ->
     (forall i, (i < length chapters)%nat ->
        pdf_chapter_fails (PDFProcessor.chapter_io env i) = false) ->
     let run :=
       PDFProcessor.split_pdf_by_chapters nfkc env document settings files chapters in
     outcome run = Ok (map Chapter.output_file_path (chapters_after run))
     /\ length (chapters_after run) = length chapters
     /\ Forall (fun c => Chapter.split_status c = ProcessingStatus.SUCCESS)
          (chapters_after run))
  /\ (forall (env : EPUBProcessor.SplitEnv) source_book,
        epub_setup_ok env settings = true ->
        EPUBProcessor.source env = Some source_book ->
        Forall (fun c => has_xpath c = true) chapters ->
        (forall i c, chapters !! i = Some c ->
           epub_chapter_fails source_book (EPUBProcessor.chapter_io env i) c = false) ->
        let run :=
          EPUBProcessor.split_epub_by_chapters nfkc env document settings files
            chapters in
        outcome run = Ok (map Chapter.output_file_path (chapters_after run))
        /\ length (chapters_after run) = length chapters
        /\ Forall (fun c => Chapter.split_status c = ProcessingStatus.SUCCESS)
             (chapters_after run)).
Proof.
  split.
  - intros env Hok Hvalid Hio. cbn zeta.
    destruct (pdf_split_runs_loop nfkc env document settings files chapters Hok)
      as (reader & ext & st0 & Hsrc & Hfs & Hout & ->). cbn zeta.
    cbn [outcome chapters_after].
    destruct (PdfSplitFacts.pdf_split_loop_each nfkc env document settings reader
                (Path_of (SplitSettings.output_directory settings)) ext chapters 0 st0)
      as (Hlen & Hi & Hfiles).
    assert (Forall (fun c => Chapter.split_status c = ProcessingStatus.SUCCESS)
              (snd (PDFProcessor.split_loop nfkc env document settings reader
                      (Path_of (SplitSettings.output_directory settings)) ext 0
                      chapters st0))) as Hall.
    { apply Forall_lookup. intros i c' Hc'.
      destruct (chapters !! i) as [c|] eqn:Hc.
      - destruct (Hi i c Hc) as [st_i Hst]. rewrite Hst in Hc'. injection Hc' as <-.
        rewrite PdfSplitFacts.pdf_split_chapter_status.
        rewrite Forall_lookup in Hvalid. rewrite (Hvalid i c Hc).
        cbn [Nat.add]. rewrite Hio; [reflexivity|]. apply lookup_lt_Some in Hc. exact Hc.
      - apply lookup_ge_None in Hc. apply lookup_lt_Some in Hc'. lia. }
    split; [|split; assumption].
    rewrite Hfiles, Hout. cbn [app]. f_equal.
    apply extracted_paths_all; assumption.
  - intros env source_book Hok Hsrc Hvalid Hio. cbn zeta.
    destruct (epub_split_runs_loop nfkc env document settings files chapters Hok)
      as (book & ext & st0 & Hsrc' & Hfs & Hout & ->). cbn zeta.
    rewrite Hsrc in Hsrc'. injection Hsrc' as <-.
    cbn [outcome chapters_after].
    destruct (EpubSplitFacts.epub_split_loop_each nfkc env document settings source_book
                (Path_of (SplitSettings.output_directory settings)) ext chapters 0 st0)
      as (Hlen & Hi & Hfiles).
    assert (Forall (fun c => Chapter.split_status c = ProcessingStatus.SUCCESS)
              (snd (EPUBProcessor.split_loop nfkc env document settings source_book
                      (Path_of (SplitSettings.output_directory settings)) ext 0
                      chapters st0))) as Hall.
    { apply Forall_lookup. intros i c' Hc'.
      destruct (chapters !! i) as [c|] eqn:Hc.
      - destruct (Hi i c Hc) as [st_i Hst]. rewrite Hst in Hc'. injection Hc' as <-.
        rewrite EpubSplitFacts.epub_split_chapter_status.
        rewrite Forall_lookup in Hvalid. rewrite (Hvalid i c Hc).
        cbn [Nat.add]. rewrite (Hio i c Hc). reflexivity.
      - apply lookup_ge_None in Hc. apply lookup_lt_Some in Hc'. lia. }
    split; [|split; assumption].
    rewrite Hfiles, Hout. cbn [app]. f_equal.
    apply extracted_paths_all; assumption.
Qed.

(** The first sample chapter alone, in the sample environment, where the
    first chapter can be written. *)
Lemma split_extracts_every_chapter_witness :
  Forall (fun c => Chapter.split_status c = ProcessingStatus.SUCCESS)
    (chapters_after
       (PDFProcessor.split_pdf_by_chapters nfkc_ascii sample_pdf_env sample_pdf
          sample_settings no_files
          [Chapter.make None 1 (py "One") (Some 1) (Some 1) [] 0.9])).
Proof.
  destruct (split_extracts_every_chapter nfkc_ascii sample_pdf sample_settings no_files
              [Chapter.make None 1 (py "One") (Some 1) (Some 1) [] 0.9]) as [Hpdf _].
  apply (Hpdf sample_pdf_env).
  - reflexivity.
  - repeat constructor.
  - intros i Hi. cbn in Hi. destruct i; [reflexivity|lia].
Defined.

(** ** The output directory, network paths and the output format *)

(** X23. [validate_output_directory] returns an error message exactly
    when it returns [False]; and it returns [True] exactly when a
    directory is given, probing it does not raise, it exists or can be
    created, it is writable, and the file system does not report fewer
    than 1048576 free blocks. *)
Theorem validate_output_directory_verdict (env : pystr -> DirEnv) (directory : pystr) :
  let r := validate_output_directory env directory in
  (fst r = true <-> snd r = None)
  /\ (fst r = true <->
      directory <> []
      /\ dir_check_raises (env directory) = false
      /\ (dir_exists (env directory) = true \/ mkdir_ok (env directory) = true)
      /\ dir_writable (env directory) = true
      /\ forall free, dir_bavail (env directory) = Some free -> 1048576 <= free).
Proof.
  cbn zeta. unfold validate_output_directory.
  destruct directory as [|c directory]; cbn [truthy negb].
  - split; split; try discriminate. intros (H & _). congruence.
  - set (e := env (c :: directory)).
    destruct (dir_check_raises e); [split; split; try discriminate; intuition discriminate|].
    destruct (dir_exists e), (mkdir_ok e); cbn [negb andb];
      try (split; split; try discriminate; intuition discriminate);
      (destruct (dir_writable e); cbn [negb];
       [|split; split; try discriminate; intuition discriminate];
       destruct (dir_bavail e) as [free|];
       [destruct (Z.ltb_spec free (1024 * 1024)) as [Hlt|Hge]|]; cbn [fst snd];
       split; split; try discriminate; try reflexivity;
       try (intros _; repeat split; auto; try discriminate;
            intros free' [= <-]; lia);
       try (intros (_ & _ & _ & _ & H); specialize (H free eq_refl); lia)).
Qed.

(** X24. [is_network_path] is true of every path that starts with two
    slashes or two backslashes, and of every path that holds a colon
    anywhere but in second place; it is false of a path whose second
    character is a colon (a drive letter), and a path without a colon is a
    network path only by its first two characters. *)
Theorem is_network_path_cases (s : pystr) :
  (startswith s (py "//") = true -> is_network_path s = true)
  /\ (startswith s (py "\\") = true -> is_network_path s = true)
  /\ (nth_error s 1 = Some COLON -> is_network_path s = false)
  /\ (In COLON s -> nth_error s 1 <> Some COLON -> is_network_path s = true)
  /\ (~ In COLON s ->
      is_network_path s = startswith s (py "\\") || startswith s (py "//")).
Proof.
  unfold is_network_path.
  assert (forall t : pystr, existsb (fun c => cp_eqb c COLON) t = true <-> In COLON t)
    as Hcolon.
  { intros t. rewrite existsb_exists. split.
    - intros (x & Hx & E). apply cp_eqb_eq in E. subst x. assumption.
    - intros H. exists COLON. split; [assumption|reflexivity]. }
  split; [|split; [|split; [|split]]].
  - intros ->. rewrite orb_true_r. reflexivity.
  - intros ->. reflexivity.
  - destruct s as [|a [|b s]]; try discriminate. cbn [nth_error]. intros [= ->].
    assert ((len (a :: COLON :: s) >? 1) = true) as ->.
    { rewrite Z.gtb_ltb. apply Z.ltb_lt. unfold len. cbn [length]. lia. }
    cbn. rewrite !andb_false_r. reflexivity.
  - intros Hin Hsecond. apply Hcolon in Hin. rewrite Hin.
    destruct s as [|a [|b s]]; [discriminate|cbn; apply orb_true_r|].
    cbn [nth_error] in *. destruct (cp_eqb b COLON) eqn:E.
    + apply cp_eqb_eq in E. congruence.
    + rewrite andb_false_r. cbn [negb andb]. apply orb_true_r.
  - intros Hnot. destruct (existsb _ s) eqn:E.
    + apply Hcolon in E. contradiction.
    + cbn [andb]. apply orb_false_r.
Qed.

(** X25. The extension [get_output_extension] returns is the native one
    of the file type ([.pdf] for a PDF, [.epub] otherwise) whenever
    [requires_format_conversion] is false, which it always is for the
    same-as-input format; and it is another one whenever a conversion is
    required of a PDF or of an EPUB. *)
Theorem output_extension_follows_conversion (s : SplitSettings.t) (ft : FileType.t) :
  let native := if FileType.eqb ft FileType.PDF then py ".pdf" else py ".epub" in
  (SplitSettings.requires_format_conversion s ft = false ->
   SplitSettings.get_output_extension s ft = native)
  /\ (SplitSettings.requires_format_conversion s ft = true ->
      ft <> FileType.UNKNOWN ->
      SplitSettings.get_output_extension s ft <> native)
  /\ (SplitSettings.output_format s = OutputFormat.SAME_AS_INPUT ->
      SplitSettings.requires_format_conversion s ft = false).
Proof.
  cbn zeta.
  unfold SplitSettings.requires_format_conversion, SplitSettings.get_output_extension.
  destruct (SplitSettings.output_format s), ft; cbn;
    repeat split; intros; try discriminate; try reflexivity; try congruence.
Qed.

(** ** Joining paths safely *)

Lemma split_on_forallb (q : codepoint -> bool) (sep : codepoint) (s : pystr) :
  forallb q s = true -> Forall (fun w => forallb q w = true) (split_on sep s).
Proof.
  induction s as [|c s IH]; cbn [split_on forallb]; [repeat constructor|].
  intros H. apply andb_true_iff in H as [Hc Hs]. specialize (IH Hs).
  destruct (cp_eqb c sep); [constructor; [reflexivity|assumption]|].
  destruct (split_on sep s) as [|w ws]; [repeat constructor; cbn; rewrite Hc; reflexivity|].
  inversion IH as [|? ? Hw Hws]; subst. constructor; [|assumption].
  cbn. rewrite Hc, Hw. reflexivity.
Qed.

Lemma path_parts_forallb (q : codepoint -> bool) (s : pystr) :
  forallb q s = true ->
  Forall (fun w => forallb q w = true /\ w <> [] /\ w <> [DOT]) (path_parts s).
Proof.
  intros H. unfold path_parts. apply List.Forall_forall. intros w Hw.
  apply filter_In in Hw as [Hin Hf]. apply andb_true_iff in Hf as [Ht Hd].
  pose proof (split_on_forallb q SLASH s H) as Hall.
  rewrite List.Forall_forall in Hall. split; [apply Hall; assumption|].
  split; [intros ->; discriminate Ht|].
  intros ->. discriminate Hd.
Qed.

Lemma joinpath_parts (P : pystr -> Prop) (p : Path) (s : pystr) :
  Forall P (parts p) -> Forall P (path_parts s) -> Forall P (parts (joinpath p s)).
Proof.
  intros Hp Hs. unfold joinpath. destruct (startswith s [SLASH]); cbn [parts Path_of].
  - assumption.
  - apply Forall_app. split; assumption.
Qed.

Lemma safe_part_chars (part s : pystr) :
  safe_part part = Some s -> forallb safe_path_char s = true.
Proof.
  unfold safe_part. destruct (negb (truthy part)); [discriminate|].
  destruct (truthy _ && _); [|discriminate]. intros [= <-].
  apply re_sub_class_forallb; [reflexivity|].
  intros c Hc Hin. apply filter_In in Hin as [_ Ht].
  unfold safe_path_char. rewrite Ht, Hc. reflexivity.
Qed.

(** X26. No name of the path [safe_join_path] returns holds a tilde or
    one of the characters [<], [>], [:], the double quote, [|], [?], [*],
    and none is empty or a single dot, whatever the parts are. Without a
    usable part the path is ["."]. A name [..] can remain: the two dots
    are removed before the tilde is, so that [.~.] inside a part becomes
    [..]. *)
Theorem safe_join_path_characters (ps : list pystr) :
  Forall (fun w => forallb safe_path_char w = true /\ w <> [] /\ w <> [DOT])
    (parts (safe_join_path ps))
  /\ (omap safe_part ps = [] -> safe_join_path ps = Path_of (py "."))
  /\ parts (safe_join_path [py "out"; py ".~./x"]) = [py "out"; py ".."; py "x"].
Proof.
  unfold safe_join_path. split; [|split; [intros ->|]; reflexivity].
  assert (Forall (fun s => forallb safe_path_char s = true) (omap safe_part ps)) as Hall.
  { apply Forall_forall. intros s Hs. apply list_elem_of_omap in Hs as (part & _ & Hp).
    apply (safe_part_chars part). assumption. }
  destruct (omap safe_part ps) as [|first rest]; [constructor|].
  inversion Hall as [|? ? Hfirst Hrest]; subst.
  assert (Forall (fun w => forallb safe_path_char w = true /\ w <> [] /\ w <> [DOT])
            (parts (Path_of first))) as Hstart
    by (apply path_parts_forallb; assumption).
  clear Hall Hfirst. revert Hstart. generalize (Path_of first).
  induction rest as [|s rest IH]; intros p Hp; [exact Hp|].
  inversion Hrest as [|? ? Hs Hrest']; subst. cbn [fold_left].
  apply IH; [assumption|].
  apply joinpath_parts; [assumption|]. apply path_parts_forallb. assumption.
Qed.

(** ** Reserved device names *)

Lemma in_reserved_underscore (u : pystr) : in_reserved (UNDERSCORE :: u) = false.
Proof. reflexivity. Qed.

(** The stem of a name that holds the three dots of a truncation holds
    a dot. *)
Lemma stem_with_ellipsis (a b : pystr) :
  no_char DOT (name_stem (a ++ py "..." ++ b)) = false.
Proof.
  assert (Hwhole : no_char DOT (a ++ py "..." ++ b) = false).
  { rewrite no_char_app. apply andb_false_r. }
  unfold name_stem, suffix_index.
  destruct (rfind DOT (a ++ py "..." ++ b)) as [i|] eqn:E; [|assumption].
  destruct ((0 <? i)%nat && (S i <? length (a ++ py "..." ++ b))%nat);
    [|assumption].
  rewrite rfind_app in E.
  change (py "..." ++ b) with ([DOT; DOT; DOT] ++ b) in E.
  rewrite (rfind_app DOT [DOT; DOT; DOT] b) in E.
  assert (exists j, i = (length a + S (S j))%nat) as [j ->].
  { destruct (rfind DOT b) as [k|]; cbn in E; injection E as <-.
    - exists (S k). cbn. lia.
    - exists 0%nat. lia. }
  rewrite firstn_app_2. rewrite no_char_app. cbn. apply andb_false_r.
Qed.

Lemma not_reserved_with_dot (u : pystr) :
  no_char DOT u = false -> in_reserved (upper u) = false.
Proof.
  intros H. destruct (in_reserved (upper u)) eqn:E; [|reflexivity].
  apply in_reserved_shape in E as [E _]. rewrite upper_no_dot in E. congruence.
Qed.

Lemma sanitize_finish_not_reserved (max_length : Z) (s : pystr) :
  tidy s = true ->
  first_in (char_in [UNDERSCORE; SPACE]) s = false ->
  in_reserved (upper (path_stem (sanitize_finish max_length s))) = false.
Proof.
  intros Ht Hf. rewrite sanitize_finish_unfold. cbn zeta.
  set (f := if in_reserved (upper (path_stem s)) then UNDERSCORE :: s else s).
  assert (tidy f = true) as Htf.
  { subst f. destruct (in_reserved _); [apply tidy_cons_underscore|]; assumption. }
  assert (in_reserved (upper (path_stem f)) = false) as Hrf.
  { subst f. destruct (in_reserved (upper (path_stem s))) eqn:R; [|assumption].
    assert (s <> [DOT]) as Hd by (intros ->; discriminate R).
    destruct (path_stem_tidy s Ht Hd) as [Hs _]. rewrite Hs in R.
    destruct (path_stem_tidy (UNDERSCORE :: s)) as [-> _];
      [apply tidy_cons_underscore; assumption|discriminate|].
    destruct (reserved_stem_cons UNDERSCORE s R eq_refl) as [-> _].
    reflexivity. }
  destruct (path_pieces_tidy f Htf) as (Hstem & Hsuf & Hsp & Hus).
  set (g := if len f >? max_length then _ else f).
  assert (in_reserved (upper (path_stem g)) = false) as Hrg.
  { subst g. destruct (len f >? max_length); [|assumption].
    destruct (_ >? 0).
    - set (a := firstn _ (path_stem f)).
      assert (tidy (a ++ py "..." ++ path_suffix f) = true) as Htg.
      { apply tidy_app; [apply tidy_firstn; assumption| | |].
        2: { replace (first_in is_space (py "..." ++ path_suffix f)) with false
               by reflexivity. apply andb_false_r. }
        2: { replace (first_in (cp_eqb UNDERSCORE) (py "..." ++ path_suffix f))
               with false by reflexivity. apply andb_false_r. }
        apply tidy_app; [reflexivity|assumption| |].
        + rewrite Hsp. apply andb_false_r.
        + rewrite Hus. apply andb_false_r. }
      destruct (path_stem_tidy _ Htg) as [-> _].
      { intros E. apply (f_equal (@length _)) in E.
        rewrite length_app in E. cbn in E. lia. }
      apply not_reserved_with_dot, stem_with_ellipsis.
    - assert (tidy (py "truncated" ++ path_suffix f) = true) as Htg.
      { apply tidy_app; [reflexivity|assumption| |].
        + rewrite Hsp. apply andb_false_r.
        + rewrite Hus. apply andb_false_r. }
      destruct (path_stem_tidy _ Htg) as [-> _]; [discriminate|].
      assert (name_stem (py "truncated" ++ path_suffix f) = py "truncated") as ->;
        [|reflexivity].
      destruct (pystr_eqb f [DOT]) eqn:Ef.
      { apply pystr_eqb_eq in Ef. rewrite Ef. reflexivity. }
      apply pystr_eqb_neq in Ef. destruct (path_stem_tidy f Htf Ef) as [_ ->].
      destruct (name_suffix_shape f) as [-> | (e & -> & Hne & Hed & _)];
        [reflexivity|].
      apply stem_suffix_of_app; [discriminate|assumption|assumption]. }
  destruct (negb (truthy g) || pystr_eqb g [UNDERSCORE]); [reflexivity|assumption].
Qed.

(** X27. Whatever the text, the normaliser and the maximum length, the
    stem of the name that [sanitize_filename] returns is not one of the
    [RESERVED_NAMES], in any letter case: the test that the function
    makes on the cleaned name fails on its own result, also after the
    truncation and the fall-back to the default name. *)
Theorem sanitize_filename_result_not_reserved (nfkc : pystr -> pystr)
    (max_length : Z) (filename : pystr) :
  in_reserved (upper (path_stem (sanitize_filename nfkc max_length filename)))
  = false.
Proof.
  rewrite sanitize_filename_unfold.
  destruct (negb (truthy filename)); [reflexivity|].
  destruct (sanitize_strip_tidy (nfkc filename)) as (Ht & Hf & _).
  apply sanitize_finish_not_reserved; assumption.
Qed.
